(** * geany-lsp: server lifecycle, capability negotiation and document sync

    A shallow embedding of [plugins/lsp/lsp-server.c] and
    [plugins/lsp/lsp-sync.c].  Heap-allocated [LspServer] structs live in a
    store indexed by address, the two [GPtrArray]s and the two [GHashTable]s
    are explicit fields of the program state, and every call that leaves the
    plugin (subprocess control, RPC traffic, dialogs) is recorded, in order,
    in a list of effects. *)

From Stdlib Require Import ZArith String Ascii Lia.
From stdpp Require Import gmap strings list.

Open Scope string_scope.
Open Scope Z_scope.

(** ** Machine integers *)

Module MachInt.

Definition INT_MAX : Z := 2147483647.
Definition UINT_MODULUS : Z := 4294967296.
Definition UINT64_MODULUS : Z := 18446744073709551616.

(** [gint] / [gint32]: two's complement, 32 bits. *)
Definition to_gint (z : Z) : Z := (z + 2147483648) mod UINT_MODULUS - 2147483648.

(** [guint]: 32 bits, arithmetic modulo 2^32. *)
Definition to_guint (z : Z) : Z := z mod UINT_MODULUS.

(** [guint64]. *)
Definition to_guint64 (z : Z) : Z := z mod UINT64_MODULUS.

Lemma to_gint_small z : -2147483648 <= z <= INT_MAX -> to_gint z = z.
Proof.
  unfold to_gint, UINT_MODULUS, INT_MAX. intros Hz.
  rewrite Z.mod_small by lia. lia.
Qed.

Lemma to_guint_small z : 0 <= z < UINT_MODULUS -> to_guint z = z.
Proof. unfold to_guint. intros Hz. now rewrite Z.mod_small. Qed.

End MachInt.

(** ** JSON values, as [jsonrpc-glib] hands them over in a [GVariant] *)

Module Json.

(** A number with a fraction or exponent is deserialised as a double; only
    its lexeme is kept, no arithmetic is done on it. *)
#[local] Unset Elimination Schemes.
Inductive json : Type :=
| JNull
| JBool (b : bool)
| JInt (n : Z)
| JDouble (lexeme : string)
| JString (s : string)
| JArray (items : list json)
| JObject (members : list (string * json)).
#[local] Set Elimination Schemes.

Fixpoint assoc (key : string) (kvs : list (string * json)) : option json :=
  match kvs with
  | [] => None
  | (k, v) :: rest => if String.eqb k key then Some v else assoc key rest
  end.

(** Member of a dictionary; anything that is not a dictionary has none. *)
Definition member (key : string) (v : json) : option json :=
  match v with
  | JObject kvs => assoc key kvs
  | _ => None
  end.

(** [key, "{", ... "}"] of [JSONRPC_MESSAGE_PARSE]: descend into a member
    that is itself a dictionary. *)
Definition get_dict (key : string) (v : json) : option json :=
  match member key v with
  | Some (JObject kvs) => Some (JObject kvs)
  | _ => None
  end.

(** [JSONRPC_MESSAGE_GET_BOOLEAN]: succeeds only on a boolean member. *)
Definition get_boolean (key : string) (v : json) : option bool :=
  match member key v with
  | Some (JBool b) => Some b
  | _ => None
  end.

(** [JSONRPC_MESSAGE_GET_INT64]: succeeds only on an integer member. *)
Definition get_int64 (key : string) (v : json) : option Z :=
  match member key v with
  | Some (JInt n) => Some n
  | _ => None
  end.

(** [JSONRPC_MESSAGE_GET_ITER]: succeeds only on an array member. *)
Definition get_iter (key : string) (v : json) : option (list json) :=
  match member key v with
  | Some (JArray items) => Some items
  | _ => None
  end.

(** [g_variant_get_string] on an element of an iterator; [None] stands for
    the [NULL] returned on an element that is not a string. *)
Definition get_string (v : json) : option string :=
  match v with
  | JString s => Some s
  | _ => None
  end.

End Json.

Import Json.

(** ** Sessions, documents and the program state *)

(** An [LspServer *]: the address of a session struct in the store. *)
Definition addr := nat.

(** A live [GSubprocess *]. *)
Definition process := nat.

(** [LspServerConfig] (declared in lsp-server.h, which is not among the
    sources): the command with its environment, the reference language, the
    project policy and the feature switches.  Styles, window sizes and log
    options play no part in the code below and are left out. *)
Record LspServerConfig := {
  cmd : option string;
  env : list string;
  ref_lang : option string;
  show_server_stderr : bool;
  use_outside_project_dir : bool;
  use_without_project : bool;
  autocomplete_enable : bool;
  signature_enable : bool;
  hover_enable : bool;
  goto_enable : bool;
  document_symbols_enable : bool;
  highlighting_enable : bool;
  semantic_tokens_enable : bool
}.

(** [LspServer] (declared in lsp-server.h): the members the two files use.
    [rpc_client], [stream] and [log] exist exactly when [process] does and
    carry no state the model needs. *)
Record LspServer := {
  filetype : nat;
  srv_process : option process;
  config : LspServerConfig;
  autocomplete_trigger_chars : option string;
  signature_trigger_chars : option string;
  initialize_response : option string;
  supports_workspace_symbols : bool;
  srv_use_incremental_sync : bool;
  semantic_token_mask : Z;
  startup_shutdown : bool;
  restarts : Z;
  not_used : bool;
  referenced : option addr
}.

(** [LspPosition] (declared in lsp-utils.h). *)
Record LspPosition := { line : Z; character : Z }.

(** A [GeanyDocument *].  [doc_id] is the pointer itself, the key of
    [open_docs]; [sci_contents] is what [sci_get_contents] returns now. *)
Record GeanyDocument := {
  doc_id : nat;
  real_path : option string;
  file_type : nat;
  changed : bool;
  sci_contents : string
}.

(** What the plugin asks of the editor and of its own helper modules that
    are compiled from other files. *)
Class Host := {
  (** Geany's table of file types: [filetypes_index (i)] is non-[NULL] for
      [i < filetypes_count]. *)
  filetypes_count : nat;
  filetypes_lookup_by_name : string -> option nat;
  (** The configuration [lsp_server_new] assembles for a file type from the
      global and the user key file. *)
  load_server_config : nat -> LspServerConfig;
  lsp_utils_is_lsp_disabled_for_project : bool;
  (** [geany_data->app->project != NULL]. *)
  app_project : bool;
  (** [lsp_utils_get_relative_path] of a document path against the project
      base path. *)
  project_relative_path : string -> option string;
  lsp_utils_get_doc_uri : GeanyDocument -> string;
  lsp_utils_get_lsp_lang_name : GeanyDocument -> string;
  lsp_utils_json_pretty_print : json -> string
}.

(** Calls that leave the plugin, in program order.  The lines written to
    the status window ([msgwin_status_add]) are not recorded. *)
Inductive effect : Type :=
| Spawn (srv : addr) (command : string)
    (* g_subprocess_launcher_spawnv, whatever its outcome *)
| Dialog (command : string)
    (* dialogs_show_msgbox: "terminated more than 5 times, giving up" *)
| SendSigterm (p : process)
| ForceExit (p : process)
| ClientCall (srv : addr) (method : string)
    (* lsp_client_call_startup_shutdown *)
| ClientNotify (srv : addr) (method : string)
    (* lsp_client_notify *)
| RpcNotify (srv : addr) (method : string) (params : json)
    (* lsp_rpc_notify *)
| SemtokensInit (ft : nat).

(** The globals of the two translation units plus the store of sessions.
    [lsp_servers] and [open_docs] are [None] while the pointer is [NULL].
    [servers_in_shutdown] is created by the first [lsp_server_init_all] and
    kept for good, [doc_version_nums] is created on first use and kept for
    good: the model has both from the start, empty. *)
Record World := {
  heap : gmap addr LspServer;
  next_addr : addr;
  lsp_servers : option (list addr);
  servers_in_shutdown : list addr;
  open_docs : option (gset nat);
  doc_version_nums : gmap string Z;
  trace : list effect
}.

(** ** Field updates *)

Definition set_cmd (v : option string) (r : LspServerConfig) : LspServerConfig :=
  {| cmd := v; env := env r; ref_lang := ref_lang r;
     show_server_stderr := show_server_stderr r;
     use_outside_project_dir := use_outside_project_dir r;
     use_without_project := use_without_project r;
     autocomplete_enable := autocomplete_enable r; signature_enable := signature_enable r;
     hover_enable := hover_enable r; goto_enable := goto_enable r;
     document_symbols_enable := document_symbols_enable r;
     highlighting_enable := highlighting_enable r;
     semantic_tokens_enable := semantic_tokens_enable r |}.

Definition set_autocomplete_enable (v : bool) (r : LspServerConfig) : LspServerConfig :=
  {| cmd := cmd r; env := env r; ref_lang := ref_lang r;
     show_server_stderr := show_server_stderr r;
     use_outside_project_dir := use_outside_project_dir r;
     use_without_project := use_without_project r; autocomplete_enable := v;
     signature_enable := signature_enable r; hover_enable := hover_enable r;
     goto_enable := goto_enable r; document_symbols_enable := document_symbols_enable r;
     highlighting_enable := highlighting_enable r;
     semantic_tokens_enable := semantic_tokens_enable r |}.

Definition set_signature_enable (v : bool) (r : LspServerConfig) : LspServerConfig :=
  {| cmd := cmd r; env := env r; ref_lang := ref_lang r;
     show_server_stderr := show_server_stderr r;
     use_outside_project_dir := use_outside_project_dir r;
     use_without_project := use_without_project r;
     autocomplete_enable := autocomplete_enable r; signature_enable := v;
     hover_enable := hover_enable r; goto_enable := goto_enable r;
     document_symbols_enable := document_symbols_enable r;
     highlighting_enable := highlighting_enable r;
     semantic_tokens_enable := semantic_tokens_enable r |}.

Definition set_hover_enable (v : bool) (r : LspServerConfig) : LspServerConfig :=
  {| cmd := cmd r; env := env r; ref_lang := ref_lang r;
     show_server_stderr := show_server_stderr r;
     use_outside_project_dir := use_outside_project_dir r;
     use_without_project := use_without_project r;
     autocomplete_enable := autocomplete_enable r; signature_enable := signature_enable r;
     hover_enable := v; goto_enable := goto_enable r;
     document_symbols_enable := document_symbols_enable r;
     highlighting_enable := highlighting_enable r;
     semantic_tokens_enable := semantic_tokens_enable r |}.

Definition set_goto_enable (v : bool) (r : LspServerConfig) : LspServerConfig :=
  {| cmd := cmd r; env := env r; ref_lang := ref_lang r;
     show_server_stderr := show_server_stderr r;
     use_outside_project_dir := use_outside_project_dir r;
     use_without_project := use_without_project r;
     autocomplete_enable := autocomplete_enable r; signature_enable := signature_enable r;
     hover_enable := hover_enable r; goto_enable := v;
     document_symbols_enable := document_symbols_enable r;
     highlighting_enable := highlighting_enable r;
     semantic_tokens_enable := semantic_tokens_enable r |}.

Definition set_document_symbols_enable (v : bool) (r : LspServerConfig) : LspServerConfig :=
  {| cmd := cmd r; env := env r; ref_lang := ref_lang r;
     show_server_stderr := show_server_stderr r;
     use_outside_project_dir := use_outside_project_dir r;
     use_without_project := use_without_project r;
     autocomplete_enable := autocomplete_enable r; signature_enable := signature_enable r;
     hover_enable := hover_enable r; goto_enable := goto_enable r;
     document_symbols_enable := v; highlighting_enable := highlighting_enable r;
     semantic_tokens_enable := semantic_tokens_enable r |}.

Definition set_highlighting_enable (v : bool) (r : LspServerConfig) : LspServerConfig :=
  {| cmd := cmd r; env := env r; ref_lang := ref_lang r;
     show_server_stderr := show_server_stderr r;
     use_outside_project_dir := use_outside_project_dir r;
     use_without_project := use_without_project r;
     autocomplete_enable := autocomplete_enable r; signature_enable := signature_enable r;
     hover_enable := hover_enable r; goto_enable := goto_enable r;
     document_symbols_enable := document_symbols_enable r; highlighting_enable := v;
     semantic_tokens_enable := semantic_tokens_enable r |}.

Definition set_semantic_tokens_enable (v : bool) (r : LspServerConfig) : LspServerConfig :=
  {| cmd := cmd r; env := env r; ref_lang := ref_lang r;
     show_server_stderr := show_server_stderr r;
     use_outside_project_dir := use_outside_project_dir r;
     use_without_project := use_without_project r;
     autocomplete_enable := autocomplete_enable r; signature_enable := signature_enable r;
     hover_enable := hover_enable r; goto_enable := goto_enable r;
     document_symbols_enable := document_symbols_enable r;
     highlighting_enable := highlighting_enable r; semantic_tokens_enable := v |}.

Definition set_srv_process (v : option process) (r : LspServer) : LspServer :=
  {| filetype := filetype r; srv_process := v; config := config r;
     autocomplete_trigger_chars := autocomplete_trigger_chars r;
     signature_trigger_chars := signature_trigger_chars r;
     initialize_response := initialize_response r;
     supports_workspace_symbols := supports_workspace_symbols r;
     srv_use_incremental_sync := srv_use_incremental_sync r;
     semantic_token_mask := semantic_token_mask r; startup_shutdown := startup_shutdown r;
     restarts := restarts r; not_used := not_used r; referenced := referenced r |}.

Definition set_config (v : LspServerConfig) (r : LspServer) : LspServer :=
  {| filetype := filetype r; srv_process := srv_process r; config := v;
     autocomplete_trigger_chars := autocomplete_trigger_chars r;
     signature_trigger_chars := signature_trigger_chars r;
     initialize_response := initialize_response r;
     supports_workspace_symbols := supports_workspace_symbols r;
     srv_use_incremental_sync := srv_use_incremental_sync r;
     semantic_token_mask := semantic_token_mask r; startup_shutdown := startup_shutdown r;
     restarts := restarts r; not_used := not_used r; referenced := referenced r |}.

Definition set_autocomplete_trigger_chars (v : option string) (r : LspServer) : LspServer :=
  {| filetype := filetype r; srv_process := srv_process r; config := config r;
     autocomplete_trigger_chars := v; signature_trigger_chars := signature_trigger_chars r;
     initialize_response := initialize_response r;
     supports_workspace_symbols := supports_workspace_symbols r;
     srv_use_incremental_sync := srv_use_incremental_sync r;
     semantic_token_mask := semantic_token_mask r; startup_shutdown := startup_shutdown r;
     restarts := restarts r; not_used := not_used r; referenced := referenced r |}.

Definition set_signature_trigger_chars (v : option string) (r : LspServer) : LspServer :=
  {| filetype := filetype r; srv_process := srv_process r; config := config r;
     autocomplete_trigger_chars := autocomplete_trigger_chars r;
     signature_trigger_chars := v; initialize_response := initialize_response r;
     supports_workspace_symbols := supports_workspace_symbols r;
     srv_use_incremental_sync := srv_use_incremental_sync r;
     semantic_token_mask := semantic_token_mask r; startup_shutdown := startup_shutdown r;
     restarts := restarts r; not_used := not_used r; referenced := referenced r |}.

Definition set_initialize_response (v : option string) (r : LspServer) : LspServer :=
  {| filetype := filetype r; srv_process := srv_process r; config := config r;
     autocomplete_trigger_chars := autocomplete_trigger_chars r;
     signature_trigger_chars := signature_trigger_chars r; initialize_response := v;
     supports_workspace_symbols := supports_workspace_symbols r;
     srv_use_incremental_sync := srv_use_incremental_sync r;
     semantic_token_mask := semantic_token_mask r; startup_shutdown := startup_shutdown r;
     restarts := restarts r; not_used := not_used r; referenced := referenced r |}.

Definition set_supports_workspace_symbols (v : bool) (r : LspServer) : LspServer :=
  {| filetype := filetype r; srv_process := srv_process r; config := config r;
     autocomplete_trigger_chars := autocomplete_trigger_chars r;
     signature_trigger_chars := signature_trigger_chars r;
     initialize_response := initialize_response r; supports_workspace_symbols := v;
     srv_use_incremental_sync := srv_use_incremental_sync r;
     semantic_token_mask := semantic_token_mask r; startup_shutdown := startup_shutdown r;
     restarts := restarts r; not_used := not_used r; referenced := referenced r |}.

Definition set_srv_use_incremental_sync (v : bool) (r : LspServer) : LspServer :=
  {| filetype := filetype r; srv_process := srv_process r; config := config r;
     autocomplete_trigger_chars := autocomplete_trigger_chars r;
     signature_trigger_chars := signature_trigger_chars r;
     initialize_response := initialize_response r;
     supports_workspace_symbols := supports_workspace_symbols r;
     srv_use_incremental_sync := v; semantic_token_mask := semantic_token_mask r;
     startup_shutdown := startup_shutdown r; restarts := restarts r;
     not_used := not_used r; referenced := referenced r |}.

Definition set_semantic_token_mask (v : Z) (r : LspServer) : LspServer :=
  {| filetype := filetype r; srv_process := srv_process r; config := config r;
     autocomplete_trigger_chars := autocomplete_trigger_chars r;
     signature_trigger_chars := signature_trigger_chars r;
     initialize_response := initialize_response r;
     supports_workspace_symbols := supports_workspace_symbols r;
     srv_use_incremental_sync := srv_use_incremental_sync r; semantic_token_mask := v;
     startup_shutdown := startup_shutdown r; restarts := restarts r;
     not_used := not_used r; referenced := referenced r |}.

Definition set_startup_shutdown (v : bool) (r : LspServer) : LspServer :=
  {| filetype := filetype r; srv_process := srv_process r; config := config r;
     autocomplete_trigger_chars := autocomplete_trigger_chars r;
     signature_trigger_chars := signature_trigger_chars r;
     initialize_response := initialize_response r;
     supports_workspace_symbols := supports_workspace_symbols r;
     srv_use_incremental_sync := srv_use_incremental_sync r;
     semantic_token_mask := semantic_token_mask r; startup_shutdown := v;
     restarts := restarts r; not_used := not_used r; referenced := referenced r |}.

Definition set_restarts (v : Z) (r : LspServer) : LspServer :=
  {| filetype := filetype r; srv_process := srv_process r; config := config r;
     autocomplete_trigger_chars := autocomplete_trigger_chars r;
     signature_trigger_chars := signature_trigger_chars r;
     initialize_response := initialize_response r;
     supports_workspace_symbols := supports_workspace_symbols r;
     srv_use_incremental_sync := srv_use_incremental_sync r;
     semantic_token_mask := semantic_token_mask r; startup_shutdown := startup_shutdown r;
     restarts := v; not_used := not_used r; referenced := referenced r |}.

Definition set_not_used (v : bool) (r : LspServer) : LspServer :=
  {| filetype := filetype r; srv_process := srv_process r; config := config r;
     autocomplete_trigger_chars := autocomplete_trigger_chars r;
     signature_trigger_chars := signature_trigger_chars r;
     initialize_response := initialize_response r;
     supports_workspace_symbols := supports_workspace_symbols r;
     srv_use_incremental_sync := srv_use_incremental_sync r;
     semantic_token_mask := semantic_token_mask r; startup_shutdown := startup_shutdown r;
     restarts := restarts r; not_used := v; referenced := referenced r |}.

Definition set_referenced (v : option addr) (r : LspServer) : LspServer :=
  {| filetype := filetype r; srv_process := srv_process r; config := config r;
     autocomplete_trigger_chars := autocomplete_trigger_chars r;
     signature_trigger_chars := signature_trigger_chars r;
     initialize_response := initialize_response r;
     supports_workspace_symbols := supports_workspace_symbols r;
     srv_use_incremental_sync := srv_use_incremental_sync r;
     semantic_token_mask := semantic_token_mask r; startup_shutdown := startup_shutdown r;
     restarts := restarts r; not_used := not_used r; referenced := v |}.

Definition set_heap (v : gmap addr LspServer) (r : World) : World :=
  {| heap := v; next_addr := next_addr r; lsp_servers := lsp_servers r;
     servers_in_shutdown := servers_in_shutdown r; open_docs := open_docs r;
     doc_version_nums := doc_version_nums r; trace := trace r |}.

Definition set_next_addr (v : addr) (r : World) : World :=
  {| heap := heap r; next_addr := v; lsp_servers := lsp_servers r;
     servers_in_shutdown := servers_in_shutdown r; open_docs := open_docs r;
     doc_version_nums := doc_version_nums r; trace := trace r |}.

Definition set_lsp_servers (v : option (list addr)) (r : World) : World :=
  {| heap := heap r; next_addr := next_addr r; lsp_servers := v;
     servers_in_shutdown := servers_in_shutdown r; open_docs := open_docs r;
     doc_version_nums := doc_version_nums r; trace := trace r |}.

Definition set_servers_in_shutdown (v : list addr) (r : World) : World :=
  {| heap := heap r; next_addr := next_addr r; lsp_servers := lsp_servers r;
     servers_in_shutdown := v; open_docs := open_docs r;
     doc_version_nums := doc_version_nums r; trace := trace r |}.

Definition set_open_docs (v : option (gset nat)) (r : World) : World :=
  {| heap := heap r; next_addr := next_addr r; lsp_servers := lsp_servers r;
     servers_in_shutdown := servers_in_shutdown r; open_docs := v;
     doc_version_nums := doc_version_nums r; trace := trace r |}.

Definition set_doc_version_nums (v : gmap string Z) (r : World) : World :=
  {| heap := heap r; next_addr := next_addr r; lsp_servers := lsp_servers r;
     servers_in_shutdown := servers_in_shutdown r; open_docs := open_docs r;
     doc_version_nums := v; trace := trace r |}.

Definition set_trace (v : list effect) (r : World) : World :=
  {| heap := heap r; next_addr := next_addr r; lsp_servers := lsp_servers r;
     servers_in_shutdown := servers_in_shutdown r; open_docs := open_docs r;
     doc_version_nums := doc_version_nums r; trace := v |}.

(** [s->config.member = v]. *)
Definition upd_config (f : LspServerConfig -> LspServerConfig) (s : LspServer) : LspServer :=
  set_config (f (config s)) s.

(** ** Stateful code: a state monad over [World] that can get stuck

    [None] stands for an execution that leaves defined behaviour: a session
    pointer that was already freed is dereferenced, or an array is indexed
    out of range. *)

Definition M (A : Type) : Type := World -> option (A * World).

#[global] Instance M_ret : MRet M := fun A x w => Some (x, w).

#[global] Instance M_bind : MBind M := fun A B f m w =>
  match m w with
  | Some (x, w') => f x w'
  | None => None
  end.

Definition get_world : M World := fun w => Some (w, w).

Definition modify_world (f : World -> World) : M unit := fun w => Some (tt, f w).

Definition stuck {A : Type} : M A := fun _ => None.

(** [*a]. *)
Definition deref (a : addr) : M LspServer := fun w =>
  match heap w !! a with
  | Some s => Some (s, w)
  | None => None
  end.

(** [a->member = ...]. *)
Definition modify (a : addr) (f : LspServer -> LspServer) : M unit := fun w =>
  match heap w !! a with
  | Some s => Some (tt, set_heap (<[a := f s]> (heap w)) w)
  | None => None
  end.

(** [g_new0 (LspServer, 1)] followed by the initialisation of the struct. *)
Definition alloc (s : LspServer) : M addr := fun w =>
  Some (next_addr w, set_next_addr (S (next_addr w)) (set_heap (<[next_addr w := s]> (heap w)) w)).

(** [g_free (a)]. *)
Definition release (a : addr) : M unit := fun w =>
  match heap w !! a with
  | Some _ => Some (tt, set_heap (delete a (heap w)) w)
  | None => None
  end.

Definition emit (e : effect) : M unit :=
  modify_world (fun w => set_trace (trace w ++ [e]) w).

(** State after a run; a stuck run has none. *)
Definition exec {A : Type} (m : M A) (w : World) : option World :=
  snd <$> m w.

(** Value returned by a run. *)
Definition eval {A : Type} (m : M A) (w : World) : option A :=
  fst <$> m w.

(** ** Reading the server capabilities (lsp-server.c) *)

Import MachInt.

(** The loop [while (g_variant_iter_loop (iter, "v", &val))
    g_string_append (str, g_variant_get_string (val, NULL))]; appending
    [NULL] leaves the buffer as it is. *)
Definition append_strings (items : list json) : string :=
  fold_left (fun str val => str +:+ default "" (get_string val)) items "".

Definition get_autocomplete_trigger_chars (node : json) : string :=
  let iter :=
    caps ← get_dict "capabilities" node;
    provider ← get_dict "completionProvider" caps;
    get_iter "triggerCharacters" provider in
  match iter with
  | Some items => append_strings items
  | None => ""
  end.

Definition get_signature_trigger_chars (node : json) : string :=
  let iter :=
    caps ← get_dict "capabilities" node;
    provider ← get_dict "signatureHelpProvider" caps;
    get_iter "triggerCharacters" provider in
  match iter with
  | Some items => append_strings items
  | None => ""
  end.

Definition supports_semantic_tokens (node : json) : bool :=
  default false
    (caps ← get_dict "capabilities" node;
     provider ← get_dict "semanticTokensProvider" caps;
     full ← get_dict "full" provider;
     get_boolean "delta" full).

(** The test on one legend entry; [g_strcmp0] of [NULL] against a literal is
    never 0. *)
Definition is_type_like (str : option string) : bool :=
  match str with
  | Some s =>
      String.eqb s "namespace" || String.eqb s "type" || String.eqb s "class"
      || String.eqb s "enum" || String.eqb s "interface" || String.eqb s "struct"
      || String.eqb s "decorator"
  | None => false
  end.

Fixpoint token_mask_loop (items : list json) (mask index : Z) : Z :=
  match items with
  | [] => mask
  | val :: rest =>
      let mask := if is_type_like (get_string val) then Z.lor mask index else mask in
      token_mask_loop rest mask (to_guint64 (Z.shiftl index 1))
  end.

Definition get_semantic_token_mask (node : json) : Z :=
  let iter :=
    caps ← get_dict "capabilities" node;
    provider ← get_dict "semanticTokensProvider" caps;
    legend ← get_dict "legend" provider;
    get_iter "tokenTypes" legend in
  match iter with
  | Some items => token_mask_loop items 0 1
  | None => 0
  end.

(** First the nested [textDocumentSync.change], and only when that parse
    fails the plain number; [val] is read only after a successful parse. *)
Definition use_incremental_sync (node : json) : bool :=
  let nested :=
    caps ← get_dict "capabilities" node;
    sync ← get_dict "textDocumentSync" caps;
    get_int64 "change" sync in
  let parsed :=
    match nested with
    | Some val => Some val
    | None =>
        caps ← get_dict "capabilities" node;
        get_int64 "textDocumentSync" caps
    end in
  match parsed with
  | Some val => val =? 2
  | None => false
  end.

(** [update_config (variant, &option, key)]; the result is the new [*option]. *)
Definition update_config (variant : json) (option : bool) (key : string) : bool :=
  let val := default false (caps ← get_dict "capabilities" variant; get_boolean key caps) in
  if negb val then false else option.

(** ** [GPtrArray] and string helpers from GLib *)

Fixpoint index_of (x : addr) (l : list addr) : option nat :=
  match l with
  | [] => None
  | y :: rest => if Nat.eqb y x then Some 0%nat else S <$> index_of x rest
  end.

(** [g_ptr_array_remove_index_fast]: the last element takes the place of the
    removed one. *)
Definition remove_index_fast (i : nat) (l : list addr) : list addr :=
  let n := length l in
  let front := take (n - 1) l in
  match l !! (n - 1)%nat with
  | Some y => if Nat.eqb i (n - 1) then front else <[i := y]> front
  | None => l
  end.

(** [g_ptr_array_remove_fast]: [None] when the pointer is not in the array. *)
Definition g_ptr_array_remove_fast (x : addr) (l : list addr) : option (list addr) :=
  (fun i => remove_index_fast i l) <$> index_of x l.

(** [g_ascii_isspace]: GLib's table marks the space, the tab, the line
    feed, the form feed and the carriage return; unlike C's [isspace] it
    does not mark the vertical tab (11). *)
Definition g_ascii_isspace (c : ascii) : bool :=
  let n := nat_of_ascii c in
  Nat.eqb n 32 || Nat.eqb n 9 || Nat.eqb n 10 || Nat.eqb n 12 || Nat.eqb n 13.

Fixpoint g_strchug (s : string) : string :=
  match s with
  | String c rest => if g_ascii_isspace c then g_strchug rest else s
  | EmptyString => EmptyString
  end.

Definition g_strchomp (s : string) : string :=
  String.rev (g_strchug (String.rev s)).

Definition g_strstrip (s : string) : string := g_strchomp (g_strchug s).

(** Geany's [EMPTY (ptr)]: [NULL] or the empty string. *)
Definition EMPTY (s : option string) : bool :=
  match s with
  | Some (String _ _) => false
  | _ => true
  end.

(** ** Document synchronisation (lsp-sync.c) *)

Section Sync.

Context `{Host}.

(** [lsp_sync_init]: creates [open_docs] on first use and empties it;
    [doc_version_nums] is left alone. *)
Definition lsp_sync_init : M unit :=
  modify_world (set_open_docs (Some ∅)).

(** The version table is created empty on first use; the model starts with
    the empty table.  A missing entry reads as [NULL], that is 0. *)
Definition get_next_doc_version_num (doc : GeanyDocument) : M Z :=
  match real_path doc with
  | None => mret 0
  | Some path =>
      w ← get_world;
      let num := default 0 (doc_version_nums w !! path) in
      let num := to_guint (num + 1) in
      _ ← modify_world (set_doc_version_nums (<[path := num]> (doc_version_nums w)));
      mret num
  end.

(** A lookup in a table that was never created returns [NULL]. *)
Definition lsp_sync_is_document_open (doc : GeanyDocument) : M bool :=
  w ← get_world;
  mret (match open_docs w with
        | Some table => bool_decide (doc_id doc ∈ table)
        | None => false
        end).

(** [g_hash_table_add]; without a table nothing is recorded. *)
Definition open_docs_add (doc : GeanyDocument) : M unit :=
  modify_world (fun w => set_open_docs ((fun table => {[doc_id doc]} ∪ table) <$> open_docs w) w).

Definition open_docs_remove (doc : GeanyDocument) : M unit :=
  modify_world (fun w => set_open_docs ((fun table => table ∖ {[doc_id doc]}) <$> open_docs w) w).

(** Modelled from the spec: [lsp_rpc_notify] is defined in lsp-rpc.c, which
    is not among the sources.  The specification has a notification as fire
    and forget, without identifier, pending request or completion callback:
    the call is recorded as an effect and returns. *)
Definition lsp_rpc_notify (server : addr) (method : string) (node : json) : M unit :=
  emit (RpcNotify server method node).

(** [JSONRPC_MESSAGE_PUT_INT32]. *)
Definition put_int32 (z : Z) : json := JInt (to_gint z).

Definition did_open_params (doc_uri lang_id : string) (doc_version : Z) (doc_text : string) : json :=
  JObject [("textDocument", JObject [
    ("uri", JString doc_uri);
    ("languageId", JString lang_id);
    ("version", put_int32 doc_version);
    ("text", JString doc_text)])].

Definition lsp_sync_text_document_did_open (server : addr) (doc : GeanyDocument) : M unit :=
  is_open ← lsp_sync_is_document_open doc;
  if (is_open : bool) then mret tt
  else
    _ ← open_docs_add doc;
    let doc_uri := lsp_utils_get_doc_uri doc in
    let lang_id := lsp_utils_get_lsp_lang_name doc in
    let doc_text := sci_contents doc in
    doc_version ← get_next_doc_version_num doc;
    lsp_rpc_notify server "textDocument/didOpen"
      (did_open_params doc_uri lang_id doc_version doc_text).

Definition did_close_params (doc_uri : string) : json :=
  JObject [("textDocument", JObject [("uri", JString doc_uri)])].

Definition lsp_sync_text_document_did_close (server : addr) (doc : GeanyDocument) : M unit :=
  is_open ← lsp_sync_is_document_open doc;
  if negb is_open then mret tt
  else
    let doc_uri := lsp_utils_get_doc_uri doc in
    _ ← open_docs_remove doc;
    lsp_rpc_notify server "textDocument/didClose" (did_close_params doc_uri).

Definition did_save_params (doc_uri doc_text : string) : json :=
  JObject [("textDocument", JObject [("uri", JString doc_uri)]);
           ("text", JString doc_text)].

Definition lsp_sync_text_document_did_save (server : addr) (doc : GeanyDocument) : M unit :=
  lsp_rpc_notify server "textDocument/didSave"
    (did_save_params (lsp_utils_get_doc_uri doc) (sci_contents doc)).

Definition did_change_incremental_params (doc_uri : string) (doc_version : Z)
    (pos_start pos_end : LspPosition) (text : string) : json :=
  JObject [
    ("textDocument", JObject [
      ("uri", JString doc_uri);
      ("version", put_int32 doc_version)]);
    ("contentChanges", JArray [JObject [
      ("range", JObject [
        ("start", JObject [
          ("line", put_int32 (line pos_start));
          ("character", put_int32 (character pos_start))]);
        ("end", JObject [
          ("line", put_int32 (line pos_end));
          ("character", put_int32 (character pos_end))])]);
      ("text", JString text)]])].

Definition did_change_full_params (doc_uri : string) (doc_version : Z)
    (contents : string) : json :=
  JObject [
    ("textDocument", JObject [
      ("uri", JString doc_uri);
      ("version", put_int32 doc_version)]);
    ("contentChanges", JArray [JObject [
      ("text", JString contents)]])].

Definition lsp_sync_text_document_did_change (server : addr) (doc : GeanyDocument)
    (pos_start pos_end : LspPosition) (text : string) : M unit :=
  let doc_uri := lsp_utils_get_doc_uri doc in
  doc_version ← get_next_doc_version_num doc;
  s ← deref server;
  let node :=
    if srv_use_incremental_sync s
    then did_change_incremental_params doc_uri doc_version pos_start pos_end text
    else did_change_full_params doc_uri doc_version (sci_contents doc) in
  lsp_rpc_notify server "textDocument/didChange" node.

End Sync.

(** ** Session lifecycle and registry (lsp-server.c) *)

(** What the transport hands to a completion callback: the reply, or an
    error. *)
Inductive rpc_result : Type :=
| Reply (return_value : json)
| Failure.

Section Lifecycle.

Context `{Host}.

(** [SIGTERM], then the forced exit.  GLib refuses a [NULL] subprocess. *)
Definition force_terminate (info : addr) : M unit :=
  s ← deref info;
  match srv_process s with
  | Some p => _ ← emit (SendSigterm p); emit (ForceExit p)
  | None => mret tt
  end.

(** [free_server]: drops the process, client, stream and log if there are
    any, then frees the struct. *)
Definition free_server (s : addr) : M unit := release s.

(** [g_ptr_array_remove_fast (servers_in_shutdown, srv)]; the array was
    created with [free_server] as its element destructor. *)
Definition servers_in_shutdown_remove (srv : addr) : M unit :=
  w ← get_world;
  match g_ptr_array_remove_fast srv (servers_in_shutdown w) with
  | Some rest =>
      _ ← modify_world (set_servers_in_shutdown rest);
      free_server srv
  | None => mret tt
  end.

Definition exit_cb (error : bool) (srv : addr) : M unit :=
  _ ← (if error then force_terminate srv else mret tt);
  servers_in_shutdown_remove srv.

(** Both branches read [srv->config.cmd] for the status line. *)
Definition shutdown_cb (error : bool) (srv : addr) : M unit :=
  _ ← deref srv;
  if negb error then
    emit (ClientNotify srv "exit")
  else
    _ ← force_terminate srv;
    servers_in_shutdown_remove srv.

Definition stop_process (s : addr) : M unit :=
  _ ← modify s (set_startup_shutdown true);
  _ ← modify_world (fun w => set_servers_in_shutdown (servers_in_shutdown w ++ [s]) w);
  emit (ClientCall s "shutdown").

Definition stop_and_free_server (s : addr) : M unit :=
  srv ← deref s;
  match srv_process srv with
  | Some _ => stop_process s
  | None => free_server s
  end.

(** [perform_initialize]; the request parameters are not modelled. *)
Definition perform_initialize (server : addr) : M unit :=
  _ ← modify server (set_startup_shutdown true);
  emit (ClientCall server "initialize").

Definition is_dead (server : LspServer) : bool := restarts server >? 5.

(** [spawn] is what [g_subprocess_launcher_spawnv] returns should the
    function get that far: the new process, or [None] with an error.  The
    assembly of the argument vector, of the environment and of the flags
    from the configuration is part of the launch and is not modelled; the
    log, the stream and the RPC client come and go with the process. *)
Definition start_lsp_server (server : addr) (spawn : option process) : M unit :=
  _ ← modify server (fun s => set_restarts (to_gint (restarts s + 1)) s);
  s ← deref server;
  if is_dead s then
    emit (Dialog (default "" (cmd (config s))))
  else
    _ ← emit (Spawn server (default "" (cmd (config s))));
    _ ← modify server (set_srv_process spawn);
    match spawn with
    | None => mret tt
    | Some _ => perform_initialize server
    end.

(** [lsp_server_new]: a zeroed struct, its file type and its
    configuration. *)
Definition lsp_server_new (ft : nat) : LspServer :=
  {| filetype := ft;
     srv_process := None;
     config := load_server_config ft;
     autocomplete_trigger_chars := None;
     signature_trigger_chars := None;
     initialize_response := None;
     supports_workspace_symbols := false;
     srv_use_incremental_sync := false;
     semantic_token_mask := 0;
     startup_shutdown := false;
     restarts := 0;
     not_used := false;
     referenced := None |}.

(** [lsp_server_init]: [filetypes_index (ft)] must exist. *)
Definition lsp_server_init (ft : nat) : M addr :=
  if bool_decide (ft < filetypes_count)%nat then alloc (lsp_server_new ft) else stuck.

(** [lsp_servers->pdata[i]] as an rvalue. *)
Definition pdata (servers : list addr) (i : nat) : M addr :=
  match servers !! i with
  | Some a => mret a
  | None => stuck
  end.

(** [lsp_servers->pdata[i] = s]. *)
Definition set_pdata (i : nat) (s : addr) : M unit :=
  w ← get_world;
  match lsp_servers w with
  | Some servers =>
      if bool_decide (i < length servers)%nat
      then modify_world (set_lsp_servers (Some (<[i := s]> servers)))
      else stuck
  | None => stuck
  end.

(** The tail of [server_get_or_start_for_ft], from [g_strstrip] on. *)
Definition strip_and_start (s : addr) (spawn : option process) : M (option addr) :=
  _ ← modify s (upd_config (fun c => set_cmd (g_strstrip <$> cmd c) c));
  srv ← deref s;
  _ ← (if EMPTY (cmd (config srv)) then
         modify s (fun r => set_not_used true (upd_config (set_cmd None) r))
       else
         start_lsp_server s spawn);
  mret None.

(** [ft] is [None] for a [NULL] file type, else [ft->id]. *)
Definition server_get_or_start_for_ft (ft : option nat) (launch_server : bool)
    (spawn : option process) : M (option addr) :=
  w ← get_world;
  match ft, lsp_servers w with
  | None, _ | _, None => mret None
  | Some ft_id, Some servers =>
      if lsp_utils_is_lsp_disabled_for_project then mret None
      else
        s ← pdata servers ft_id;
        srv ← deref s;
        let s := default s (referenced srv) in
        srv ← deref s;
        if startup_shutdown srv then mret None
        else if bool_decide (is_Some (srv_process srv)) then mret (Some s)
        else if not_used srv then mret None
        else if is_dead srv then mret None
        else if negb launch_server then mret None
        else
          match ref_lang (config srv) with
          | Some name =>
              match filetypes_lookup_by_name name with
              | Some ft2 =>
                  s2 ← pdata servers ft2;
                  _ ← modify s (set_referenced (Some s2));
                  srv2 ← deref s2;
                  if bool_decide (is_Some (srv_process srv2)) then mret (Some s2)
                  else strip_and_start s2 spawn
              | None => strip_and_start s spawn
              end
          | None => strip_and_start s spawn
          end
  end.

Definition lsp_server_get_for_ft (ft : option nat) (spawn : option process) : M (option addr) :=
  server_get_or_start_for_ft ft true spawn.

Definition is_lsp_valid_for_doc (cfg : LspServerConfig) (doc : option GeanyDocument) : bool :=
  if negb (use_without_project cfg) && negb app_project then false
  else
    match doc ≫= real_path with
    | None => false
    | Some path =>
        if use_outside_project_dir cfg || negb app_project then true
        else
          match project_relative_path path with
          | Some rel_path => negb (String.prefix ".." rel_path)
          | None => false
          end
    end.

Definition server_get_for_doc (doc : option GeanyDocument) (launch_server : bool)
    (spawn : option process) : M (option addr) :=
  match doc with
  | None => mret None
  | Some d =>
      srv ← server_get_or_start_for_ft (Some (file_type d)) launch_server spawn;
      match srv with
      | None => mret None
      | Some a =>
          s ← deref a;
          if negb (is_lsp_valid_for_doc (config s) doc) then mret None
          else mret (Some a)
      end
  end.

Definition lsp_server_get (doc : option GeanyDocument) (spawn : option process) : M (option addr) :=
  server_get_for_doc doc true spawn.

Definition lsp_server_get_if_running (doc : option GeanyDocument) : M (option addr) :=
  server_get_for_doc doc false None.

End Lifecycle.

Section Callbacks.

Context `{Host}.

(** The [foreach_document] loop of [initialize_cb].  [current_doc] is the
    pointer [document_get_current ()] returned. *)
Fixpoint replay_open_documents (s : addr) (documents : list GeanyDocument)
    (current_doc : option nat) : M unit :=
  match documents with
  | [] => mret tt
  | doc :: rest =>
      srv ← deref s;
      _ ← (if Nat.eqb (file_type doc) (filetype srv)
              && (changed doc || bool_decide (current_doc = Some (doc_id doc)))
           then
             s2 ← lsp_server_get_if_running (Some doc);
             match s2 with
             | Some _ => lsp_sync_text_document_did_open s doc
             | None => mret tt
             end
           else mret tt);
      replay_open_documents s rest current_doc
  end.

(** The replacement of a session by a fresh one for the same file type,
    shared by the two restart paths: [lsp_server_init], the inherited
    counter, the registry slot, [start_lsp_server]. *)
Definition replace_and_start (ft : nat) (inherited : Z) (spawn : option process) : M unit :=
  s ← lsp_server_init ft;
  _ ← modify s (set_restarts inherited);
  _ ← set_pdata ft s;
  start_lsp_server s spawn.

Definition initialize_cb (result : rpc_result) (s : addr)
    (documents : list GeanyDocument) (current_doc : option nat)
    (spawn : option process) : M unit :=
  match result with
  | Reply return_value =>
      let chars := get_autocomplete_trigger_chars return_value in
      _ ← modify s (set_autocomplete_trigger_chars (Some chars));
      _ ← (if EMPTY (Some chars)
           then modify s (upd_config (set_autocomplete_enable false))
           else mret tt);
      let chars := get_signature_trigger_chars return_value in
      _ ← modify s (set_signature_trigger_chars (Some chars));
      _ ← (if EMPTY (Some chars)
           then modify s (upd_config (set_signature_enable false))
           else mret tt);
      _ ← modify s (upd_config (fun c =>
             set_hover_enable (update_config return_value (hover_enable c) "hoverProvider") c));
      _ ← modify s (upd_config (fun c =>
             set_goto_enable (update_config return_value (goto_enable c) "definitionProvider") c));
      _ ← modify s (upd_config (fun c =>
             set_document_symbols_enable
               (update_config return_value (document_symbols_enable c) "documentSymbolProvider") c));
      _ ← modify s (upd_config (fun c =>
             set_highlighting_enable
               (update_config return_value (highlighting_enable c) "documentHighlightProvider") c));
      _ ← modify s (set_supports_workspace_symbols true);
      _ ← modify s (fun r =>
             set_supports_workspace_symbols
               (update_config return_value (supports_workspace_symbols r) "workspaceSymbolProvider") r);
      _ ← modify s (set_srv_use_incremental_sync (use_incremental_sync return_value));
      _ ← modify s (set_initialize_response (Some (lsp_utils_json_pretty_print return_value)));
      _ ← (if negb (supports_semantic_tokens return_value)
           then modify s (upd_config (set_semantic_tokens_enable false))
           else mret tt);
      _ ← modify s (set_semantic_token_mask (get_semantic_token_mask return_value));
      _ ← emit (ClientNotify s "initialized");
      _ ← modify s (set_startup_shutdown false);
      srv ← deref s;
      _ ← emit (SemtokensInit (filetype srv));
      replay_open_documents s documents current_doc
  | Failure =>
      srv ← deref s;
      let restarts := restarts srv in
      _ ← stop_process s;
      replace_and_start (filetype srv) restarts spawn
  end.

(** [process_stopped (process, _, s)].  The source calls [free_server (s)]
    and then evaluates [lsp_server_init (s->filetype)]: the second [deref]
    is that read of the struct the line before has freed. *)
Definition process_stopped (p : process) (s : addr) (spawn : option process) : M unit :=
  srv ← deref s;
  if bool_decide (srv_process srv = Some p) then
    let restarts := restarts srv in
    _ ← free_server s;
    freed ← deref s;
    replace_and_start (filetype freed) restarts spawn
  else mret tt.

Definition server_get_configured_for_ft (ft_id : nat) : M (option addr) :=
  w ← get_world;
  match lsp_servers w with
  | None => mret None
  | Some servers =>
      if lsp_utils_is_lsp_disabled_for_project then mret None
      else
        s ← pdata servers ft_id;
        srv ← deref s;
        match ref_lang (config srv) with
        | Some name =>
            match filetypes_lookup_by_name name with
            | Some ft => s2 ← pdata servers ft; mret (Some s2)
            | None => mret None
            end
        | None => mret (Some s)
        end
  end.

Definition server_get_configured_for_doc (doc : option GeanyDocument) : M (option addr) :=
  match doc with
  | None => mret None
  | Some d =>
      s ← server_get_configured_for_ft (file_type d);
      match s with
      | None => mret None
      | Some a =>
          srv ← deref a;
          if negb (is_lsp_valid_for_doc (config srv) doc) then mret None
          else mret (Some a)
      end
  end.

Definition lsp_server_get_config (doc : option GeanyDocument) : M (option LspServerConfig) :=
  s ← server_get_configured_for_doc doc;
  match s with
  | None => mret None
  | Some a => srv ← deref a; mret (Some (config srv))
  end.

Definition lsp_server_is_usable (doc : option GeanyDocument) : M bool :=
  s ← server_get_configured_for_doc doc;
  match s with
  | None => mret false
  | Some a => srv ← deref a; mret (negb (not_used srv) && negb (is_dead srv))
  end.

(** [g_ptr_array_free (lsp_servers, TRUE)]: the element destructor
    [stop_and_free_server] runs on every slot in turn. *)
Fixpoint stop_and_free_servers (servers : list addr) : M unit :=
  match servers with
  | [] => mret tt
  | s :: rest => _ ← stop_and_free_server s; stop_and_free_servers rest
  end.

(** [lsp_server_stop_all (FALSE)].  With [wait] set the source goes on to
    iterate the main loop, where the callbacks above run, until
    [servers_in_shutdown] is empty. *)
Definition lsp_server_stop_all : M unit :=
  w ← get_world;
  _ ← match lsp_servers w with
      | Some servers => stop_and_free_servers servers
      | None => mret tt
      end;
  modify_world (set_lsp_servers None).

Fixpoint new_servers (fts : list nat) : M (list addr) :=
  match fts with
  | [] => mret []
  | ft :: rest =>
      s ← alloc (lsp_server_new ft);
      others ← new_servers rest;
      mret (s :: others)
  end.

Definition lsp_server_init_all : M unit :=
  w ← get_world;
  _ ← (if bool_decide (is_Some (lsp_servers w)) then lsp_server_stop_all else mret tt);
  servers ← new_servers (seq 0 filetypes_count);
  modify_world (set_lsp_servers (Some servers)).

End Callbacks.

(** The state of the process before the plugin has run anything. *)
Definition initial_world : World :=
  {| heap := ∅; next_addr := 0%nat; lsp_servers := None; servers_in_shutdown := [];
     open_docs := None; doc_version_nums := ∅; trace := [] |}.

(** ** Notions the properties are stated with *)

(** The version number last handed out for a path (0 when there is none). *)
Definition doc_version (w : World) (path : string) : Z :=
  default 0 (doc_version_nums w !! path).

(** Values a [gint] or [gint32] holds. *)
Definition fits_gint (z : Z) : Prop := -2147483648 <= z <= INT_MAX.

Definition valid_position (pos : LspPosition) : Prop :=
  fits_gint (line pos) /\ fits_gint (character pos).

(** The server's [textDocumentSync] capability as the specification reads
    it: the number itself, or the [change] member when the capability is an
    object. *)
Definition text_document_sync_kind (node : json) : option Z :=
  caps ← get_dict "capabilities" node;
  match member "textDocumentSync" caps with
  | Some (JInt n) => Some n
  | Some (JObject members) => get_int64 "change" (JObject members)
  | _ => None
  end.

(** A capability directly under ["capabilities"], whatever its type. *)
Definition capability (key : string) (node : json) : option json :=
  get_dict "capabilities" node ≫= member key.

(** The trigger character lists as they stand in the response. *)
Definition completion_trigger_characters (node : json) : option (list json) :=
  caps ← get_dict "capabilities" node;
  provider ← get_dict "completionProvider" caps;
  get_iter "triggerCharacters" provider.

Definition signature_trigger_characters (node : json) : option (list json) :=
  caps ← get_dict "capabilities" node;
  provider ← get_dict "signatureHelpProvider" caps;
  get_iter "triggerCharacters" provider.

(** A session of the registry can be looked up without touching freed
    memory: it exists, and so does the session its cached link points to. *)
Definition session_sound (w : World) (a : addr) : bool :=
  match heap w !! a with
  | Some srv =>
      match referenced srv with
      | Some r => bool_decide (is_Some (heap w !! r))
      | None => true
      end
  | None => false
  end.

Definition registry_sound (w : World) : bool :=
  match lsp_servers w with
  | Some servers => forallb (session_sound w) servers
  | None => true
  end.

(** The registry, if there is one, has a slot for the file type. *)
Definition has_slot (w : World) (ft : nat) : bool :=
  match lsp_servers w with
  | Some servers => bool_decide (ft < length servers)%nat
  | None => true
  end.

(** Session [s] exists, in a sound registry that has a slot for its file
    type. *)
Definition live_session (w : World) (s : addr) (srv : LspServer) : Prop :=
  heap w !! s = Some srv /\ registry_sound w = true /\ has_slot w (filetype srv) = true.

(** The version the next didOpen or didChange of a document will carry. *)
Definition next_version (w : World) (doc : GeanyDocument) : Z :=
  match real_path doc with
  | Some path => doc_version w path + 1
  | None => 0
  end.

(** The counter of the document's path, if it has one, can still be bumped
    and put into an int32. *)
Definition version_in_range (w : World) (doc : GeanyDocument) : Prop :=
  match real_path doc with
  | Some path => 0 <= doc_version w path < INT_MAX
  | None => True
  end.

(** The feature switches of a session that the negotiation may touch:
    autocomplete, signature help, hover, goto, document symbols,
    highlighting, semantic tokens. *)
Definition feature_flags (c : LspServerConfig) : list bool :=
  [autocomplete_enable c; signature_enable c; hover_enable c; goto_enable c;
   document_symbols_enable c; highlighting_enable c; semantic_tokens_enable c].

(** The operations of the sync engine, for statements about arbitrary
    sequences of them. *)
Inductive sync_op : Type :=
| SyncInit
| DidOpen (server : addr) (doc : GeanyDocument)
| DidClose (server : addr) (doc : GeanyDocument)
| DidSave (server : addr) (doc : GeanyDocument)
| DidChange (server : addr) (doc : GeanyDocument) (pos_start pos_end : LspPosition) (text : string).

Section Runs.

Context `{Host}.

Definition run_sync_op (op : sync_op) : M unit :=
  match op with
  | SyncInit => lsp_sync_init
  | DidOpen server doc => lsp_sync_text_document_did_open server doc
  | DidClose server doc => lsp_sync_text_document_did_close server doc
  | DidSave server doc => lsp_sync_text_document_did_save server doc
  | DidChange server doc pos_start pos_end text =>
      lsp_sync_text_document_did_change server doc pos_start pos_end text
  end.

Fixpoint run_sync_ops (ops : list sync_op) : M unit :=
  match ops with
  | [] => mret tt
  | op :: rest => _ ← run_sync_op op; run_sync_ops rest
  end.

(** The session currently registered for a file type. *)
Definition registered (ft : nat) : M addr :=
  w ← get_world;
  match lsp_servers w with
  | Some servers => pdata servers ft
  | None => stuck
  end.

(** [initialize] fails on the session registered for [ft], once for every
    element of [spawns]; the element is the outcome of the respawn, should
    one be attempted. *)
Fixpoint fail_initialize (ft : nat) (spawns : list (option process)) : M unit :=
  match spawns with
  | [] => mret tt
  | spawn :: rest =>
      s ← registered ft;
      _ ← initialize_cb Failure s [] None spawn;
      fail_initialize ft rest
  end.

End Runs.

Definition is_spawn (e : effect) : bool :=
  match e with Spawn _ _ => true | _ => false end.

Definition is_dialog (e : effect) : bool :=
  match e with Dialog _ => true | _ => false end.


(** How many processes a run tried to launch, how often it raised the
    dialog. *)
Definition count_spawns (t : list effect) : nat := length (filter is_spawn t).
Definition count_dialogs (t : list effect) : nat := length (filter is_dialog t).

(** The [uri] member of the [textDocument] of a notification. *)
Definition params_uri (params : json) : option string :=
  match get_dict "textDocument" params ≫= member "uri" with
  | Some (JString uri) => Some uri
  | _ => None
  end.

(** The [version] member of the [textDocument] of a notification. *)
Definition params_version (params : json) : option Z :=
  get_dict "textDocument" params ≫= get_int64 "version".

(** Open with respect to a session, as the specification defines it: a
    didOpen for the document was sent to that session and no didClose for
    it has been sent to that session since. *)
Definition open_for_session (server : addr) (uri : string) (t : list effect) : bool :=
  fold_left (fun is_open e =>
    match e with
    | RpcNotify srv method params =>
        if Nat.eqb srv server && bool_decide (params_uri params = Some uri) then
          if String.eqb method "textDocument/didOpen" then true
          else if String.eqb method "textDocument/didClose" then false
          else is_open
        else is_open
    | _ => is_open
    end) t false.

(** The versions carried by the didOpen notifications of a run, in order. *)
Definition did_open_versions (t : list effect) : list (option Z) :=
  omap (fun e =>
    match e with
    | RpcNotify _ method params =>
        if String.eqb method "textDocument/didOpen" then Some (params_version params) else None
    | _ => None
    end) t.

(** ** A concrete editor: five file types, four configured sessions *)

Module Scenario.

(** [C] runs clangd.  [C++] names [C] as its reference language and also
    has a command of its own, [ObjC] names [C++], [Vala] names a language
    Geany does not know, [Python] runs pylsp. *)
Definition base_config : LspServerConfig :=
  {| cmd := None; env := []; ref_lang := None; show_server_stderr := false;
     use_outside_project_dir := true; use_without_project := true;
     autocomplete_enable := true; signature_enable := true; hover_enable := false;
     goto_enable := true; document_symbols_enable := true; highlighting_enable := true;
     semantic_tokens_enable := true |}.

Definition with_ref (name : string) (c : LspServerConfig) : LspServerConfig :=
  {| cmd := cmd c; env := env c; ref_lang := Some name;
     show_server_stderr := show_server_stderr c;
     use_outside_project_dir := use_outside_project_dir c;
     use_without_project := use_without_project c;
     autocomplete_enable := autocomplete_enable c; signature_enable := signature_enable c;
     hover_enable := hover_enable c; goto_enable := goto_enable c;
     document_symbols_enable := document_symbols_enable c;
     highlighting_enable := highlighting_enable c;
     semantic_tokens_enable := semantic_tokens_enable c |}.

Definition ft_C : nat := 0.
Definition ft_Cpp : nat := 1.
Definition ft_Python : nat := 2.
Definition ft_Vala : nat := 3.
Definition ft_ObjC : nat := 4.

Definition names (name : string) : option nat :=
  if String.eqb name "C" then Some ft_C
  else if String.eqb name "C++" then Some ft_Cpp
  else if String.eqb name "Python" then Some ft_Python
  else if String.eqb name "Vala" then Some ft_Vala
  else if String.eqb name "ObjC" then Some ft_ObjC
  else None.

Definition configs (ft : nat) : LspServerConfig :=
  match ft with
  | 0%nat => set_cmd (Some " clangd  ") base_config
  | 1%nat => with_ref "C" (set_cmd (Some "ccls") base_config)
  | 2%nat => set_cmd (Some "pylsp") base_config
  | 3%nat => with_ref "Genie" base_config
  | _ => with_ref "C++" base_config
  end.

Definition host : Host :=
  {| filetypes_count := 5;
     filetypes_lookup_by_name := names;
     load_server_config := configs;
     lsp_utils_is_lsp_disabled_for_project := false;
     app_project := false;
     project_relative_path := fun path => Some path;
     lsp_utils_get_doc_uri := fun doc => "file://" +:+ default "" (real_path doc);
     lsp_utils_get_lsp_lang_name := fun doc => "c";
     lsp_utils_json_pretty_print := fun _ => "{}" |}.

Definition main_c : GeanyDocument :=
  {| doc_id := 1; real_path := Some "/src/main.c"; file_type := ft_C; changed := false;
     sci_contents := "int main;" |}.

Definition untitled : GeanyDocument :=
  {| doc_id := 2; real_path := None; file_type := ft_C; changed := true;
     sci_contents := "" |}.

Definition widget_vala : GeanyDocument :=
  {| doc_id := 3; real_path := Some "/src/widget.vala"; file_type := ft_Vala;
     changed := false; sci_contents := "class Widget {}" |}.

(** An initialize result of a server that offers incremental sync. *)
Definition reply_incremental : json :=
  JObject [("capabilities", JObject [
    ("textDocumentSync", JObject [("openClose", JBool true); ("change", JInt 2)]);
    ("completionProvider", JObject [("triggerCharacters", JArray [JString "."; JString ">"])]);
    ("signatureHelpProvider", JObject [("triggerCharacters", JArray [])]);
    ("hoverProvider", JBool true);
    ("definitionProvider", JBool true);
    ("workspaceSymbolProvider", JBool true)])].

(** One that says nothing about workspace symbols and syncs whole
    documents. *)
Definition reply_plain : json :=
  JObject [("capabilities", JObject [
    ("textDocumentSync", JInt 1);
    ("hoverProvider", JBool true)])].

(** The state a run reaches from [w]; a stuck run leaves [w]. *)
Definition after {A : Type} (m : M A) (w : World) : World :=
  default w (exec m w).

(** The plugin has been loaded. *)
Definition loaded : World :=
  after lsp_sync_init (after (lsp_server_init_all (H := host)) initial_world).

(** A C document was shown: clangd is running (process 100) and has been
    sent [initialize]. *)
Definition c_starting : World :=
  after (lsp_server_get_for_ft (H := host) (Some ft_C) (Some 100%nat)) loaded.

(** clangd answered; [main.c] is the current document. *)
Definition c_ready : World :=
  after (initialize_cb (H := host) (Reply reply_incremental) 0%nat [main_c] (Some 1%nat) None)
    c_starting.

(** The same, had clangd sent the plainer answer. *)
Definition c_ready_plain : World :=
  after (initialize_cb (H := host) (Reply reply_plain) 0%nat [main_c] (Some 1%nat) None)
    c_starting.

(** The session of clangd while it waits for the answer. *)
Definition clangd_starting : LspServer :=
  default (lsp_server_new (H := host) ft_C) (heap c_starting !! 0%nat).

(** The session clangd runs in, once it is ready. *)
Definition clangd_session : LspServer :=
  default (lsp_server_new (H := host) ft_C) (heap c_ready !! 0%nat).

(** The user sets the file type of [main.c] to Python: the document is
    the same, its session is now the Python one.  pylsp is started
    (process 300) and answers. *)
Definition main_as_python : GeanyDocument :=
  {| doc_id := doc_id main_c; real_path := real_path main_c; file_type := ft_Python;
     changed := changed main_c; sci_contents := sci_contents main_c |}.

Definition python_ready : World :=
  after (initialize_cb (H := host) (Reply reply_plain) 2%nat [main_as_python] (Some 1%nat) None)
    (after (lsp_server_get_for_ft (H := host) (Some ft_Python) (Some 300%nat)) c_ready).

(** The first try, then [initialize] fails five times in a row. *)
Definition c_failed_5 : World :=
  after (fail_initialize (H := host) ft_C
           [Some 101%nat; Some 102%nat; Some 103%nat; Some 104%nat; Some 105%nat])
    c_starting.

(** The session the fifth failure leaves in the registry. *)
Definition dead_session : LspServer :=
  default (lsp_server_new (H := host) ft_C) (heap c_failed_5 !! 9%nat).

(** clangd, ready, is being stopped: the shutdown request is out. *)
Definition c_stopping : World := after (stop_process 0%nat) c_ready.

(** A C++ document was shown first: its session names C, so clangd is
    started (process 100) and is still in its handshake. *)
Definition cpp_shown : World :=
  after (lsp_server_get_for_ft (H := host) (Some ft_Cpp) (Some 100%nat)) loaded.


(** The whole registry is rebuilt, as on a configuration reload, the sync
    engine is reset, and clangd is started and answers again. *)
Definition c_ready_again : World :=
  after (initialize_cb (H := host) (Reply reply_incremental) 5%nat [main_c] (Some 1%nat) None)
    (after (lsp_server_get_for_ft (H := host) (Some ft_C) (Some 200%nat))
       (after lsp_sync_init (after (lsp_server_init_all (H := host)) c_ready))).



(** After the five failures of clangd a C++ document is shown. *)
Definition cpp_after_ceiling : World :=
  after (lsp_server_get_for_ft (H := host) (Some ft_Cpp) (Some 106%nat)) c_failed_5.

End Scenario.

(** * More of the code *)

(** ** Loading the configuration (lsp-server.c)

    [lsp_server_new] fills the configuration of a session from two key
    files.  The model keeps every member the loaders write; the struct is a
    family of values indexed by the member, one family per member type, so
    that [*dest = val] is an update at the index [dest]. *)

Module KeyFile.

(** A [GKeyFile], through the four getters the plugin calls.  [None]
    stands for the error the boolean and the integer getter report (no such
    group, no such key, a value that does not parse) and for the [NULL] the
    string getters return. *)
Record GKeyFile := {
  g_key_file_get_boolean : string -> string -> option bool;
  g_key_file_get_string : string -> string -> option string;
  g_key_file_get_string_list : string -> string -> option (list string);
  g_key_file_get_integer : string -> string -> option Z
}.

(** The [gboolean] members of [LspServerConfig] the loaders write. *)
Inductive bool_member : Type :=
| use_outside_project_dir | use_without_project | rpc_log_full | autocomplete_enable
| autocomplete_use_label | autocomplete_apply_additional_edits | diagnostics_enable
| hover_enable | signature_enable | goto_enable | document_symbols_enable
| show_server_stderr | semantic_tokens_enable | highlighting_enable.

(** The [gint] members. *)
Inductive int_member : Type :=
| autocomplete_window_max_entries | autocomplete_window_max_displayed
| autocomplete_window_max_width | hover_popup_max_lines | hover_popup_max_paragraphs.

(** The [gchar *] members. *)
Inductive str_member : Type :=
| diagnostics_error_style | diagnostics_warning_style | diagnostics_info_style
| diagnostics_hint_style | semantic_tokens_type_style | formatting_options_file
| highlighting_style | cmd | ref_lang | rpc_log | initialization_options_file.

(** The [gchar **] members. *)
Inductive strv_member : Type :=
| autocomplete_trigger_sequences | env.

#[global] Instance bool_member_eq_dec : EqDecision bool_member.
Proof. solve_decision. Defined.
#[global] Instance int_member_eq_dec : EqDecision int_member.
Proof. solve_decision. Defined.
#[global] Instance str_member_eq_dec : EqDecision str_member.
Proof. solve_decision. Defined.
#[global] Instance strv_member_eq_dec : EqDecision strv_member.
Proof. solve_decision. Defined.

Record LspServerConfig := {
  bools : bool_member -> bool;
  ints : int_member -> Z;
  strs : str_member -> option string;
  strvs : strv_member -> option (list string)
}.

(** The configuration of a struct that [g_new0] has just allocated. *)
Definition zeroed : LspServerConfig :=
  {| bools := fun _ => false; ints := fun _ => 0; strs := fun _ => None;
     strvs := fun _ => None |}.

Definition get_bool (dest : bool_member) (kf : GKeyFile) (section key : string)
    (c : LspServerConfig) : LspServerConfig :=
  match g_key_file_get_boolean kf section key with
  | Some bool_val =>
      {| bools := fun m => if decide (m = dest) then bool_val else bools c m;
         ints := ints c; strs := strs c; strvs := strvs c |}
  | None => c
  end.

Definition get_str (dest : str_member) (kf : GKeyFile) (section key : string)
    (c : LspServerConfig) : LspServerConfig :=
  match g_key_file_get_string kf section key with
  | Some str_val =>
      {| bools := bools c; ints := ints c;
         strs := fun m => if decide (m = dest) then Some str_val else strs c m;
         strvs := strvs c |}
  | None => c
  end.

Definition get_strv (dest : strv_member) (kf : GKeyFile) (section key : string)
    (c : LspServerConfig) : LspServerConfig :=
  match g_key_file_get_string_list kf section key with
  | Some strv_val =>
      {| bools := bools c; ints := ints c; strs := strs c;
         strvs := fun m => if decide (m = dest) then Some strv_val else strvs c m |}
  | None => c
  end.

Definition get_int (dest : int_member) (kf : GKeyFile) (section key : string)
    (c : LspServerConfig) : LspServerConfig :=
  match g_key_file_get_integer kf section key with
  | Some int_val =>
      {| bools := bools c;
         ints := fun m => if decide (m = dest) then int_val else ints c m;
         strs := strs c; strvs := strvs c |}
  | None => c
  end.

Definition load_config (kf : GKeyFile) (section : string) (s : LspServerConfig)
    : LspServerConfig :=
  let s := get_bool use_outside_project_dir kf section "lsp_use_outside_project_dir" s in
  let s := get_bool use_without_project kf section "lsp_use_without_project" s in
  let s := get_bool rpc_log_full kf section "rpc_log_full" s in
  let s := get_bool autocomplete_enable kf section "autocomplete_enable" s in
  let s := get_strv autocomplete_trigger_sequences kf section "autocomplete_trigger_sequences" s in
  let s := get_int autocomplete_window_max_entries kf section "autocomplete_window_max_entries" s in
  let s := get_int autocomplete_window_max_displayed kf section
             "autocomplete_window_max_displayed" s in
  let s := get_int autocomplete_window_max_width kf section "autocomplete_window_max_width" s in
  let s := get_bool autocomplete_use_label kf section "autocomplete_use_label" s in
  let s := get_bool autocomplete_apply_additional_edits kf section
             "autocomplete_apply_additional_edits" s in
  let s := get_bool diagnostics_enable kf section "diagnostics_enable" s in
  let s := get_str diagnostics_error_style kf section "diagnostics_error_style" s in
  let s := get_str diagnostics_warning_style kf section "diagnostics_warning_style" s in
  let s := get_str diagnostics_info_style kf section "diagnostics_info_style" s in
  let s := get_str diagnostics_hint_style kf section "diagnostics_hint_style" s in
  let s := get_bool hover_enable kf section "hover_enable" s in
  let s := get_int hover_popup_max_lines kf section "hover_popup_max_lines" s in
  let s := get_int hover_popup_max_paragraphs kf section "hover_popup_max_paragraphs" s in
  let s := get_bool signature_enable kf section "signature_enable" s in
  let s := get_bool goto_enable kf section "goto_enable" s in
  let s := get_bool document_symbols_enable kf section "document_symbols_enable" s in
  let s := get_bool show_server_stderr kf section "show_server_stderr" s in
  let s := get_bool semantic_tokens_enable kf section "semantic_tokens_enable" s in
  let s := get_str semantic_tokens_type_style kf section "semantic_tokens_type_style" s in
  let s := get_str formatting_options_file kf section "formatting_options_file" s in
  let s := get_bool highlighting_enable kf section "highlighting_enable" s in
  get_str highlighting_style kf section "highlighting_style" s.

Definition load_filetype_only_config (kf : GKeyFile) (section : string) (s : LspServerConfig)
    : LspServerConfig :=
  let s := get_str cmd kf section "cmd" s in
  let s := get_strv env kf section "env" s in
  let s := get_str ref_lang kf section "use" s in
  let s := get_str rpc_log kf section "rpc_log" s in
  get_str initialization_options_file kf section "initialization_options_file" s.

(** The configuration part of [lsp_server_new (kf_global, kf, ft)];
    [ft_name] is [ft->name]. *)
Definition lsp_server_new (kf_global kf : GKeyFile) (ft_name : string) : LspServerConfig :=
  let s := zeroed in
  let s := load_config kf_global "all" s in
  let s := load_config kf_global ft_name s in
  let s := load_config kf "all" s in
  let s := load_config kf ft_name s in
  let s := load_filetype_only_config kf_global ft_name s in
  load_filetype_only_config kf ft_name s.

(** The key under which a key file holds a member. *)
Definition bool_key (m : bool_member) : string :=
  match m with
  | use_outside_project_dir => "lsp_use_outside_project_dir"
  | use_without_project => "lsp_use_without_project"
  | rpc_log_full => "rpc_log_full"
  | autocomplete_enable => "autocomplete_enable"
  | autocomplete_use_label => "autocomplete_use_label"
  | autocomplete_apply_additional_edits => "autocomplete_apply_additional_edits"
  | diagnostics_enable => "diagnostics_enable"
  | hover_enable => "hover_enable"
  | signature_enable => "signature_enable"
  | goto_enable => "goto_enable"
  | document_symbols_enable => "document_symbols_enable"
  | show_server_stderr => "show_server_stderr"
  | semantic_tokens_enable => "semantic_tokens_enable"
  | highlighting_enable => "highlighting_enable"
  end.

Definition int_key (m : int_member) : string :=
  match m with
  | autocomplete_window_max_entries => "autocomplete_window_max_entries"
  | autocomplete_window_max_displayed => "autocomplete_window_max_displayed"
  | autocomplete_window_max_width => "autocomplete_window_max_width"
  | hover_popup_max_lines => "hover_popup_max_lines"
  | hover_popup_max_paragraphs => "hover_popup_max_paragraphs"
  end.

Definition str_key (m : str_member) : string :=
  match m with
  | diagnostics_error_style => "diagnostics_error_style"
  | diagnostics_warning_style => "diagnostics_warning_style"
  | diagnostics_info_style => "diagnostics_info_style"
  | diagnostics_hint_style => "diagnostics_hint_style"
  | semantic_tokens_type_style => "semantic_tokens_type_style"
  | formatting_options_file => "formatting_options_file"
  | highlighting_style => "highlighting_style"
  | cmd => "cmd"
  | ref_lang => "use"
  | rpc_log => "rpc_log"
  | initialization_options_file => "initialization_options_file"
  end.

Definition strv_key (m : strv_member) : string :=
  match m with
  | autocomplete_trigger_sequences => "autocomplete_trigger_sequences"
  | env => "env"
  end.

(** The members that are read from the section of the file type alone. *)
Definition str_filetype_only (m : str_member) : bool :=
  match m with
  | cmd | ref_lang | rpc_log | initialization_options_file => true
  | _ => false
  end.

Definition strv_filetype_only (m : strv_member) : bool :=
  match m with
  | env => true
  | autocomplete_trigger_sequences => false
  end.

(** The first value that is there. *)
Fixpoint first_of {A : Type} (candidates : list (option A)) : option A :=
  match candidates with
  | [] => None
  | Some x :: _ => Some x
  | None :: rest => first_of rest
  end.

(** Where a member that is not tied to the file type is looked for, the
    place that wins first: the section of the file type in the user file,
    [all] in the user file, and the same two in the global file. *)
Definition layers {A : Type} (get : GKeyFile -> string -> string -> option A)
    (kf_global kf : GKeyFile) (ft_name key : string) : list (option A) :=
  [get kf ft_name key; get kf "all" key; get kf_global ft_name key; get kf_global "all" key].

(** The same for a member that is tied to the file type. *)
Definition filetype_layers {A : Type} (get : GKeyFile -> string -> string -> option A)
    (kf_global kf : GKeyFile) (ft_name key : string) : list (option A) :=
  [get kf ft_name key; get kf_global ft_name key].

End KeyFile.

(** ** Goto requests (lsp-goto.c) *)

Module Goto.

(** [LspRange] and [LspLocation] (declared in lsp-utils.h); the member
    [end] of the range is [end_] here. *)
Record LspRange := { start : LspPosition; end_ : LspPosition }.

Record LspLocation := { uri : string; range : LspRange }.

(** [TMIcon], of which the file uses one value. *)
Inductive TMIcon : Type := TM_ICON_OTHER.

(** [LspGotoPanelSymbol] (declared in lsp-goto-panel.h). *)
Record LspGotoPanelSymbol := {
  file : string;
  label : string;
  sym_line : Z;
  icon : TMIcon
}.

(** [GotoData]: the user data of a request; [doc] is the pointer. *)
Record GotoData := { goto_doc : nat; goto_show_in_msgwin : bool }.

(** A [ScintillaObject *]. *)
Definition sci := nat.

(** What the file asks of the editor and of lsp-utils.c. *)
Class GotoHost := {
  lsp_utils_get_real_path_from_uri_locale : string -> string;
  lsp_utils_get_real_path_from_uri_utf8 : string -> string;
  lsp_utils_get_project_base_path : option string;
  utils_get_locale_from_utf8 : string -> string;
  g_path_get_basename : string -> string;
  lsp_utils_scintilla_pos_to_lsp : GeanyDocument -> Z -> LspPosition;
  lsp_utils_parse_locations : list json -> option (list LspLocation);
  lsp_utils_parse_location : json -> option LspLocation;
  (** The document [document_open_file] returns, if it can open the file. *)
  document_open_file : string -> option nat;
  (** The editor widget of the open document with this file name. *)
  document_find_by_filename : string -> option sci;
  (** The widget [lsp_utils_new_sci_from_file] builds, if it can read the
      file. *)
  lsp_utils_new_sci_from_file : string -> option sci;
  sci_get_line : sci -> Z -> string;
  lsp_goto_panel_filter : list LspGotoPanelSymbol -> string -> list LspGotoPanelSymbol
}.

(** The calls that leave the file, in program order. *)
Inductive goto_effect : Type :=
| CallAsync (srv : addr) (request : string) (params : json) (data : GotoData)
    (* lsp_client_call_async (server->rpc_client, request, node, goto_cb, data) *)
| DocumentOpenFile (fname : string)
| NavqueueGotoLine (old_doc new_doc : nat) (line : Z)
| MsgwinClearTab
| MsgwinSwitchTab
| MsgwinSetMessagesDir (dir : string)
| MsgwinMsgAdd (fname : option string) (lineno : Z) (line_str : string)
    (* msgwin_msg_add (COLOR_BLACK, -1, NULL, "%s:%d:  %s", ...): the three
       arguments of the format *)
| NewSciFromFile (fname : string)
    (* lsp_utils_new_sci_from_file, whatever its outcome *)
| GotoPanelShow (query : string)
| GotoPanelFill (symbols : list LspGotoPanelSymbol).

(** The global [last_result] ([None] while it is [NULL]) and the calls
    made so far. *)
Record GotoState := {
  last_result : option (list LspGotoPanelSymbol);
  goto_trace : list goto_effect
}.

(** Code of the file that does not touch the sessions. *)
Definition G (A : Type) : Type := GotoState -> A * GotoState.

#[global] Instance G_ret : MRet G := fun A x st => (x, st).

#[global] Instance G_bind : MBind G := fun A B f m st =>
  let (x, st') := m st in f x st'.

Definition call (e : goto_effect) : G unit := fun st =>
  (tt, {| last_result := last_result st; goto_trace := goto_trace st ++ [e] |}).

Definition set_last_result (symbols : option (list LspGotoPanelSymbol)) : G unit := fun st =>
  (tt, {| last_result := symbols; goto_trace := goto_trace st |}).

Definition get_last_result : G (option (list LspGotoPanelSymbol)) := fun st =>
  (last_result st, st).

Section Functions.

Context `{Host} `{GotoHost}.

Definition goto_location (old_doc : nat) (loc : LspLocation) : G unit :=
  let fname := lsp_utils_get_real_path_from_uri_locale (uri loc) in
  _ ← call (DocumentOpenFile fname);
  match document_open_file fname with
  | Some doc => call (NavqueueGotoLine old_doc doc (to_gint (line (start (range loc)) + 1)))
  | None => mret tt
  end.

Definition filter_symbols (filter : string) : G unit :=
  symbols ← get_last_result;
  match symbols with
  | None => mret tt
  | Some result => call (GotoPanelFill (lsp_goto_panel_filter result filter))
  end.

(** The first half of [show_in_msgwin]: the widget to read the line from,
    and the table as the search leaves it.  The widget of an open document
    comes first, then the one the table holds, then one made from the
    file, which the table, if there is one, then keeps. *)
Definition find_widget (fname : string) (sci_table : option (gmap string sci))
    : G (option sci * option (gmap string sci)) :=
  match document_find_by_filename fname with
  | Some widget => mret (Some widget, sci_table)
  | None =>
      match sci_table ≫= (fun table => table !! fname) with
      | Some widget => mret (Some widget, sci_table)
      | None =>
          _ ← call (NewSciFromFile fname);
          match lsp_utils_new_sci_from_file fname with
          | Some widget => mret (Some widget, <[fname := widget]> <$> sci_table)
          | None => mret (None, sci_table)
          end
      end
  end.

(** The second half, from [line_str] on.  Without a widget the line is the
    empty string.  A [NULL] relative path has no prefix [".."], so that it
    replaces the file name. *)
Definition add_message (fname : string) (widget : option sci) (lineno : Z) : G unit :=
  let line_str :=
    g_strstrip (match widget with
                | Some widget => sci_get_line widget lineno
                | None => ""
                end) in
  shown ←
    match lsp_utils_get_project_base_path with
    | Some base_path =>
        let shown :=
          match project_relative_path fname with
          | Some rel_path => if String.prefix ".." rel_path then Some fname else Some rel_path
          | None => None
          end in
        _ ← call (MsgwinSetMessagesDir (utils_get_locale_from_utf8 base_path));
        mret shown
    | None => mret (Some fname)
    end;
  call (MsgwinMsgAdd shown (to_gint (lineno + 1)) line_str).

(** [show_in_msgwin (loc, sci_table)]; the result is the table as the call
    leaves it. *)
Definition show_in_msgwin (loc : LspLocation) (sci_table : option (gmap string sci))
    : G (option (gmap string sci)) :=
  let fname := lsp_utils_get_real_path_from_uri_utf8 (uri loc) in
  let lineno := to_gint (line (start (range loc))) in
  found ← find_widget fname sci_table;
  _ ← add_message fname (fst found) lineno;
  mret (snd found).

(** The loop over the locations of a reply, with one table for all. *)
Fixpoint show_all_in_msgwin (locations : list LspLocation) (sci_table : gmap string sci)
    : G unit :=
  match locations with
  | [] => mret tt
  | loc :: rest =>
      table ← show_in_msgwin loc (Some sci_table);
      show_all_in_msgwin rest (default sci_table table)
  end.

Definition panel_symbol (loc : LspLocation) : LspGotoPanelSymbol :=
  let file := lsp_utils_get_real_path_from_uri_utf8 (uri loc) in
  {| file := file;
     label := g_path_get_basename file;
     sym_line := to_gint (line (start (range loc)) + 1);
     icon := TM_ICON_OTHER |}.

(** [goto_cb]; [documents] are the pointers [foreach_document] visits when
    the callback runs. *)
Definition goto_cb (result : rpc_result) (documents : list nat) (data : GotoData) : G unit :=
  match result with
  | Failure => mret tt
  | Reply return_value =>
      if bool_decide (goto_doc data ∈ documents) then
        _ ← (if goto_show_in_msgwin data
             then _ ← call MsgwinClearTab; call MsgwinSwitchTab
             else mret tt);
        match return_value with
        | JArray items =>
            match lsp_utils_parse_locations items with
            | Some (first :: others) =>
                if goto_show_in_msgwin data then
                  show_all_in_msgwin (first :: others) ∅
                else if Nat.eqb (length (first :: others)) 1 then
                  goto_location (goto_doc data) first
                else
                  _ ← set_last_result (Some (panel_symbol <$> first :: others));
                  call (GotoPanelShow "")
            | _ => mret tt
            end
        | JObject members =>
            match lsp_utils_parse_location return_value with
            | Some loc =>
                if goto_show_in_msgwin data
                then _ ← show_in_msgwin loc None; mret tt
                else goto_location (goto_doc data) loc
            | None => mret tt
            end
        | _ => mret tt
        end
      else mret tt
  end.

Definition goto_params (doc_uri : string) (lsp_pos : LspPosition) : json :=
  JObject [
    ("textDocument", JObject [("uri", JString doc_uri)]);
    ("position", JObject [
      ("line", put_int32 (line lsp_pos));
      ("character", put_int32 (character lsp_pos))])].

(** Code of the file that looks a session up: it runs on the sessions and
    on the state of this file. *)
Definition GM (A : Type) : Type := World * GotoState -> option (A * (World * GotoState)).

#[global] Instance GM_ret : MRet GM := fun A x st => Some (x, st).

#[global] Instance GM_bind : MBind GM := fun A B f m st =>
  match m st with
  | Some (x, st') => f x st'
  | None => None
  end.

Definition on_sessions {A : Type} (m : M A) : GM A := fun st =>
  match m (fst st) with
  | Some (x, w) => Some (x, (w, snd st))
  | None => None
  end.

Definition on_goto {A : Type} (m : G A) : GM A := fun st =>
  let (x, g) := m (snd st) in Some (x, (fst st, g)).

(** [perform_goto]; the function reads [server->rpc_client]. *)
Definition perform_goto (server : addr) (doc : GeanyDocument) (pos : Z) (request : string)
    (show_in_msgwin : bool) : GM unit :=
  let lsp_pos := lsp_utils_scintilla_pos_to_lsp doc pos in
  let doc_uri := lsp_utils_get_doc_uri doc in
  let node := goto_params doc_uri lsp_pos in
  let data := {| goto_doc := doc_id doc; goto_show_in_msgwin := show_in_msgwin |} in
  _ ← on_sessions (deref server);
  on_goto (call (CallAsync server request node data)).

(** The five entry points.  [doc] is what [document_get_current ()]
    returns, [spawn] the outcome of the launch, should the lookup attempt
    one.  [perform_goto] reads [doc->editor]: a session without a document
    has no defined run. *)
Definition lsp_goto_definition (doc : option GeanyDocument) (pos : Z)
    (spawn : option process) : GM unit :=
  srv ← on_sessions (lsp_server_get doc spawn);
  match srv, doc with
  | Some srv, Some doc => perform_goto srv doc pos "textDocument/definition" false
  | Some _, None => fun _ => None
  | None, _ => mret tt
  end.

Definition lsp_goto_declaration (doc : option GeanyDocument) (pos : Z)
    (spawn : option process) : GM unit :=
  srv ← on_sessions (lsp_server_get doc spawn);
  match srv, doc with
  | Some srv, Some doc => perform_goto srv doc pos "textDocument/declaration" false
  | Some _, None => fun _ => None
  | None, _ => mret tt
  end.

Definition lsp_goto_type_definition (doc : option GeanyDocument) (pos : Z)
    (spawn : option process) : GM unit :=
  srv ← on_sessions (lsp_server_get doc spawn);
  match srv, doc with
  | Some srv, Some doc => perform_goto srv doc pos "textDocument/typeDefinition" false
  | Some _, None => fun _ => None
  | None, _ => mret tt
  end.

Definition lsp_goto_implementations (doc : option GeanyDocument) (pos : Z)
    (spawn : option process) : GM unit :=
  srv ← on_sessions (lsp_server_get doc spawn);
  match srv, doc with
  | Some srv, Some doc => perform_goto srv doc pos "textDocument/implementation" true
  | Some _, None => fun _ => None
  | None, _ => mret tt
  end.

Definition lsp_goto_references (doc : option GeanyDocument) (pos : Z)
    (spawn : option process) : GM unit :=
  srv ← on_sessions (lsp_server_get doc spawn);
  match srv, doc with
  | Some srv, Some doc => perform_goto srv doc pos "textDocument/references" true
  | Some _, None => fun _ => None
  | None, _ => mret tt
  end.

End Functions.

End Goto.

(** Notions for the properties of the goto code. *)

Definition is_load_of (fname : string) (e : Goto.goto_effect) : bool :=
  match e with
  | Goto.NewSciFromFile f => String.eqb f fname
  | _ => false
  end.

(** How often a run read the file [fname] from disk. *)
Definition count_loads (fname : string) (t : list Goto.goto_effect) : nat :=
  length (List.filter (is_load_of fname) t).

(** A call that takes the user somewhere else: a file is opened, the
    cursor is moved, the goto panel comes up. *)
Definition navigates (e : Goto.goto_effect) : bool :=
  match e with
  | Goto.DocumentOpenFile _ | Goto.NavqueueGotoLine _ _ _ | Goto.GotoPanelShow _
  | Goto.GotoPanelFill _ => true
  | _ => false
  end.

(** The line numbers of the lines added to the message window, in order. *)
Definition listed_lines (t : list Goto.goto_effect) : list Z :=
  omap (fun e => match e with Goto.MsgwinMsgAdd _ lineno _ => Some lineno | _ => None end) t.

(** The state of lsp-goto.c after the further calls [t]. *)
Definition grown (st : Goto.GotoState) (t : list Goto.goto_effect) : Goto.GotoState :=
  {| Goto.last_result := Goto.last_result st; Goto.goto_trace := (Goto.goto_trace st ++ t)%list |}.

(** The line the editor shows for a location: lines count from 1 there. *)
Definition shown_line (loc : Goto.LspLocation) : Z :=
  to_gint (line (Goto.start (Goto.range loc)) + 1).

(** The same in [show_in_msgwin], which first stores the line in a
    [gint]. *)
Definition listed_line (loc : Goto.LspLocation) : Z :=
  to_gint (to_gint (line (Goto.start (Goto.range loc))) + 1).

(** The locations a reply names: those of an array, the one of an object,
    none of anything else. *)
Definition reply_locations `{Goto.GotoHost} (return_value : json) : list Goto.LspLocation :=
  match return_value with
  | JArray items => default [] (Goto.lsp_utils_parse_locations items)
  | JObject _ => option_list (Goto.lsp_utils_parse_location return_value)
  | _ => []
  end.

(** The request an entry point sends for the session [r] the lookup
    returned. *)
Definition request_sent `{Host} `{Goto.GotoHost} (r : option addr)
    (doc : option GeanyDocument) (pos : Z) (request : string) (show_in_msgwin : bool)
    : list Goto.goto_effect :=
  match r, doc with
  | Some srv, Some d =>
      [Goto.CallAsync srv request
         (Goto.goto_params (lsp_utils_get_doc_uri d) (Goto.lsp_utils_scintilla_pos_to_lsp d pos))
         {| Goto.goto_doc := doc_id d; Goto.goto_show_in_msgwin := show_in_msgwin |}]
  | _, _ => []
  end.

(** ** The collected initialize responses (lsp-server.c) *)

(** The line feed and the double quote of the C literals. *)
Definition LF : string := String (ascii_of_nat 10) EmptyString.
Definition DQUOTE : string := String (ascii_of_nat 34) EmptyString.

(** [g_str_has_suffix]. *)
Definition g_str_has_suffix (str suffix : string) : bool :=
  String.prefix (String.rev suffix) (String.rev str).

(** [g_string_erase (string, pos, len)] for a range inside the string. *)
Definition g_string_erase (str : string) (pos len : nat) : string :=
  substring 0 pos str +:+ substring (pos + len) (String.length str - (pos + len)) str.

(** The line that goes between two servers. *)
Definition NEXT_SERVER : string :=
  LF +:+ LF +:+ DQUOTE +:+ "############################################################"
  +:+ DQUOTE +:+ ": " +:+ DQUOTE +:+ "next server" +:+ DQUOTE +:+ ",".

Section Responses.

Context `{Host}.

(** The loop of [lsp_server_get_initialize_responses] over the slots from
    the current one on; [str] is the buffer. *)
Fixpoint responses_loop (servers : list addr) (str : string) (first : bool) : M string :=
  match servers with
  | [] => mret str
  | a :: rest =>
      s ← deref a;
      match cmd (config s), initialize_response s with
      | Some command, Some response =>
          let str := if negb first then str +:+ NEXT_SERVER else str in
          let str := str +:+ (LF +:+ LF +:+ DQUOTE) in
          let str := str +:+ command in
          let str := str +:+ (DQUOTE +:+ ":" +:+ LF) in
          let str := str +:+ response in
          let str := str +:+ "," in
          responses_loop rest str false
      | _, _ => responses_loop rest str first
      end
  end.

(** [None] is the [FALSE], that is [NULL], the function returns without a
    registry. *)
Definition lsp_server_get_initialize_responses : M (option string) :=
  w ← get_world;
  match lsp_servers w with
  | None => mret None
  | Some servers =>
      str ← responses_loop servers "{" true;
      let str :=
        if g_str_has_suffix str ","
        then g_string_erase str (String.length str - 1) 1
        else str in
      mret (Some (str +:+ (LF +:+ "}")))
  end.

End Responses.

(** The block of one server in the collected responses. *)
Definition response_block (command response : string) : string :=
  LF +:+ LF +:+ DQUOTE +:+ command +:+ DQUOTE +:+ ":" +:+ LF +:+ response.

(** The blocks of the servers that have a command and a response, in slot
    order, with what the function puts between two of them. *)
Fixpoint response_blocks (entries : list (string * string)) : string :=
  match entries with
  | [] => ""
  | [(command, response)] => response_block command response
  | (command, response) :: rest =>
      response_block command response +:+ "," +:+ NEXT_SERVER +:+ response_blocks rest
  end.

(** The command and the response of the session at [a], if it has both. *)
Definition response_entry (w : World) (a : addr) : option (string * string) :=
  srv ← heap w !! a;
  command ← cmd (config srv);
  response ← initialize_response srv;
  Some (command, response).

(** ** Notions the further properties are stated with *)

(** The session and the method of the notification a sync operation sends
    when it sends one. *)
Definition sync_op_target (op : sync_op) : option (addr * string) :=
  match op with
  | SyncInit => None
  | DidOpen server _ => Some (server, "textDocument/didOpen")
  | DidClose server _ => Some (server, "textDocument/didClose")
  | DidSave server _ => Some (server, "textDocument/didSave")
  | DidChange server _ _ _ _ => Some (server, "textDocument/didChange")
  end.

(** The document a sync operation is about. *)
Definition sync_op_doc (op : sync_op) : option GeanyDocument :=
  match op with
  | SyncInit => None
  | DidOpen _ doc | DidClose _ doc | DidSave _ doc | DidChange _ doc _ _ _ => Some doc
  end.

(** A save or a change, addressed to a session that exists. *)
Definition save_or_change (w : World) (op : sync_op) : Prop :=
  match op with
  | DidSave _ _ => True
  | DidChange server _ _ _ _ => is_Some (heap w !! server)
  | _ => False
  end.

(** The notification [e] is the one operation [op] sends. *)
Definition notifies (op : sync_op) (e : effect) : Prop :=
  match e with
  | RpcNotify server method _ => sync_op_target op = Some (server, method)
  | _ => False
  end.

(** The version a notification carries, if it carries one. *)
Definition carries_version (v : Z) (e : effect) : Prop :=
  match e with
  | RpcNotify _ _ params => params_version params = Some v
  | _ => False
  end.

(** The operation is not about a document with the path [q]. *)
Definition off_path (q : string) (op : sync_op) : Prop :=
  match sync_op_doc op with
  | Some doc => real_path doc <> Some q
  | None => True
  end.

(** A change of a document without a real path, addressed to a session
    that exists. *)
Definition unnamed_change (w : World) (op : sync_op) : Prop :=
  match op with
  | DidChange server doc _ _ _ => real_path doc = None /\ is_Some (heap w !! server)
  | _ => False
  end.

(** The legend of semantic token types as it stands in the response. *)
Definition token_types (node : json) : option (list json) :=
  caps ← get_dict "capabilities" node;
  provider ← get_dict "semanticTokensProvider" caps;
  legend ← get_dict "legend" provider;
  get_iter "tokenTypes" legend.

(** Entry [i] of a legend is one of the seven type-like token types. *)
Definition type_like_at (items : list json) (i : nat) : bool :=
  match items !! i with
  | Some val => is_type_like (get_string val)
  | None => false
  end.

(** [index] of [get_semantic_token_mask] when the loop reaches entry [k]. *)
Definition token_index (k : nat) : Z :=
  if (k <? 64)%nat then 2 ^ Z.of_nat k else 0.

(** An element of a trigger character list that adds to the string built
    from the list: a string that is not empty. *)
Definition adds_trigger_chars (val : json) : bool :=
  negb (EMPTY (get_string val)).

(** The [delta] member of [semanticTokensProvider.full], whatever its
    type. *)
Definition semantic_tokens_delta (node : json) : option json :=
  caps ← get_dict "capabilities" node;
  provider ← get_dict "semanticTokensProvider" caps;
  full ← get_dict "full" provider;
  member "delta" full.

(** A string of white space only, as [g_ascii_isspace] has it, the empty
    one included. *)
Fixpoint blank (s : string) : bool :=
  match s with
  | String c rest => g_ascii_isspace c && blank rest
  | EmptyString => true
  end.

(** A string that starts with a character that is no white space. *)
Definition headed (s : string) : Prop :=
  match s with String c _ => g_ascii_isspace c = false | EmptyString => False end.

(** Lookups that may launch, for the session of one file type, one after
    the other; each element of [spawns] is the outcome of the launch,
    should the lookup attempt one. *)
Fixpoint launch_repeatedly `{Host} (ft : nat) (spawns : list (option process)) : M unit :=
  match spawns with
  | [] => mret tt
  | spawn :: rest => _ ← lsp_server_get_for_ft (Some ft) spawn; launch_repeatedly ft rest
  end.

(** A session that stands for itself and has nothing running: no cached
    link and no reference language, no process, no handshake under way,
    not marked unused. *)
Definition launchable (srv : LspServer) : Prop :=
  referenced srv = None /\ ref_lang (config srv) = None
  /\ startup_shutdown srv = false /\ srv_process srv = None /\ not_used srv = false.

(** Every language Geany knows by name has a slot in the registry. *)
Definition names_have_slots `{Host} (w : World) : Prop :=
  forall name ft, filetypes_lookup_by_name name = Some ft -> has_slot w ft = true.

(** The state of a session whose launch has failed [k] times so far: its
    counter reads [k], nothing runs, and its command strips to [command]. *)
Definition retrying (s : addr) (command : string) (k : Z) (t : list effect) (servers : list addr)
    (w : World) : Prop :=
  exists srv,
    lsp_servers w = Some servers /\ heap w !! s = Some srv /\ launchable srv
    /\ restarts srv = k /\ g_strstrip <$> cmd (config srv) = Some command
    /\ trace w = t.

(** The session at [a] exists and owns a process. *)
Definition has_process (w : World) (a : addr) : bool :=
  match heap w !! a with
  | Some srv => bool_decide (is_Some (srv_process srv))
  | None => false
  end.

(** The sessions of a registry that own a process, in slot order. *)
Definition running_sessions (w : World) (servers : list addr) : list addr :=
  List.filter (has_process w) servers.

(** The registry, if there is one, can be torn down: no session sits in
    two slots, and every session exists. *)
Definition stoppable (w : World) : Prop :=
  match lsp_servers w with
  | Some servers => NoDup servers /\ forall a, a ∈ servers -> is_Some (heap w !! a)
  | None => True
  end.

(** A document [initialize_cb] looks at when it replays the open documents
    to session [srv]: it has the file type of the session, it is modified
    or it is the current document, and the project policy of the session
    admits it. *)
Definition replayed `{Host} (srv : LspServer) (current_doc : option nat)
    (doc : GeanyDocument) : bool :=
  Nat.eqb (file_type doc) (filetype srv)
  && (changed doc || bool_decide (current_doc = Some (doc_id doc)))
  && is_lsp_valid_for_doc (config srv) (Some doc).

(** The documents of the replay that are not open yet. *)
Definition announced `{Host} (srv : LspServer) (current_doc : option nat)
    (table : gset nat) (documents : list GeanyDocument) : list GeanyDocument :=
  List.filter (fun doc => replayed srv current_doc doc && negb (bool_decide (doc_id doc ∈ table)))
    documents.

(** The [text] member of the [textDocument] of a notification. *)
Definition params_text (params : json) : option string :=
  match get_dict "textDocument" params ≫= member "text" with
  | Some (JString text) => Some text
  | _ => None
  end.

(** [e] is a didOpen for [doc], sent to [server], with the URI and the
    current text of the document. *)
Definition announces `{Host} (server : addr) (doc : GeanyDocument) (e : effect) : Prop :=
  exists params,
    e = RpcNotify server "textDocument/didOpen" params
    /\ params_uri params = Some (lsp_utils_get_doc_uri doc)
    /\ params_text params = Some (sci_contents doc).

(** ** A second editor and an editor's view of the files

    What the first editor has no case of: a language whose command is
    white space, one whose server cannot be launched, and the files a goto
    reply points into. *)

Module Editor2.

Definition ft_Make : nat := 0.
Definition ft_Rust : nat := 1.

Definition languages (name : string) : option nat :=
  if String.eqb name "Make" then Some ft_Make
  else if String.eqb name "Rust" then Some ft_Rust
  else None.

Definition commands (ft : nat) : LspServerConfig :=
  match ft with
  | 0%nat => set_cmd (Some "   ") Scenario.base_config
  | _ => set_cmd (Some " rust-analyzer ") Scenario.base_config
  end.

Definition editor : Host :=
  {| filetypes_count := 2;
     filetypes_lookup_by_name := languages;
     load_server_config := commands;
     lsp_utils_is_lsp_disabled_for_project := false;
     app_project := false;
     project_relative_path := fun path => Some path;
     lsp_utils_get_doc_uri := fun doc => "file://" +:+ default "" (real_path doc);
     lsp_utils_get_lsp_lang_name := fun doc => "rust";
     lsp_utils_json_pretty_print := fun _ => "{}" |}.

Definition makefile : GeanyDocument :=
  {| doc_id := 1; real_path := Some "/src/Makefile"; file_type := ft_Make; changed := false;
     sci_contents := "all:" |}.

(** The plugin has been loaded. *)
Definition started_up : World :=
  Scenario.after lsp_sync_init
    (Scenario.after (lsp_server_init_all (H := editor)) initial_world).

(** The sessions of the two languages as the load leaves them. *)
Definition make_session : LspServer :=
  default (lsp_server_new (H := editor) ft_Make) (heap started_up !! 0%nat).

Definition rust_session : LspServer :=
  default (lsp_server_new (H := editor) ft_Rust) (heap started_up !! 1%nat).

(** The path of a [file://] URI. *)
Definition path_of_uri (uri : string) : string :=
  substring 7 (String.length uri - 7) uri.

Definition location_at (uri : string) (l : Z) : Goto.LspLocation :=
  {| Goto.uri := uri;
     Goto.range := {| Goto.start := {| line := l; character := 0 |};
                      Goto.end_ := {| line := l; character := 0 |} |} |}.

(** A location is an object with a [uri] and a [line]; a list of
    locations parses when all of its elements do. *)
Definition parse_location (node : json) : option Goto.LspLocation :=
  match member "uri" node, get_int64 "line" node with
  | Some (JString uri), Some l => Some (location_at uri l)
  | _, _ => None
  end.

Fixpoint parse_locations (items : list json) : option (list Goto.LspLocation) :=
  match items with
  | [] => Some []
  | item :: rest =>
      loc ← parse_location item;
      locs ← parse_locations rest;
      Some (loc :: locs)
  end.

(** [main.c] is open in the editor (document 1, widget 10); [util.c] is on
    disk; no other file can be read.  There is no project. *)
Definition goto_host : Goto.GotoHost :=
  {| Goto.lsp_utils_get_real_path_from_uri_locale := path_of_uri;
     Goto.lsp_utils_get_real_path_from_uri_utf8 := path_of_uri;
     Goto.lsp_utils_get_project_base_path := None;
     Goto.utils_get_locale_from_utf8 := fun s => s;
     Goto.g_path_get_basename := fun s => s;
     Goto.lsp_utils_scintilla_pos_to_lsp := fun doc pos => {| line := 0; character := pos |};
     Goto.lsp_utils_parse_locations := parse_locations;
     Goto.lsp_utils_parse_location := parse_location;
     Goto.document_open_file := fun fname =>
       if String.eqb fname "/src/main.c" then Some 1%nat
       else if String.eqb fname "/src/util.c" then Some 2%nat else None;
     Goto.document_find_by_filename := fun fname =>
       if String.eqb fname "/src/main.c" then Some 10%nat else None;
     Goto.lsp_utils_new_sci_from_file := fun fname =>
       if String.eqb fname "/src/util.c" then Some 20%nat else None;
     Goto.sci_get_line := fun widget lineno => "  int x;  ";
     Goto.lsp_goto_panel_filter := fun symbols filter => symbols |}.

Definition json_location (uri : string) (l : Z) : json :=
  JObject [("uri", JString uri); ("line", JInt l)].

(** A reply that names two places in [util.c], one in [main.c] and one in
    a file that is gone. *)
Definition references : list json :=
  [json_location "file:///src/util.c" 4; json_location "file:///src/main.c" 0;
   json_location "file:///src/util.c" 9; json_location "file:///src/gone.c" 2].

(** The state of lsp-goto.c before any request. *)
Definition goto_initial : Goto.GotoState :=
  {| Goto.last_result := None; Goto.goto_trace := [] |}.

End Editor2.

(** * Properties *)

(** ** Running monadic code *)

Ltac munfold :=
  unfold lsp_rpc_notify in *; unfold emit in *;
  unfold mbind, M_bind, mret, M_ret, get_world, modify_world, deref, modify,
    alloc, release, stuck in *.

(** Case analysis on every [match] and [if] a hypothesis is blocked on. *)
Ltac case_run :=
  repeat (match goal with
          | E : context [match ?x with _ => _ end] |- _ => destruct x eqn:?; simpl in *
          | E : context [if ?x then _ else _] |- _ => destruct x eqn:?; simpl in *
          end; simplify_eq/=).

Lemma bind_Some {A B} (m : M A) (k : A -> M B) w r :
  (m ≫= k) w = Some r <-> exists x w1, m w = Some (x, w1) /\ k x w1 = Some r.
Proof.
  unfold mbind, M_bind. split.
  - destruct (m w) as [[x w1]|]; [eauto | done].
  - intros (x & w1 & -> & E). exact E.
Qed.

Lemma bind_mret {A B} (x : A) (k : A -> M B) w : (mret x ≫= k) w = k x w.
Proof. reflexivity. Qed.

Lemma deref_Some a w srv w' :
  deref a w = Some (srv, w') <-> heap w !! a = Some srv /\ w' = w.
Proof.
  unfold deref. destruct (heap w !! a); split; intros E; simplify_eq; intuition congruence.
Qed.

Lemma bind_deref {B} a (k : LspServer -> M B) w srv :
  heap w !! a = Some srv -> (deref a ≫= k) w = k srv w.
Proof. intros E. unfold mbind, M_bind, deref. now rewrite E. Qed.

Lemma bind_modify {B} a f (k : unit -> M B) w srv :
  heap w !! a = Some srv ->
  (modify a f ≫= k) w = k tt (set_heap (<[a := f srv]> (heap w)) w).
Proof. intros E. unfold mbind, M_bind, modify. now rewrite E. Qed.

(** A world written out around the session at one address: the successive
    member updates of a callback then rewrite in place. *)
Section AtSession.

Variables (a : addr) (h : gmap addr LspServer) (n : addr) (ls : option (list addr))
  (sis : list addr) (od : option (gset nat)) (dv : gmap string Z).

Let world (x : LspServer) (t : list effect) : World :=
  {| heap := <[a := x]> h; next_addr := n; lsp_servers := ls; servers_in_shutdown := sis;
     open_docs := od; doc_version_nums := dv; trace := t |}.

Lemma modify_at {B} f (k : unit -> M B) x t :
  (modify a f ≫= k) (world x t) = k tt (world (f x) t).
Proof.
  unfold mbind, M_bind, modify, world, set_heap; cbn [heap].
  rewrite lookup_insert_eq, insert_insert_eq. reflexivity.
Qed.

Lemma deref_at {B} (k : LspServer -> M B) x t :
  (deref a ≫= k) (world x t) = k x (world x t).
Proof.
  unfold mbind, M_bind, deref, world; cbn [heap].
  rewrite lookup_insert_eq. reflexivity.
Qed.

Lemma emit_at {B} e (k : unit -> M B) x t :
  (emit e ≫= k) (world x t) = k tt (world x (t ++ [e])).
Proof. reflexivity. Qed.

End AtSession.

Lemma world_at a w srv :
  heap w !! a = Some srv ->
  w = {| heap := <[a := srv]> (heap w); next_addr := next_addr w; lsp_servers := lsp_servers w;
         servers_in_shutdown := servers_in_shutdown w; open_docs := open_docs w;
         doc_version_nums := doc_version_nums w; trace := trace w |}.
Proof. intros E. rewrite (insert_id _ _ _ E). now destruct w. Qed.

Ltac mstep E :=
  first [ rewrite bind_mret in E | rewrite emit_at in E | rewrite modify_at in E
        | rewrite deref_at in E ].

Lemma exec_Some {A} (m : M A) w w' :
  exec m w = Some w' <-> exists x, m w = Some (x, w').
Proof.
  unfold exec. destruct (m w) as [[x w1]|]; simpl; split.
  - intros [= ->]. eauto.
  - intros (y & [= _ ->]). reflexivity.
  - discriminate.
  - intros (y & [=]).
Qed.

Lemma exec_unit (m : M unit) w w' :
  exec m w = Some w' <-> m w = Some (tt, w').
Proof.
  rewrite exec_Some. split; [intros ([] & E); exact E | eauto].
Qed.

(** ** What a run leaves alone *)

Section Frames.

Context `{Host}.

(** A lookup that may not launch changes nothing. *)
Lemma lookup_unchanged ft spawn w r w' :
  server_get_or_start_for_ft ft false spawn w = Some (r, w') -> w' = w.
Proof.
  unfold server_get_or_start_for_ft, pdata. munfold. intros E.
  case_run; reflexivity.
Qed.

Lemma get_if_running_unchanged doc w r w' :
  lsp_server_get_if_running doc w = Some (r, w') -> w' = w.
Proof.
  unfold lsp_server_get_if_running, server_get_for_doc. intros E.
  destruct doc as [d|]; [|munfold; by simplify_eq].
  apply bind_Some in E as (r0 & w0 & ->%lookup_unchanged & E).
  munfold. case_run; reflexivity.
Qed.

Lemma did_open_frame s doc w w' :
  lsp_sync_text_document_did_open s doc w = Some (tt, w') ->
  heap w' = heap w /\ lsp_servers w' = lsp_servers w
  /\ servers_in_shutdown w' = servers_in_shutdown w /\ next_addr w' = next_addr w.
Proof.
  unfold lsp_sync_text_document_did_open, lsp_sync_is_document_open, open_docs_add,
    get_next_doc_version_num.
  munfold. intros E. case_run; auto.
Qed.

Lemma replay_frame s docs cur w w' :
  replay_open_documents s docs cur w = Some (tt, w') ->
  heap w' = heap w /\ lsp_servers w' = lsp_servers w
  /\ servers_in_shutdown w' = servers_in_shutdown w /\ next_addr w' = next_addr w.
Proof.
  revert w. induction docs as [|doc rest IH]; intros w E.
  - unfold replay_open_documents, mret, M_ret in E. by simplify_eq.
  - cbn [replay_open_documents] in E.
    apply bind_Some in E as (srv & w0 & [_ ->]%deref_Some & E).
    apply bind_Some in E as ([] & w1 & E1 & E).
    apply IH in E as (-> & -> & -> & ->).
    destruct (_ && _) in E1; [|unfold mret, M_ret in E1; by simplify_eq].
    apply bind_Some in E1 as (r & w2 & ->%get_if_running_unchanged & E1).
    destruct r; [by eapply did_open_frame | unfold mret, M_ret in E1; by simplify_eq].
Qed.

Lemma registry_sound_ext w w' :
  heap w' = heap w -> lsp_servers w' = lsp_servers w ->
  registry_sound w' = registry_sound w.
Proof.
  intros Hh Hl. unfold registry_sound, session_sound. by rewrite Hh, Hl.
Qed.

(** Member updates of a session that keep its cached link keep the registry
    sound. *)
Lemma registry_sound_update w s srv srv' w' :
  registry_sound w = true -> heap w !! s = Some srv -> referenced srv' = referenced srv ->
  heap w' = <[s := srv']> (heap w) -> lsp_servers w' = lsp_servers w ->
  registry_sound w' = true.
Proof.
  unfold registry_sound. intros Hsound Hs Href Hh Hl. rewrite Hl.
  destruct (lsp_servers w) as [servers|]; [|reflexivity].
  apply forallb_forall. intros a Hin.
  rewrite forallb_forall in Hsound. specialize (Hsound a Hin).
  unfold session_sound in *. rewrite Hh.
  assert (Hkeep : forall r, is_Some (heap w !! r) -> is_Some (<[s := srv']> (heap w) !! r)).
  { intros r Hr. destruct (decide (s = r)) as [->|Hne].
    - rewrite lookup_insert_eq. by eexists.
    - by rewrite lookup_insert_ne. }
  destruct (decide (s = a)) as [->|Hne].
  - rewrite lookup_insert_eq, Href. rewrite Hs in Hsound.
    destruct (referenced srv) as [r|]; [|reflexivity].
    apply bool_decide_eq_true_1 in Hsound. apply bool_decide_eq_true_2. by apply Hkeep.
  - rewrite lookup_insert_ne by exact Hne.
    destruct (heap w !! a) as [srva|]; [|discriminate].
    destruct (referenced srva) as [r|]; [|reflexivity].
    apply bool_decide_eq_true_1 in Hsound. apply bool_decide_eq_true_2. by apply Hkeep.
Qed.

(** In a sound registry a lookup that may not launch always returns, and
    returns a session that exists. *)
Lemma lookup_total ft spawn w :
  registry_sound w = true -> has_slot w ft = true ->
  exists r, server_get_or_start_for_ft (Some ft) false spawn w = Some (r, w)
    /\ forall a, r = Some a -> is_Some (heap w !! a).
Proof.
  unfold registry_sound, has_slot. intros Hsound Hslot.
  unfold server_get_or_start_for_ft, mbind at 1, M_bind at 1, get_world.
  destruct (lsp_servers w) as [servers|]; [|by exists None].
  cbv beta iota. destruct lsp_utils_is_lsp_disabled_for_project; [by exists None|].
  apply bool_decide_eq_true_1 in Hslot.
  destruct (lookup_lt_is_Some_2 servers ft Hslot) as [a Ha].
  unfold pdata. rewrite Ha, bind_mret.
  rewrite forallb_forall in Hsound.
  assert (Hin : In a servers) by (apply list_elem_of_In, list_elem_of_lookup; eauto).
  specialize (Hsound a Hin). unfold session_sound in Hsound.
  destruct (heap w !! a) as [srv|] eqn:Hs; [|discriminate].
  rewrite (bind_deref _ _ _ _ Hs).
  assert (Hs' : exists srv', heap w !! default a (referenced srv) = Some srv').
  { destruct (referenced srv) as [r|]; cbn [default]; [|eauto].
    by apply bool_decide_eq_true_1 in Hsound. }
  destruct Hs' as [srv' Hs']. rewrite (bind_deref _ _ _ _ Hs').
  destruct (startup_shutdown srv'); [by exists None|].
  destruct (bool_decide (is_Some (srv_process srv'))).
  { eexists. split; [reflexivity|]. intros a' [= <-]. by eexists. }
  destruct (not_used srv'); [by exists None|].
  destruct (is_dead srv'); by exists None.
Qed.

Lemma get_if_running_total doc w :
  registry_sound w = true -> has_slot w (file_type doc) = true ->
  exists r, lsp_server_get_if_running (Some doc) w = Some (r, w).
Proof.
  intros Hsound Hslot.
  destruct (lookup_total (file_type doc) None w Hsound Hslot) as (r & E & Hr).
  unfold lsp_server_get_if_running, server_get_for_doc, mbind at 1, M_bind at 1.
  rewrite E. destruct r as [a|]; [|by exists None].
  destruct (Hr a eq_refl) as [srv Hs]. rewrite (bind_deref _ _ _ _ Hs).
  destruct (negb _); by eexists.
Qed.

(** The sync engine never gets stuck on a didOpen. *)
Lemma did_open_total s doc w :
  exists w', lsp_sync_text_document_did_open s doc w = Some (tt, w').
Proof.
  unfold lsp_sync_text_document_did_open, lsp_sync_is_document_open, open_docs_add,
    get_next_doc_version_num.
  munfold. destruct (open_docs w); [destruct (bool_decide _)|];
    destruct (real_path doc); by eexists.
Qed.

Lemma replay_total s docs cur w srv :
  heap w !! s = Some srv -> registry_sound w = true -> has_slot w (filetype srv) = true ->
  exists w', replay_open_documents s docs cur w = Some (tt, w').
Proof.
  revert w. induction docs as [|doc rest IH]; intros w Hs Hsound Hslot.
  - by eexists.
  - cbn [replay_open_documents]. rewrite (bind_deref _ _ _ _ Hs).
    assert (Hstep : forall w1, heap w1 = heap w -> lsp_servers w1 = lsp_servers w ->
                      exists w', replay_open_documents s rest cur w1 = Some (tt, w')).
    { intros w1 Hh Hl. apply IH.
      - by rewrite Hh.
      - by rewrite (registry_sound_ext _ _ Hh Hl).
      - unfold has_slot in *. by rewrite Hl. }
    destruct (Nat.eqb (file_type doc) (filetype srv)) eqn:Eft; cbn [andb];
      [|rewrite bind_mret; by apply Hstep].
    apply Nat.eqb_eq in Eft.
    destruct (_ || _); [|rewrite bind_mret; by apply Hstep].
    destruct (get_if_running_total doc w Hsound) as [r E]; [by rewrite Eft|].
    unfold mbind at 1 2, M_bind at 1 2. rewrite E.
    destruct r; [|by apply Hstep].
    destruct (did_open_total s doc w) as [w1 E1]. rewrite E1.
    apply did_open_frame in E1 as (Hh & Hl & _). by apply Hstep.
Qed.

End Frames.

(** ** Capability negotiation *)

Section Negotiation.

Context `{Host}.

(** A successful [initialize] on a live session returns, and leaves this in
    the session, member by member. *)
Lemma initialize_cb_reply rv s docs cur spawn w srv :
  live_session w s srv ->
  exists w' srv', exec (initialize_cb (Reply rv) s docs cur spawn) w = Some w'
    /\ heap w' !! s = Some srv'
    /\ srv_use_incremental_sync srv' = use_incremental_sync rv
    /\ supports_workspace_symbols srv' = update_config rv true "workspaceSymbolProvider"
    /\ autocomplete_enable (config srv') =
         (if EMPTY (Some (get_autocomplete_trigger_chars rv)) then false
          else autocomplete_enable (config srv))
    /\ signature_enable (config srv') =
         (if EMPTY (Some (get_signature_trigger_chars rv)) then false
          else signature_enable (config srv))
    /\ hover_enable (config srv') = update_config rv (hover_enable (config srv)) "hoverProvider"
    /\ goto_enable (config srv') = update_config rv (goto_enable (config srv)) "definitionProvider"
    /\ document_symbols_enable (config srv') =
         update_config rv (document_symbols_enable (config srv)) "documentSymbolProvider"
    /\ highlighting_enable (config srv') =
         update_config rv (highlighting_enable (config srv)) "documentHighlightProvider"
    /\ semantic_tokens_enable (config srv') =
         (if supports_semantic_tokens rv then semantic_tokens_enable (config srv) else false)
    /\ startup_shutdown srv' = false.
Proof.
  intros (Hs & Hsound & Hslot).
  assert (Hreplay : forall srv1 t1,
            referenced srv1 = referenced srv -> filetype srv1 = filetype srv ->
            exists w',
              replay_open_documents s docs cur
                {| heap := <[s := srv1]> (heap w); next_addr := next_addr w;
                   lsp_servers := lsp_servers w; servers_in_shutdown := servers_in_shutdown w;
                   open_docs := open_docs w; doc_version_nums := doc_version_nums w;
                   trace := t1 |} = Some (tt, w')
              /\ heap w' !! s = Some srv1).
  { intros srv1 t1 Href Hft.
    match goal with
    | |- exists w', replay_open_documents _ _ _ ?W = _ /\ _ =>
        destruct (replay_total s docs cur W srv1) as [w' E]
    end.
    - apply lookup_insert_eq.
    - eapply registry_sound_update; [exact Hsound | exact Hs | exact Href | reflexivity..].
    - rewrite Hft. exact Hslot.
    - exists w'. split; [exact E|].
      apply replay_frame in E as (-> & _). apply lookup_insert_eq. }
  unfold initialize_cb. setoid_rewrite exec_unit.
  rewrite (world_at _ _ _ Hs).
  destruct (EMPTY (Some (get_autocomplete_trigger_chars rv))) eqn:Ea;
  destruct (EMPTY (Some (get_signature_trigger_chars rv))) eqn:Eg;
  destruct (supports_semantic_tokens rv) eqn:Et; cbn [negb];
  repeat first [ rewrite bind_mret | rewrite emit_at | rewrite modify_at | rewrite deref_at ];
  (edestruct Hreplay as (w' & E & Hs'); [| |exists w'; eexists; split; [exact E|];
     split; [exact Hs'|]; repeat split; reflexivity]; reflexivity).
Qed.

(** The parse in [use_incremental_sync] reads the capability the way the
    specification describes it. *)
Lemma use_incremental_sync_kind rv :
  use_incremental_sync rv = true <-> text_document_sync_kind rv = Some 2.
Proof.
  unfold use_incremental_sync, text_document_sync_kind, get_dict, get_int64.
  destruct (member "capabilities" rv) as [[]|]; simpl; try (split; discriminate).
  destruct (assoc "textDocumentSync" members) as [[]|]; simpl; try (split; discriminate).
  - rewrite Z.eqb_eq. split; congruence.
  - destruct (assoc "change" members0) as [[]|]; simpl; try (split; discriminate).
    rewrite Z.eqb_eq. split; congruence.
Qed.

Lemma update_config_true rv option key :
  update_config rv option key = true <->
  option = true /\ capability key rv = Some (JBool true).
Proof.
  unfold update_config, capability, get_boolean.
  destruct (get_dict "capabilities" rv) as [caps|]; simpl; [|intuition discriminate].
  destruct (member key caps) as [j|]; [destruct j as [|b| | | | |]; try destruct b|];
    simpl; intuition congruence.
Qed.

Lemma update_config_restricts rv option key :
  update_config rv option key = true -> option = true.
Proof. intros E. apply update_config_true in E as [E _]. exact E. Qed.

(** C3: for every initialize response the session selects incremental
    sync if and only if the server's textDocumentSync capability, read as
    the plain number or as the change member of the object form, is 2;
    every other value, 0 included, every other type and an absent
    capability leave full-document sync selected. *)
Theorem incremental_sync_iff_capability_2 rv s docs cur spawn w srv :
  live_session w s srv ->
  exists w' srv', exec (initialize_cb (Reply rv) s docs cur spawn) w = Some w'
    /\ heap w' !! s = Some srv'
    /\ (srv_use_incremental_sync srv' = true <-> text_document_sync_kind rv = Some 2)
    /\ (text_document_sync_kind rv <> Some 2 -> srv_use_incremental_sync srv' = false).
Proof.
  intros Hlive.
  destruct (initialize_cb_reply rv s docs cur spawn w srv Hlive)
    as (w' & srv' & E & Hs' & Hsync & _).
  exists w', srv'. split; [exact E|]. split; [exact Hs'|]. rewrite Hsync. split.
  - apply use_incremental_sync_kind.
  - intros Hne. destruct (use_incremental_sync rv) eqn:Ei; [|reflexivity].
    by apply use_incremental_sync_kind in Ei.
Qed.

(** C6, amended: after the negotiation on an initialize response the
    workspace-symbols feature is enabled if and only if the server's
    workspaceSymbolProvider capability is the boolean true; a capability
    that is false, absent or not a boolean disables it. *)
Theorem workspace_symbols_iff_capability_true rv s docs cur spawn w srv :
  live_session w s srv ->
  exists w' srv', exec (initialize_cb (Reply rv) s docs cur spawn) w = Some w'
    /\ heap w' !! s = Some srv'
    /\ (supports_workspace_symbols srv' = true <->
        capability "workspaceSymbolProvider" rv = Some (JBool true)).
Proof.
  intros Hlive.
  destruct (initialize_cb_reply rv s docs cur spawn w srv Hlive)
    as (w' & srv' & E & Hs' & _ & Hws & _).
  exists w', srv'. split; [exact E|]. split; [exact Hs'|].
  rewrite Hws, update_config_true. intuition.
Qed.

(** C7: processing an initialize response never turns a feature switch
    on: each of the seven switches is on afterwards only if it was on
    before, so what the local configuration disabled stays disabled; and
    an empty list of completion trigger characters turns autocomplete off,
    an empty list of signature-help trigger characters turns signature
    help off, whatever the local configuration said. *)
Theorem negotiation_only_restricts rv s docs cur spawn w srv :
  live_session w s srv ->
  exists w' srv', exec (initialize_cb (Reply rv) s docs cur spawn) w = Some w'
    /\ heap w' !! s = Some srv'
    /\ Forall2 (fun after before => after = true -> before = true)
         (feature_flags (config srv')) (feature_flags (config srv))
    /\ (completion_trigger_characters rv = Some [] ->
        autocomplete_enable (config srv') = false)
    /\ (signature_trigger_characters rv = Some [] ->
        signature_enable (config srv') = false).
Proof.
  intros Hlive.
  destruct (initialize_cb_reply rv s docs cur spawn w srv Hlive)
    as (w' & srv' & E & Hs' & _ & _ & Ha & Hg & Hh & Hd & Hy & Hl & Ht & _).
  exists w', srv'. split; [exact E|]. split; [exact Hs'|]. split; [|split].
  - unfold feature_flags. rewrite Ha, Hg, Hh, Hd, Hy, Hl, Ht.
    repeat constructor; try apply update_config_restricts.
    + destruct (EMPTY (Some (get_autocomplete_trigger_chars rv))); [discriminate|auto].
    + destruct (EMPTY (Some (get_signature_trigger_chars rv))); [discriminate|auto].
    + destruct (supports_semantic_tokens rv); [auto|discriminate].
  - intros Ec. rewrite Ha. unfold get_autocomplete_trigger_chars.
    unfold completion_trigger_characters in Ec. by rewrite Ec.
  - intros Ec. rewrite Hg. unfold get_signature_trigger_chars.
    unfold signature_trigger_characters in Ec. by rewrite Ec.
Qed.

End Negotiation.

Lemma incremental_sync_iff_capability_2_witness :
  exists w' srv',
    exec (initialize_cb (H := Scenario.host) (Reply Scenario.reply_incremental) 0%nat
            [Scenario.main_c] (Some 1%nat) None) Scenario.c_starting = Some w'
    /\ heap w' !! 0%nat = Some srv'
    /\ (srv_use_incremental_sync srv' = true <->
        text_document_sync_kind Scenario.reply_incremental = Some 2)
    /\ (text_document_sync_kind Scenario.reply_incremental <> Some 2 ->
        srv_use_incremental_sync srv' = false).
Proof.
  apply (incremental_sync_iff_capability_2 (H := Scenario.host) Scenario.reply_incremental
           0%nat [Scenario.main_c] (Some 1%nat) None Scenario.c_starting
           Scenario.clangd_starting).
  split; [|split]; vm_compute; reflexivity.
Defined.

(** C6 as stated fails: clangd's plainer answer does not mention
    workspaceSymbolProvider at all, and the feature is off after the
    negotiation. *)
Lemma workspace_symbols_off_when_absent :
  capability "workspaceSymbolProvider" Scenario.reply_plain = None
  /\ exec (initialize_cb (H := Scenario.host) (Reply Scenario.reply_plain) 0%nat
            [Scenario.main_c] (Some 1%nat) None) Scenario.c_starting
     = Some Scenario.c_ready_plain
  /\ supports_workspace_symbols <$> heap Scenario.c_ready_plain !! 0%nat = Some false.
Proof. split; [|split]; vm_compute; reflexivity. Qed.

Lemma workspace_symbols_iff_capability_true_witness :
  exists w' srv',
    exec (initialize_cb (H := Scenario.host) (Reply Scenario.reply_incremental) 0%nat
            [Scenario.main_c] (Some 1%nat) None) Scenario.c_starting = Some w'
    /\ heap w' !! 0%nat = Some srv'
    /\ (supports_workspace_symbols srv' = true <->
        capability "workspaceSymbolProvider" Scenario.reply_incremental = Some (JBool true)).
Proof.
  apply (workspace_symbols_iff_capability_true (H := Scenario.host) Scenario.reply_incremental
           0%nat [Scenario.main_c] (Some 1%nat) None Scenario.c_starting
           Scenario.clangd_starting).
  split; [|split]; vm_compute; reflexivity.
Defined.

Lemma negotiation_only_restricts_witness :
  exists w' srv',
    exec (initialize_cb (H := Scenario.host) (Reply Scenario.reply_incremental) 0%nat
            [Scenario.main_c] (Some 1%nat) None) Scenario.c_starting = Some w'
    /\ heap w' !! 0%nat = Some srv'
    /\ Forall2 (fun after before => after = true -> before = true)
         (feature_flags (config srv')) (feature_flags (config Scenario.clangd_starting))
    /\ (completion_trigger_characters Scenario.reply_incremental = Some [] ->
        autocomplete_enable (config srv') = false)
    /\ (signature_trigger_characters Scenario.reply_incremental = Some [] ->
        signature_enable (config srv') = false).
Proof.
  apply (negotiation_only_restricts (H := Scenario.host) Scenario.reply_incremental
           0%nat [Scenario.main_c] (Some 1%nat) None Scenario.c_starting
           Scenario.clangd_starting).
  split; [|split]; vm_compute; reflexivity.
Defined.

(** ** Members of the state a computation leaves as they are *)

Definition preserves {T A : Type} (proj : World -> T) (m : M A) : Prop :=
  forall w x w', m w = Some (x, w') -> proj w' = proj w.

(** A member other than the store, and other than the trace. *)
Definition off_heap {T : Type} (proj : World -> T) : Prop :=
  (forall h w, proj (set_heap h w) = proj w)
  /\ (forall n w, proj (set_next_addr n w) = proj w).

Definition off_trace {T : Type} (proj : World -> T) : Prop :=
  forall t w, proj (set_trace t w) = proj w.

Section Preserves.

Context {T : Type} (proj : World -> T).

Lemma preserves_ret {A} (x : A) : preserves proj (mret x).
Proof. intros w y w' [= _ <-]. reflexivity. Qed.

Lemma preserves_stuck {A} : preserves proj (@stuck A).
Proof. intros w y w' [=]. Qed.

Lemma preserves_bind {A B} (m : M A) (k : A -> M B) :
  preserves proj m -> (forall x, preserves proj (k x)) -> preserves proj (m ≫= k).
Proof.
  intros Hm Hk w y w' (x & w1 & E1 & E2)%bind_Some.
  rewrite (Hk _ _ _ _ E2). eapply Hm, E1.
Qed.

Lemma preserves_get_world : preserves proj get_world.
Proof. intros w y w' [= _ <-]. reflexivity. Qed.

Lemma preserves_deref a : preserves proj (deref a).
Proof. intros w y w' [_ ->]%deref_Some. reflexivity. Qed.

Lemma preserves_modify_world f :
  (forall w, proj (f w) = proj w) -> preserves proj (modify_world f).
Proof. intros Hf w y w' [= _ <-]. apply Hf. Qed.

Lemma preserves_modify a f : off_heap proj -> preserves proj (modify a f).
Proof.
  intros [Hh _] w y w' E. unfold modify in E.
  destruct (heap w !! a); simplify_eq. apply Hh.
Qed.

Lemma preserves_alloc s : off_heap proj -> preserves proj (alloc s).
Proof.
  intros [Hh Hn] w y w' [= _ <-]. by rewrite Hn, Hh.
Qed.

Lemma preserves_release a : off_heap proj -> preserves proj (release a).
Proof.
  intros [Hh _] w y w' E. unfold release in E.
  destruct (heap w !! a); simplify_eq. apply Hh.
Qed.

Lemma preserves_emit e : off_trace proj -> preserves proj (emit e).
Proof. intros Ht. apply preserves_modify_world. intros w. apply Ht. Qed.

Lemma preserves_if {A} (c : bool) (m1 m2 : M A) :
  preserves proj m1 -> preserves proj m2 -> preserves proj (if c then m1 else m2).
Proof. by destruct c. Qed.

End Preserves.

Create HintDb preserves discriminated.

#[global] Hint Resolve preserves_ret preserves_stuck preserves_get_world preserves_deref
  preserves_modify preserves_alloc preserves_release preserves_emit preserves_if : preserves.

(** One step through a computation built from the primitives. *)
Ltac preserves_step :=
  first
    [ progress auto with preserves
    | apply preserves_bind; [|intros ?]
    | apply preserves_modify_world; intros ?; reflexivity
    | match goal with
      | |- preserves _ (match ?x with _ => _ end) => destruct x
      end ].

Ltac preserves_walk := repeat preserves_step.

Lemma off_heap_versions : off_heap doc_version_nums.
Proof. by split. Qed.

Lemma off_trace_versions : off_trace doc_version_nums.
Proof. by intros t w. Qed.

#[global] Hint Resolve off_heap_versions off_trace_versions : preserves.

Section LifecycleFrames.

Context `{Host}.

Lemma start_lsp_server_versions s spawn :
  preserves doc_version_nums (start_lsp_server s spawn).
Proof. unfold start_lsp_server, perform_initialize. preserves_walk. Qed.

Lemma replace_and_start_versions ft inherited spawn :
  preserves doc_version_nums (replace_and_start ft inherited spawn).
Proof.
  unfold replace_and_start, lsp_server_init, set_pdata.
  repeat first [apply start_lsp_server_versions | preserves_step].
Qed.

Lemma stop_process_versions s : preserves doc_version_nums (stop_process s).
Proof. unfold stop_process. preserves_walk. Qed.

Lemma initialize_failure_versions s docs cur spawn :
  preserves doc_version_nums (initialize_cb Failure s docs cur spawn).
Proof.
  unfold initialize_cb.
  repeat first [apply stop_process_versions | apply replace_and_start_versions
               | preserves_step].
Qed.

Lemma process_stopped_versions p s spawn :
  preserves doc_version_nums (process_stopped p s spawn).
Proof.
  unfold process_stopped, free_server.
  repeat first [apply replace_and_start_versions | preserves_step].
Qed.

Lemma stop_and_free_servers_versions servers :
  preserves doc_version_nums (stop_and_free_servers servers).
Proof.
  induction servers as [|s rest IH]; cbn [stop_and_free_servers];
    unfold stop_and_free_server, free_server;
    repeat first [apply stop_process_versions | preserves_step].
Qed.

Lemma new_servers_versions fts : preserves doc_version_nums (new_servers fts).
Proof. induction fts as [|ft rest IH]; cbn [new_servers]; preserves_walk. Qed.

Lemma lsp_server_init_all_versions : preserves doc_version_nums lsp_server_init_all.
Proof.
  unfold lsp_server_init_all, lsp_server_stop_all.
  repeat first [apply stop_and_free_servers_versions | apply new_servers_versions
               | preserves_step].
Qed.

Lemma lsp_sync_init_versions : preserves doc_version_nums lsp_sync_init.
Proof. unfold lsp_sync_init. preserves_walk. Qed.

End LifecycleFrames.

(** ** Document synchronisation *)

Lemma fits_gint_id z : fits_gint z -> to_gint z = z.
Proof. apply to_gint_small. Qed.

Section SyncProperties.

Context `{Host}.

(** The counter step, spelled out. *)
Lemma get_next_doc_version_num_path doc path w :
  real_path doc = Some path ->
  get_next_doc_version_num doc w =
    Some (to_guint (doc_version w path + 1),
          set_doc_version_nums (<[path := to_guint (doc_version w path + 1)]> (doc_version_nums w)) w).
Proof. intros E. unfold get_next_doc_version_num. rewrite E. reflexivity. Qed.

Lemma get_next_doc_version_num_unnamed doc w :
  real_path doc = None -> get_next_doc_version_num doc w = Some (0, w).
Proof. intros E. unfold get_next_doc_version_num. rewrite E. reflexivity. Qed.

Lemma get_next_doc_version_num_spec doc w :
  version_in_range w doc ->
  exists w', get_next_doc_version_num doc w = Some (next_version w doc, w')
    /\ next_version w' doc = match real_path doc with
                            | Some _ => next_version w doc + 1
                            | None => 0
                            end
    /\ (forall path, real_path doc = Some path -> doc_version w' path = doc_version w path + 1)
    /\ heap w' = heap w /\ open_docs w' = open_docs w /\ trace w' = trace w
    /\ to_gint (next_version w doc) = next_version w doc.
Proof.
  unfold version_in_range, next_version. intros Hr.
  destruct (real_path doc) as [path|] eqn:Ep.
  - rewrite (get_next_doc_version_num_path _ _ _ Ep).
    rewrite to_guint_small by (unfold UINT_MODULUS, INT_MAX in *; lia).
    eexists. split; [reflexivity|].
    assert (Hv : doc_version
                   (set_doc_version_nums
                      (<[path := doc_version w path + 1]> (doc_version_nums w)) w) path
                 = doc_version w path + 1).
    { unfold doc_version at 1. cbn [doc_version_nums set_doc_version_nums].
      by rewrite lookup_insert_eq. }
    rewrite Hv. repeat split; try reflexivity.
    + intros path' [= <-]. exact Hv.
    + apply to_gint_small. unfold INT_MAX in *. lia.
  - rewrite (get_next_doc_version_num_unnamed _ _ Ep).
    eexists. repeat split; try reflexivity. discriminate.
Qed.

Lemma is_document_open_spec doc w table :
  open_docs w = Some table ->
  lsp_sync_is_document_open doc w = Some (bool_decide (doc_id doc ∈ table), w).
Proof.
  intros Ho. unfold lsp_sync_is_document_open, mbind, M_bind, get_world, mret, M_ret.
  by rewrite Ho.
Qed.

(** A document already in the table: nothing happens. *)
Lemma did_open_when_open server doc w table :
  open_docs w = Some table -> doc_id doc ∈ table ->
  lsp_sync_text_document_did_open server doc w = Some (tt, w).
Proof.
  intros Ho Hin. unfold lsp_sync_text_document_did_open, mbind at 1, M_bind at 1.
  by rewrite (is_document_open_spec _ _ _ Ho), bool_decide_eq_true_2.
Qed.

(** A document not in the table: recorded, and one notification. *)
Lemma did_open_when_closed server doc w table :
  open_docs w = Some table -> doc_id doc ∉ table -> version_in_range w doc ->
  exists w', lsp_sync_text_document_did_open server doc w = Some (tt, w')
    /\ open_docs w' = Some ({[doc_id doc]} ∪ table)
    /\ heap w' = heap w
    /\ (forall path, real_path doc = Some path -> doc_version w' path = doc_version w path + 1)
    /\ trace w' = (trace w ++
         [RpcNotify server "textDocument/didOpen"
            (JObject [("textDocument", JObject [
               ("uri", JString (lsp_utils_get_doc_uri doc));
               ("languageId", JString (lsp_utils_get_lsp_lang_name doc));
               ("version", JInt (next_version w doc));
               ("text", JString (sci_contents doc))])])])%list.
Proof.
  intros Ho Hout Hr.
  unfold lsp_sync_text_document_did_open, open_docs_add,
    lsp_rpc_notify, did_open_params, put_int32.
  set (w1 := set_open_docs ((fun table => {[doc_id doc]} ∪ table) <$> open_docs w) w).
  assert (Hr1 : version_in_range w1 doc) by exact Hr.
  destruct (get_next_doc_version_num_spec doc w1 Hr1)
    as (w2 & E2 & _ & Hv & Hh & Hod & Ht & Hg).
  change (next_version w1 doc) with (next_version w doc) in *.
  exists (set_trace (trace w2 ++
            [RpcNotify server "textDocument/didOpen"
               (JObject [("textDocument", JObject [
                  ("uri", JString (lsp_utils_get_doc_uri doc));
                  ("languageId", JString (lsp_utils_get_lsp_lang_name doc));
                  ("version", JInt (next_version w doc));
                  ("text", JString (sci_contents doc))])])]) w2).
  assert (Ho1 : open_docs w1 = Some ({[doc_id doc]} ∪ table))
    by (subst w1; cbn [open_docs set_open_docs]; by rewrite Ho).
  split; [|split; [|split; [|split]]].
  - unfold mbind at 1, M_bind at 1.
    rewrite (is_document_open_spec _ _ _ Ho), bool_decide_eq_false_2 by exact Hout.
    unfold mbind at 1, M_bind at 1, modify_world. fold w1.
    unfold mbind, M_bind. rewrite E2. unfold emit, modify_world. by rewrite Hg.
  - cbn [open_docs set_trace]. by rewrite Hod.
  - cbn [heap set_trace]. by rewrite Hh.
  - exact Hv.
  - cbn [trace set_trace]. by rewrite Ht.
Qed.

(** One change notification, spelled out. *)
Lemma did_change_spec server doc pos_start pos_end text w srv path :
  real_path doc = Some path -> heap w !! server = Some srv ->
  0 <= doc_version w path < INT_MAX ->
  exists w', lsp_sync_text_document_did_change server doc pos_start pos_end text w = Some (tt, w')
    /\ doc_version w' path = doc_version w path + 1
    /\ heap w' = heap w
    /\ trace w' = (trace w ++
         [RpcNotify server "textDocument/didChange"
            (if srv_use_incremental_sync srv
             then did_change_incremental_params (lsp_utils_get_doc_uri doc)
                    (doc_version w path + 1) pos_start pos_end text
             else did_change_full_params (lsp_utils_get_doc_uri doc)
                    (doc_version w path + 1) (sci_contents doc))])%list.
Proof.
  intros Ep Hs Hr.
  assert (Hr' : version_in_range w doc) by (unfold version_in_range; by rewrite Ep).
  destruct (get_next_doc_version_num_spec doc w Hr')
    as (w1 & E1 & _ & Hv & Hh & _ & Ht & _).
  unfold next_version in E1. rewrite Ep in E1.
  eexists. split.
  - unfold lsp_sync_text_document_did_change, mbind at 1, M_bind at 1. rewrite E1.
    rewrite bind_deref with (srv := srv) by (by rewrite Hh).
    unfold lsp_rpc_notify, emit, modify_world. reflexivity.
  - cbn [heap trace set_trace]. rewrite Hh, Ht.
    split; [exact (Hv _ Ep)|]. split; reflexivity.
Qed.

(** The counter of a path moves by at most one step per call, and never
    back, as long as it does not wrap. *)
Lemma get_next_doc_version_num_step doc w v w' path :
  get_next_doc_version_num doc w = Some (v, w') ->
  0 <= doc_version w path -> doc_version w path + 1 < UINT_MODULUS ->
  doc_version w path <= doc_version w' path <= doc_version w path + 1.
Proof.
  intros E H0 H1. destruct (real_path doc) as [p|] eqn:Ep.
  - rewrite (get_next_doc_version_num_path _ _ _ Ep) in E. simplify_eq.
    match goal with
    | |- _ <= doc_version ?w1 _ <= _ =>
        assert (Hv : doc_version w1 path =
                     if decide (p = path) then doc_version w path + 1 else doc_version w path)
    end.
    { unfold doc_version at 1. cbn [doc_version_nums set_doc_version_nums].
      destruct (decide (p = path)) as [->|Hne].
      - rewrite lookup_insert_eq. cbn [default]. apply to_guint_small. lia.
      - by rewrite lookup_insert_ne by exact Hne. }
    rewrite Hv. destruct (decide (p = path)); lia.
  - rewrite (get_next_doc_version_num_unnamed _ _ Ep) in E. simplify_eq. lia.
Qed.

Lemma preserves_version {A} (m : M A) path w x w' :
  preserves doc_version_nums m -> m w = Some (x, w') ->
  doc_version w' path = doc_version w path.
Proof. intros Hm E. unfold doc_version. by rewrite (Hm _ _ _ E). Qed.

Lemma is_document_open_versions doc : preserves doc_version_nums (lsp_sync_is_document_open doc).
Proof. unfold lsp_sync_is_document_open. preserves_walk. Qed.

Lemma did_close_versions server doc :
  preserves doc_version_nums (lsp_sync_text_document_did_close server doc).
Proof.
  unfold lsp_sync_text_document_did_close, lsp_sync_is_document_open, open_docs_remove,
    lsp_rpc_notify.
  preserves_walk.
Qed.

Lemma did_save_versions server doc :
  preserves doc_version_nums (lsp_sync_text_document_did_save server doc).
Proof. unfold lsp_sync_text_document_did_save, lsp_rpc_notify. preserves_walk. Qed.

Lemma run_sync_op_step op w w' path :
  run_sync_op op w = Some (tt, w') ->
  0 <= doc_version w path -> doc_version w path + 1 < UINT_MODULUS ->
  doc_version w path <= doc_version w' path <= doc_version w path + 1.
Proof.
  intros E H0 H1. destruct op as [|server doc|server doc|server doc|server doc ps pe text];
    cbn [run_sync_op] in E.
  - rewrite (preserves_version _ path _ _ _ lsp_sync_init_versions E). lia.
  - unfold lsp_sync_text_document_did_open in E.
    apply bind_Some in E as (b & w1 & E1 & E).
    pose proof (preserves_version _ path _ _ _ (is_document_open_versions doc) E1) as Hw1.
    destruct b.
    + unfold mret, M_ret in E. simplify_eq. lia.
    + apply bind_Some in E as ([] & w2 & E2 & E).
      apply bind_Some in E as (v & w3 & E3 & E).
      assert (Hw2 : doc_version w2 path = doc_version w1 path).
      { eapply preserves_version; [|exact E2]. unfold open_docs_add. preserves_walk. }
      assert (Hw3 : doc_version w' path = doc_version w3 path).
      { eapply preserves_version; [|exact E]. unfold lsp_rpc_notify. preserves_walk. }
      apply (get_next_doc_version_num_step _ _ _ _ path) in E3; lia.
  - rewrite (preserves_version _ path _ _ _ (did_close_versions server doc) E). lia.
  - rewrite (preserves_version _ path _ _ _ (did_save_versions server doc) E). lia.
  - unfold lsp_sync_text_document_did_change in E.
    apply bind_Some in E as (v & w1 & E1 & E).
    assert (Hw1 : doc_version w' path = doc_version w1 path).
    { eapply preserves_version; [|exact E]. unfold lsp_rpc_notify. preserves_walk. }
    apply (get_next_doc_version_num_step _ _ _ _ path) in E1; lia.
Qed.

Lemma run_sync_ops_steps ops w w' path :
  run_sync_ops ops w = Some (tt, w') ->
  0 <= doc_version w path -> doc_version w path + Z.of_nat (length ops) < UINT_MODULUS ->
  doc_version w path <= doc_version w' path <= doc_version w path + Z.of_nat (length ops).
Proof.
  revert w. induction ops as [|op rest IH]; intros w E H0 H1.
  - unfold run_sync_ops, mret, M_ret in E. simplify_eq. cbn [length]. lia.
  - cbn [run_sync_ops] in E. apply bind_Some in E as ([] & w1 & E1 & E).
    cbn [length] in *.
    apply (run_sync_op_step _ _ _ path) in E1; [|lia..].
    apply IH in E; lia.
Qed.

(** C2: a did_change on a document with a real path advances the counter
    of that path by exactly 1 and emits one didChange notification that
    carries the bumped version and exactly one content change: the supplied
    range and text when the session negotiated incremental sync, the whole
    current text of the document and no range otherwise.  No later
    did_change on the same path, whatever the sync engine did in between,
    carries that version again: it carries a larger one. *)
Theorem did_change_bumps_version server doc pos_start pos_end text w srv path :
  real_path doc = Some path ->
  heap w !! server = Some srv ->
  0 <= doc_version w path < INT_MAX ->
  (srv_use_incremental_sync srv = true ->
   valid_position pos_start /\ valid_position pos_end) ->
  exists w',
    exec (lsp_sync_text_document_did_change server doc pos_start pos_end text) w = Some w'
    /\ doc_version w' path = doc_version w path + 1
    /\ trace w' = (trace w ++
         [RpcNotify server "textDocument/didChange"
            (JObject [
               ("textDocument", JObject [
                  ("uri", JString (lsp_utils_get_doc_uri doc));
                  ("version", JInt (doc_version w' path))]);
               ("contentChanges", JArray [
                  if srv_use_incremental_sync srv then
                    JObject [
                      ("range", JObject [
                         ("start", JObject [
                            ("line", JInt (line pos_start));
                            ("character", JInt (character pos_start))]);
                         ("end", JObject [
                            ("line", JInt (line pos_end));
                            ("character", JInt (character pos_end))])]);
                      ("text", JString text)]
                  else
                    JObject [("text", JString (sci_contents doc))]])])])%list
    /\ forall ops w2 server2 doc2 pos_start2 pos_end2 text2 w3,
         real_path doc2 = Some path ->
         exec (run_sync_ops ops) w' = Some w2 ->
         exec (lsp_sync_text_document_did_change server2 doc2 pos_start2 pos_end2 text2) w2
           = Some w3 ->
         doc_version w' path + Z.of_nat (length ops) + 1 < UINT_MODULUS ->
         doc_version w' path < doc_version w3 path.
Proof.
  intros Ep Hs Hr Hpos.
  destruct (did_change_spec server doc pos_start pos_end text w srv path Ep Hs Hr)
    as (w' & E & Hv & _ & Ht).
  exists w'. split; [by apply exec_unit|]. split; [exact Hv|]. split.
  - rewrite Ht, Hv. do 3 f_equal.
    unfold did_change_incremental_params, did_change_full_params, put_int32.
    rewrite (to_gint_small (doc_version w path + 1)) by (unfold INT_MAX in *; lia).
    destruct (srv_use_incremental_sync srv); [|reflexivity].
    destruct Hpos as [[Hsl Hsc] [Hel Hec]]; [reflexivity|].
    by rewrite !fits_gint_id.
  - intros ops w2 server2 doc2 ps2 pe2 text2 w3 Ep2 E2%exec_unit E3%exec_unit Hbound.
    assert (H0 : 0 <= doc_version w' path) by lia.
    apply (run_sync_ops_steps _ _ _ path) in E2; [|lia..].
    unfold lsp_sync_text_document_did_change in E3.
    apply bind_Some in E3 as (v & w21 & E21 & E3).
    assert (Hw3 : doc_version w3 path = doc_version w21 path).
    { eapply preserves_version; [|exact E3]. unfold lsp_rpc_notify. preserves_walk. }
    rewrite (get_next_doc_version_num_path _ _ _ Ep2) in E21. simplify_eq.
    rewrite Hw3. unfold doc_version at 2. cbn [doc_version_nums set_doc_version_nums].
    rewrite lookup_insert_eq. cbn [default]. rewrite to_guint_small by lia. unfold id. lia.
Qed.

(** C4, amended: did_open is idempotent per document.  The table of open
    documents is one for the whole process and is keyed by the document
    alone, whichever session the call names.  With the table initialised, a
    did_open for a document already in it changes nothing and emits nothing;
    for a document not in it, it records the document and emits exactly one
    didOpen notification, to the session named, carrying the URI, the
    language identifier, the version and the full current text; and a
    did_open followed by a did_open for the same document, for the same or
    for any other session, does what the first alone does. *)
Theorem did_open_idempotent_per_document server doc w table :
  open_docs w = Some table ->
  (doc_id doc ∈ table ->
   lsp_sync_text_document_did_open server doc w = Some (tt, w))
  /\ (doc_id doc ∉ table -> version_in_range w doc ->
      exists w', exec (lsp_sync_text_document_did_open server doc) w = Some w'
        /\ open_docs w' = Some ({[doc_id doc]} ∪ table)
        /\ trace w' = (trace w ++
             [RpcNotify server "textDocument/didOpen"
                (JObject [("textDocument", JObject [
                   ("uri", JString (lsp_utils_get_doc_uri doc));
                   ("languageId", JString (lsp_utils_get_lsp_lang_name doc));
                   ("version", JInt (next_version w doc));
                   ("text", JString (sci_contents doc))])])])%list)
  /\ (version_in_range w doc ->
      forall server2 doc2, doc_id doc2 = doc_id doc ->
        (_ ← lsp_sync_text_document_did_open server doc;
         lsp_sync_text_document_did_open server2 doc2) w
        = lsp_sync_text_document_did_open server doc w).
Proof.
  intros Ho. split; [|split].
  - by apply did_open_when_open.
  - intros Hout Hr.
    destruct (did_open_when_closed server doc w table Ho Hout Hr)
      as (w' & E & Ho' & _ & _ & Ht).
    exists w'. by rewrite exec_unit.
  - intros Hr server2 doc2 Hid. unfold mbind at 1, M_bind at 1.
    destruct (decide (doc_id doc ∈ table)) as [Hin|Hout].
    + rewrite (did_open_when_open server doc w table Ho Hin).
      apply did_open_when_open with (table := table); [exact Ho|by rewrite Hid].
    + destruct (did_open_when_closed server doc w table Ho Hout Hr)
        as (w' & E & Ho' & _).
      rewrite E. apply did_open_when_open with (table := {[doc_id doc]} ∪ table);
        [exact Ho'|rewrite Hid; set_solver].
Qed.

(** C5, amended: the version counter of a path belongs to the process, not
    to a session, and nothing resets it.  A didOpen for a document with a
    real path carries the last version handed out for that path plus 1:
    that is 1 for a path not seen before in this run of the editor, and
    more than 1 for every later didOpen, the first one after a restart
    included, because neither lsp_sync_init nor any step of a restart (the
    exit of the process, a failed initialize, the rebuilding of the
    registry) touches the counters.  A document without a real path always
    carries version 0. *)
Theorem version_counter_outlives_sessions server doc w table :
  open_docs w = Some table -> doc_id doc ∉ table -> version_in_range w doc ->
  (exists w', exec (lsp_sync_text_document_did_open server doc) w = Some w'
     /\ did_open_versions (trace w') =
          (did_open_versions (trace w) ++ [Some (next_version w doc)])%list
     /\ (forall path, real_path doc = Some path ->
         doc_version w' path = doc_version w path + 1
         /\ (doc_version_nums w !! path = None -> next_version w doc = 1))
     /\ (real_path doc = None -> next_version w doc = 0))
  /\ preserves doc_version_nums lsp_sync_init
  /\ (forall p s spawn, preserves doc_version_nums (process_stopped p s spawn))
  /\ (forall s docs cur spawn,
       preserves doc_version_nums (initialize_cb Failure s docs cur spawn))
  /\ preserves doc_version_nums lsp_server_init_all.
Proof.
  intros Ho Hout Hr. split; [|split; [|split; [|split]]].
  - destruct (did_open_when_closed server doc w table Ho Hout Hr)
      as (w' & E & _ & _ & Hv & Ht).
    exists w'. split; [by apply exec_unit|]. split; [|split].
    + rewrite Ht. unfold did_open_versions. rewrite omap_app. reflexivity.
    + intros path Ep. split; [by apply Hv|].
      intros Hnone. unfold next_version, doc_version. by rewrite Ep, Hnone.
    + intros Ep. unfold next_version. by rewrite Ep.
  - apply lsp_sync_init_versions.
  - intros p s spawn. apply process_stopped_versions.
  - intros s docs cur spawn. apply initialize_failure_versions.
  - apply lsp_server_init_all_versions.
Qed.

End SyncProperties.

Lemma did_change_bumps_version_witness :
  exists w',
    exec (lsp_sync_text_document_did_change (H := Scenario.host) 0%nat Scenario.main_c
            {| line := 2; character := 0 |} {| line := 2; character := 5 |} "abc")
      Scenario.c_ready = Some w'
    /\ doc_version w' "/src/main.c" = 2
    /\ forall w2 w3,
         exec (run_sync_ops (H := Scenario.host) [DidSave 0%nat Scenario.main_c]) w' = Some w2 ->
         exec (lsp_sync_text_document_did_change (H := Scenario.host) 0%nat Scenario.main_c
                 {| line := 0; character := 0 |} {| line := 0; character := 0 |} "x") w2
           = Some w3 ->
         2 < doc_version w3 "/src/main.c".
Proof.
  assert (Ev : doc_version Scenario.c_ready "/src/main.c" = 1) by (vm_compute; reflexivity).
  destruct (did_change_bumps_version (H := Scenario.host) 0%nat Scenario.main_c
              {| line := 2; character := 0 |} {| line := 2; character := 5 |} "abc"
              Scenario.c_ready Scenario.clangd_session "/src/main.c")
    as (w' & E & Hv & _ & Hlater).
  - reflexivity.
  - vm_compute. reflexivity.
  - rewrite Ev. unfold INT_MAX. lia.
  - intros _. unfold valid_position, fits_gint, INT_MAX. simpl. lia.
  - exists w'. split; [exact E|]. rewrite Ev in Hv. split; [exact Hv|].
    intros w2 w3 E2 E3.
    assert (Hlt : doc_version w' "/src/main.c" < doc_version w3 "/src/main.c").
    { apply (Hlater [DidSave 0%nat Scenario.main_c] w2 0%nat Scenario.main_c
               {| line := 0; character := 0 |} {| line := 0; character := 0 |} "x" w3).
      - reflexivity.
      - exact E2.
      - exact E3.
      - rewrite Hv. unfold UINT_MODULUS. simpl. lia. }
    rewrite Hv in Hlt. exact Hlt.
Defined.

(** C4 as stated fails for a document that is open for another session.
    [main.c] was opened for clangd (session 0) and then became a Python
    document; pylsp (session 2) is its live session and was never sent a
    didOpen for it, neither by the replay after its initialize nor by a
    did_open called now, which changes and emits nothing. *)
Lemma did_open_silent_for_second_session :
  eval (lsp_server_get (H := Scenario.host) (Some Scenario.main_as_python) None)
    Scenario.python_ready = Some (Some 2%nat)
  /\ open_for_session 0%nat "file:///src/main.c" (trace Scenario.python_ready) = true
  /\ open_for_session 2%nat "file:///src/main.c" (trace Scenario.python_ready) = false
  /\ lsp_sync_text_document_did_open (H := Scenario.host) 2%nat Scenario.main_as_python
       Scenario.python_ready = Some (tt, Scenario.python_ready).
Proof. split; [|split; [|split]]; vm_compute; reflexivity. Qed.

Lemma did_open_idempotent_per_document_witness :
  (exists w',
     exec (lsp_sync_text_document_did_open (H := Scenario.host) 0%nat Scenario.main_c)
       Scenario.loaded = Some w'
     /\ open_docs w' = Some ({[1%nat]} ∪ ∅)
     /\ (_ ← lsp_sync_text_document_did_open (H := Scenario.host) 0%nat Scenario.main_c;
         lsp_sync_text_document_did_open (H := Scenario.host) 0%nat Scenario.main_c)
          Scenario.loaded
        = lsp_sync_text_document_did_open (H := Scenario.host) 0%nat Scenario.main_c
            Scenario.loaded)
  /\ lsp_sync_text_document_did_open (H := Scenario.host) 0%nat Scenario.main_c
       Scenario.c_ready = Some (tt, Scenario.c_ready).
Proof.
  assert (Hr : version_in_range Scenario.loaded Scenario.main_c)
    by (vm_compute; split; [discriminate | reflexivity]).
  split.
  - destruct (did_open_idempotent_per_document (H := Scenario.host) 0%nat Scenario.main_c
                Scenario.loaded ∅) as (_ & Hclosed & Htwice).
    + vm_compute. reflexivity.
    + destruct Hclosed as (w' & E & Ho & _); [set_solver | exact Hr |].
      exists w'. split; [exact E|]. split; [exact Ho|].
      apply Htwice; [exact Hr | reflexivity].
  - destruct (did_open_idempotent_per_document (H := Scenario.host) 0%nat Scenario.main_c
                Scenario.c_ready {[1%nat]}) as (Hopen & _).
    + vm_compute. reflexivity.
    + apply Hopen. set_solver.
Defined.

(** C5 as stated fails.  clangd is started and answers, and [main.c] is
    sent with version 1; the registry is rebuilt and the sync engine reset,
    clangd is started and answers again, and the first didOpen of the new
    session carries version 2. *)
Lemma first_version_after_restart_is_2 :
  did_open_versions (trace Scenario.c_ready) = [Some 1]
  /\ did_open_versions (trace Scenario.c_ready_again) = [Some 1; Some 2].
Proof. split; vm_compute; reflexivity. Qed.

Lemma version_counter_outlives_sessions_witness :
  (exists w',
     exec (lsp_sync_text_document_did_open (H := Scenario.host) 0%nat Scenario.main_c)
       Scenario.loaded = Some w'
     /\ did_open_versions (trace w') = [Some 1])
  /\ (exists w',
       exec (lsp_sync_text_document_did_open (H := Scenario.host) 0%nat Scenario.untitled)
         Scenario.c_ready = Some w'
       /\ did_open_versions (trace w') = [Some 1; Some 0]).
Proof.
  split.
  - destruct (version_counter_outlives_sessions (H := Scenario.host) 0%nat Scenario.main_c
                Scenario.loaded ∅) as ((w' & E & Hv & _) & _).
    + vm_compute. reflexivity.
    + set_solver.
    + vm_compute. split; [discriminate | reflexivity].
    + exists w'. split; [exact E|]. rewrite Hv. vm_compute. reflexivity.
  - destruct (version_counter_outlives_sessions (H := Scenario.host) 0%nat Scenario.untitled
                Scenario.c_ready {[1%nat]}) as ((w' & E & Hv & _) & _).
    + vm_compute. reflexivity.
    + set_solver.
    + exact I.
    + exists w'. split; [exact E|]. rewrite Hv. vm_compute. reflexivity.
Defined.

(** ** Starting, restarting and stopping sessions *)

(** The struct [start_lsp_server] leaves behind, and what it does to the
    outside world, as functions of the struct it finds. *)
Definition started (spawn : option process) (srv : LspServer) : LspServer :=
  let counted := set_restarts (restarts srv + 1) srv in
  if restarts srv + 1 >? 5 then counted
  else
    match spawn with
    | Some _ => set_startup_shutdown true (set_srv_process spawn counted)
    | None => set_srv_process spawn counted
    end.

Definition start_effects (s : addr) (spawn : option process) (srv : LspServer) : list effect :=
  let command := default "" (cmd (config srv)) in
  if restarts srv + 1 >? 5 then [Dialog command]
  else Spawn s command ::
       match spawn with
       | Some _ => [ClientCall s "initialize"]
       | None => []
       end.

(** A session waits for the end of its stop handshake: it still exists,
    owns process [p], and sits once in [servers_in_shutdown]. *)
Definition awaiting_stop (s : addr) (p : process) (w : World) : Prop :=
  (exists srv, heap w !! s = Some srv /\ srv_process srv = Some p)
  /\ s ∈ servers_in_shutdown w /\ NoDup (servers_in_shutdown w).

Lemma index_of_lookup x l i : index_of x l = Some i -> l !! i = Some x.
Proof.
  revert i. induction l as [|y l IH]; intros i E; [done|].
  cbn [index_of] in E. destruct (Nat.eqb y x) eqn:Eyx.
  - apply Nat.eqb_eq in Eyx as ->. by simplify_eq.
  - destruct (index_of x l) as [j|]; simplify_eq/=. by apply IH.
Qed.

Lemma index_of_elem x l : x ∈ l -> is_Some (index_of x l).
Proof.
  induction l as [|y l IH]; [by intros ?%elem_of_nil|].
  intros Hin. cbn [index_of]. destruct (Nat.eqb y x) eqn:Eyx; [by eexists|].
  apply Nat.eqb_neq in Eyx. apply elem_of_cons in Hin as [->|Hin]; [done|].
  destruct (IH Hin) as [j ->]. by eexists.
Qed.

(** Everything left after a fast removal sat at another index before. *)
Lemma remove_index_fast_lookup i l j z :
  remove_index_fast i l !! j = Some z -> (i < length l)%nat ->
  exists k, k <> i /\ l !! k = Some z.
Proof.
  unfold remove_index_fast. intros E Hi.
  destruct (l !! (length l - 1)%nat) as [y|] eqn:Elast;
    [|apply lookup_ge_None in Elast; lia].
  destruct (Nat.eqb i (length l - 1)) eqn:Ei.
  - apply Nat.eqb_eq in Ei. apply lookup_take_Some in E as [E Hj].
    exists j. split; [lia | exact E].
  - apply Nat.eqb_neq in Ei. apply list_lookup_insert_Some in E as [(-> & -> & _)|[Hne E]].
    + exists (length l - 1)%nat. split; [lia | exact Elast].
    + apply lookup_take_Some in E as [E Hj]. exists j. split; [lia | exact E].
Qed.

Lemma remove_fast_spec x l :
  NoDup l -> x ∈ l ->
  exists l', g_ptr_array_remove_fast x l = Some l' /\ x ∉ l'.
Proof.
  intros Hnd Hin. destruct (index_of_elem x l Hin) as [i Ei].
  unfold g_ptr_array_remove_fast. rewrite Ei. eexists. split; [reflexivity|].
  apply index_of_lookup in Ei.
  intros (j & Ej)%list_elem_of_lookup.
  apply remove_index_fast_lookup in Ej as (k & Hk & Ek);
    [|by eapply lookup_lt_Some].
  apply Hk. eapply NoDup_lookup; eauto.
Qed.

Section Stopping.

Context `{Host}.

Lemma force_terminate_spec s p w srv :
  heap w !! s = Some srv -> srv_process srv = Some p ->
  force_terminate s w = Some (tt, set_trace (trace w ++ [SendSigterm p; ForceExit p]) w).
Proof.
  intros Hs Hp. unfold force_terminate. rewrite (bind_deref _ _ _ _ Hs), Hp.
  unfold mbind, M_bind, emit, modify_world. cbn [trace set_trace].
  by rewrite <- app_assoc.
Qed.

Lemma servers_in_shutdown_remove_spec s p w :
  awaiting_stop s p w ->
  exists w', servers_in_shutdown_remove s w = Some (tt, w')
    /\ trace w' = trace w /\ s ∉ servers_in_shutdown w'.
Proof.
  intros ((srv & Hs & _) & Hin & Hnd).
  destruct (remove_fast_spec s _ Hnd Hin) as (l' & El & Hout).
  unfold servers_in_shutdown_remove, mbind at 1, M_bind at 1, get_world. rewrite El.
  unfold mbind, M_bind, modify_world, free_server, release.
  cbn [heap set_servers_in_shutdown]. rewrite Hs.
  eexists. split; [reflexivity|]. by split.
Qed.

Lemma awaiting_stop_trace s p w t : awaiting_stop s p w -> awaiting_stop s p (set_trace t w).
Proof. intros H0. exact H0. Qed.

(** C8: the stop of a running session sends the shutdown request first.
    If the request succeeds, and only then, the exit notification is sent;
    if it fails, or if afterwards the exit notification fails, the process
    is sent SIGTERM and then forced to exit.  Whichever way the two
    callbacks turn out, the session has left [servers_in_shutdown] when the
    last of them returns. *)
Theorem two_phase_stop s p :
  (forall w srv,
     heap w !! s = Some srv -> srv_process srv = Some p ->
     s ∉ servers_in_shutdown w -> NoDup (servers_in_shutdown w) ->
     exists w1, exec (stop_process s) w = Some w1
       /\ trace w1 = (trace w ++ [ClientCall s "shutdown"])%list
       /\ awaiting_stop s p w1)
  /\ (forall w, awaiting_stop s p w ->
       (exists w2, exec (shutdown_cb false s) w = Some w2
          /\ trace w2 = (trace w ++ [ClientNotify s "exit"])%list
          /\ awaiting_stop s p w2)
       /\ (exists w2, exec (shutdown_cb true s) w = Some w2
          /\ trace w2 = (trace w ++ [SendSigterm p; ForceExit p])%list
          /\ s ∉ servers_in_shutdown w2)
       /\ (exists w3, exec (exit_cb false s) w = Some w3
          /\ trace w3 = trace w
          /\ s ∉ servers_in_shutdown w3)
       /\ (exists w3, exec (exit_cb true s) w = Some w3
          /\ trace w3 = (trace w ++ [SendSigterm p; ForceExit p])%list
          /\ s ∉ servers_in_shutdown w3)).
Proof.
  split.
  - intros w srv Hs Hp Hout Hnd. eexists. split; [|split].
    + apply exec_unit. unfold stop_process. rewrite (bind_modify _ _ _ _ _ Hs).
      unfold mbind, M_bind, modify_world, emit. reflexivity.
    + reflexivity.
    + cbn [awaiting_stop heap servers_in_shutdown set_trace set_servers_in_shutdown set_heap].
      unfold awaiting_stop.
      cbn [heap servers_in_shutdown set_trace set_servers_in_shutdown set_heap].
      split; [|split].
      * eexists. split; [apply lookup_insert_eq | exact Hp].
      * set_solver.
      * apply NoDup_app. split; [exact Hnd|]. split; [|apply NoDup_singleton].
        intros x Hx ->%list_elem_of_singleton. by apply Hout.
  - intros w Hw. pose proof Hw as ((srv & Hs & Hp) & _).
    pose proof (force_terminate_spec s p w srv Hs Hp) as Eforce.
    destruct (servers_in_shutdown_remove_spec s p w Hw) as (w3 & E3 & Ht3 & Hout3).
    destruct (servers_in_shutdown_remove_spec s p _
                (awaiting_stop_trace s p w (trace w ++ [SendSigterm p; ForceExit p]) Hw))
      as (w4 & E4 & Ht4 & Hout4).
    split; [|split; [|split]].
    + eexists. split.
      { apply exec_unit. unfold shutdown_cb. by rewrite (bind_deref _ _ _ _ Hs). }
      split; [reflexivity | exact Hw].
    + exists w4. split; [|by split].
      apply exec_unit. unfold shutdown_cb. rewrite (bind_deref _ _ _ _ Hs).
      cbn [negb]. unfold mbind, M_bind. by rewrite Eforce.
    + exists w3. split; [|by split].
      apply exec_unit. unfold exit_cb. by rewrite bind_mret.
    + exists w4. split; [|by split].
      apply exec_unit. unfold exit_cb, mbind, M_bind. by rewrite Eforce.
Qed.

End Stopping.

Section Starting.

Context `{Host}.

Lemma start_lsp_server_spec s spawn w srv :
  heap w !! s = Some srv -> fits_gint (restarts srv + 1) ->
  exists w', start_lsp_server s spawn w = Some (tt, w')
    /\ heap w' = <[s := started spawn srv]> (heap w)
    /\ trace w' = (trace w ++ start_effects s spawn srv)%list
    /\ lsp_servers w' = lsp_servers w
    /\ servers_in_shutdown w' = servers_in_shutdown w
    /\ next_addr w' = next_addr w.
Proof.
  intros Hs Hfit. unfold start_lsp_server, perform_initialize, started, start_effects.
  destruct w as [h n ls sis od dv t].
  cbn [heap trace lsp_servers servers_in_shutdown next_addr] in *.
  rewrite <- (insert_id h s srv Hs). rewrite modify_at, deref_at.
  unfold is_dead. cbn [restarts set_restarts config cmd].
  rewrite (fits_gint_id _ Hfit).
  destruct (restarts srv + 1 >? 5).
  - eexists. split; [reflexivity|]. cbn [heap trace lsp_servers servers_in_shutdown next_addr].
    rewrite insert_insert_eq. repeat split; reflexivity.
  - rewrite emit_at, modify_at. destruct spawn as [p|].
    + rewrite modify_at. eexists. split; [reflexivity|].
      cbn [heap trace lsp_servers servers_in_shutdown next_addr].
      rewrite insert_insert_eq, <- app_assoc. repeat split; reflexivity.
    + eexists. split; [reflexivity|].
      cbn [heap trace lsp_servers servers_in_shutdown next_addr].
      rewrite insert_insert_eq. repeat split; reflexivity.
Qed.

(** The session a restart puts into the registry. *)
Lemma replace_and_start_spec ft inherited spawn w servers :
  lsp_servers w = Some servers -> (ft < length servers)%nat -> (ft < filetypes_count)%nat ->
  fits_gint (inherited + 1) ->
  let fresh := set_restarts inherited (lsp_server_new ft) in
  exists w', replace_and_start ft inherited spawn w = Some (tt, w')
    /\ heap w' = <[next_addr w := started spawn fresh]> (heap w)
    /\ trace w' = (trace w ++ start_effects (next_addr w) spawn fresh)%list
    /\ lsp_servers w' = Some (<[ft := next_addr w]> servers)
    /\ servers_in_shutdown w' = servers_in_shutdown w.
Proof.
  intros Hl Hlen Hft Hfit fresh.
  set (w1 := set_next_addr (S (next_addr w))
               (set_heap (<[next_addr w := lsp_server_new ft]> (heap w)) w)).
  set (w2 := set_heap (<[next_addr w := fresh]> (heap w1)) w1).
  set (w3 := set_lsp_servers (Some (<[ft := next_addr w]> servers)) w2).
  assert (Hs3 : heap w3 !! next_addr w = Some fresh) by apply lookup_insert_eq.
  destruct (start_lsp_server_spec (next_addr w) spawn w3 fresh Hs3 Hfit)
    as (w' & E & Hh & Ht & Hls & Hsis & _).
  exists w'. split; [|split; [|split; [|split]]].
  - unfold replace_and_start, lsp_server_init.
    rewrite bool_decide_eq_true_2 by exact Hft.
    unfold mbind at 1, M_bind at 1, alloc. fold w1.
    rewrite bind_modify with (srv := lsp_server_new ft) by apply lookup_insert_eq.
    fold fresh. fold w2.
    unfold mbind at 1, M_bind at 1, set_pdata, mbind at 1, M_bind at 1, get_world.
    cbn [lsp_servers w2 w1 set_heap set_next_addr]. rewrite Hl.
    rewrite bool_decide_eq_true_2 by exact Hlen.
    unfold modify_world. exact E.
  - rewrite Hh. cbn [heap w3 w2 w1 set_heap set_next_addr set_lsp_servers].
    by rewrite !insert_insert_eq.
  - rewrite Ht. reflexivity.
  - rewrite Hls. reflexivity.
  - rewrite Hsis. reflexivity.
Qed.

Lemma stop_process_spec s w srv :
  heap w !! s = Some srv ->
  stop_process s w =
    Some (tt, set_trace (trace w ++ [ClientCall s "shutdown"])
                (set_servers_in_shutdown (servers_in_shutdown w ++ [s])
                   (set_heap (<[s := set_startup_shutdown true srv]> (heap w)) w))).
Proof.
  intros Hs. unfold stop_process. rewrite (bind_modify _ _ _ _ _ Hs). reflexivity.
Qed.

Lemma initialize_failure_spec s docs cur spawn w srv servers :
  heap w !! s = Some srv -> lsp_servers w = Some servers ->
  (filetype srv < length servers)%nat -> (filetype srv < filetypes_count)%nat ->
  fits_gint (restarts srv + 1) ->
  let fresh := set_restarts (restarts srv) (lsp_server_new (filetype srv)) in
  exists w', initialize_cb Failure s docs cur spawn w = Some (tt, w')
    /\ heap w' !! next_addr w = Some (started spawn fresh)
    /\ trace w' = (trace w ++ ClientCall s "shutdown"
                    :: start_effects (next_addr w) spawn fresh)%list
    /\ lsp_servers w' = Some (<[filetype srv := next_addr w]> servers).
Proof.
  intros Hs Hl Hlen Hft Hfit fresh.
  set (w1 := set_trace (trace w ++ [ClientCall s "shutdown"])
               (set_servers_in_shutdown (servers_in_shutdown w ++ [s])
                  (set_heap (<[s := set_startup_shutdown true srv]> (heap w)) w))).
  destruct (replace_and_start_spec (filetype srv) (restarts srv) spawn w1 servers
              Hl Hlen Hft Hfit) as (w' & E & Hh & Ht & Hls & _).
  exists w'. split; [|split; [|split]].
  - unfold initialize_cb. rewrite (bind_deref _ _ _ _ Hs).
    unfold mbind at 1, M_bind at 1. rewrite (stop_process_spec _ _ _ Hs). exact E.
  - rewrite Hh. apply lookup_insert_eq.
  - rewrite Ht. cbn [trace w1 set_trace next_addr set_servers_in_shutdown set_heap].
    by rewrite <- app_assoc.
  - exact Hls.
Qed.

(** The exit of the process a session owns has no defined run: the handler
    frees the struct and then reads its file type. *)
Lemma process_stopped_reads_freed p s spawn w srv :
  heap w !! s = Some srv -> srv_process srv = Some p ->
  process_stopped p s spawn w = None.
Proof.
  intros Hs Hp. unfold process_stopped. rewrite (bind_deref _ _ _ _ Hs).
  rewrite bool_decide_eq_true_2 by exact Hp.
  unfold mbind, M_bind, free_server, release, deref. rewrite Hs.
  cbn [heap set_heap]. by rewrite lookup_delete_eq.
Qed.

(** The exit of any other process is ignored. *)
Lemma process_stopped_other p s spawn w srv :
  heap w !! s = Some srv -> srv_process srv <> Some p ->
  process_stopped p s spawn w = Some (tt, w).
Proof.
  intros Hs Hp. unfold process_stopped. rewrite (bind_deref _ _ _ _ Hs).
  by rewrite bool_decide_eq_false_2.
Qed.

Lemma started_restarts spawn srv : restarts (started spawn srv) = restarts srv + 1.
Proof. unfold started. destruct (_ >? 5); [|destruct spawn]; reflexivity. Qed.

Lemma started_filetype spawn srv : filetype (started spawn srv) = filetype srv.
Proof. unfold started. destruct (_ >? 5); [|destruct spawn]; reflexivity. Qed.

(** Every call of the start routine adds exactly 1 to the restart counter
    of the session before it decides whether to launch: the process is
    launched if and only if the counter, after the increment, is at most
    5, and the counter keeps the increment whether the launch succeeds,
    fails or is not attempted, so a failed launch counts towards the
    ceiling like any other.  The session that a failed initialize puts
    into the registry has the counter of the one it replaces plus 1.  The
    other restart path, the exit of the process, has no defined run
    ([process_stopped_reads_freed]). *)
Theorem start_counts_every_invocation :
  (forall s spawn w srv,
     heap w !! s = Some srv -> fits_gint (restarts srv + 1) ->
     exists w' srv', exec (start_lsp_server s spawn) w = Some w'
       /\ heap w' !! s = Some srv'
       /\ restarts srv' = restarts srv + 1
       /\ (restarts srv + 1 <= 5 ->
           srv_process srv' = spawn
           /\ exists rest,
                trace w' = (trace w ++ Spawn s (default "" (cmd (config srv))) :: rest)%list)
       /\ (5 < restarts srv + 1 ->
           srv_process srv' = srv_process srv
           /\ trace w' = (trace w ++ [Dialog (default "" (cmd (config srv)))])%list))
  /\ (forall s docs cur spawn w srv servers,
       heap w !! s = Some srv -> lsp_servers w = Some servers ->
       (filetype srv < length servers)%nat -> (filetype srv < filetypes_count)%nat ->
       fits_gint (restarts srv + 1) ->
       exists w' s' srv', exec (initialize_cb Failure s docs cur spawn) w = Some w'
         /\ lsp_servers w' = Some (<[filetype srv := s']> servers)
         /\ heap w' !! s' = Some srv'
         /\ filetype srv' = filetype srv
         /\ restarts srv' = restarts srv + 1).
Proof.
  split.
  - intros s spawn w srv Hs Hfit.
    destruct (start_lsp_server_spec s spawn w srv Hs Hfit) as (w' & E & Hh & Ht & _).
    exists w', (started spawn srv). split; [by apply exec_unit|].
    split; [rewrite Hh; apply lookup_insert_eq|].
    split; [apply started_restarts|].
    rewrite Ht. unfold started, start_effects. split; intros Hr.
    + assert (Eg : (restarts srv + 1 >? 5) = false)
        by (rewrite Z.gtb_ltb; apply Z.ltb_ge; lia).
      rewrite Eg. destruct spawn; (split; [reflexivity | eexists; reflexivity]).
    + assert (Eg : (restarts srv + 1 >? 5) = true)
        by (rewrite Z.gtb_ltb; apply Z.ltb_lt; lia).
      rewrite Eg. split; reflexivity.
  - intros s docs cur spawn w srv servers Hs Hl Hlen Hft Hfit.
    destruct (initialize_failure_spec s docs cur spawn w srv servers Hs Hl Hlen Hft Hfit)
      as (w' & E & Hh & _ & Hls).
    exists w', (next_addr w). eexists. split; [by apply exec_unit|].
    split; [exact Hls|]. split; [exact Hh|].
    split; [by rewrite started_filetype | by rewrite started_restarts].
Qed.

End Starting.

(** ** The crash ceiling *)

(** The registry holds, for [ft], a session whose counter reads [k]; since
    the trace read [t0] the run has launched [n] processes and raised the
    dialog [d] times. *)
Definition chain_at (ft : nat) (k : Z) (t0 : list effect) (n d : nat) (w : World) : Prop :=
  exists servers s srv t,
    lsp_servers w = Some servers /\ servers !! ft = Some s /\ heap w !! s = Some srv
    /\ filetype srv = ft /\ restarts srv = k /\ referenced srv = None
    /\ (5 < k -> srv_process srv = None)
    /\ trace w = (t0 ++ t)%list /\ count_spawns t = n /\ count_dialogs t = d.

Lemma count_spawns_app t1 t2 : count_spawns (t1 ++ t2) = (count_spawns t1 + count_spawns t2)%nat.
Proof. unfold count_spawns. by rewrite filter_app, length_app. Qed.

Lemma count_dialogs_app t1 t2 :
  count_dialogs (t1 ++ t2) = (count_dialogs t1 + count_dialogs t2)%nat.
Proof. unfold count_dialogs. by rewrite filter_app, length_app. Qed.

Lemma count_start_effects s spawn srv :
  count_spawns (start_effects s spawn srv) = (if restarts srv + 1 >? 5 then 0 else 1)%nat
  /\ count_dialogs (start_effects s spawn srv) = (if restarts srv + 1 >? 5 then 1 else 0)%nat.
Proof.
  unfold start_effects. destruct (_ >? 5); [|destruct spawn]; split; reflexivity.
Qed.

Section Ceiling.

Context `{Host}.

(** A lookup that ends at a dead session does nothing at all. *)
Lemma lookup_dead ft launch spawn w servers a srv0 srv :
  lsp_servers w = Some servers -> servers !! ft = Some a -> heap w !! a = Some srv0 ->
  heap w !! default a (referenced srv0) = Some srv ->
  is_dead srv = true -> srv_process srv = None ->
  server_get_or_start_for_ft (Some ft) launch spawn w = Some (None, w).
Proof.
  intros Hl Ha Hs0 Hs Hdead Hp. unfold server_get_or_start_for_ft.
  unfold mbind at 1, M_bind at 1, get_world. rewrite Hl.
  destruct lsp_utils_is_lsp_disabled_for_project; [reflexivity|].
  unfold pdata. rewrite Ha, bind_mret, (bind_deref _ _ _ _ Hs0), (bind_deref _ _ _ _ Hs).
  rewrite Hp, Hdead. destruct (startup_shutdown srv); [reflexivity|].
  rewrite bool_decide_eq_false_2 by (by intros [? ?]).
  by destruct (not_used srv).
Qed.

(** The first lookup for a session as [lsp_server_init_all] made it, with a
    command and without a reference language: the command is stripped and
    the start routine runs. *)
Lemma first_lookup_spec ft spawn w servers s :
  lsp_utils_is_lsp_disabled_for_project = false ->
  lsp_servers w = Some servers -> servers !! ft = Some s ->
  heap w !! s = Some (lsp_server_new ft) ->
  ref_lang (load_server_config ft) = None ->
  EMPTY (g_strstrip <$> cmd (load_server_config ft)) = false ->
  let stripped :=
    upd_config (fun c => set_cmd (g_strstrip <$> cmd c) c) (lsp_server_new ft) in
  exists w', lsp_server_get_for_ft (Some ft) spawn w = Some (None, w')
    /\ heap w' = <[s := started spawn stripped]> (heap w)
    /\ trace w' = (trace w ++ start_effects s spawn stripped)%list
    /\ lsp_servers w' = lsp_servers w.
Proof.
  intros Hen Hl Ha Hs Href Hcmd stripped.
  set (w1 := set_heap (<[s := stripped]> (heap w)) w).
  assert (Hs1 : heap w1 !! s = Some stripped) by apply lookup_insert_eq.
  destruct (start_lsp_server_spec s spawn w1 stripped Hs1) as (w' & E & Hh & Ht & Hls & _).
  { unfold fits_gint, INT_MAX. cbn. lia. }
  exists w'. split; [|split; [|split]].
  - unfold lsp_server_get_for_ft, server_get_or_start_for_ft.
    unfold mbind at 1, M_bind at 1, get_world. rewrite Hl, Hen.
    unfold pdata. rewrite Ha, bind_mret, (bind_deref _ _ _ _ Hs).
    cbn [referenced lsp_server_new default]. rewrite (bind_deref _ _ _ _ Hs).
    cbn [startup_shutdown srv_process not_used lsp_server_new is_dead restarts negb config].
    rewrite bool_decide_eq_false_2 by (by intros [? ?]).
    change (is_dead (lsp_server_new ft)) with false. cbv iota. rewrite Href.
    unfold strip_and_start. rewrite (bind_modify _ _ _ _ _ Hs). fold stripped. fold w1.
    rewrite (bind_deref _ _ _ _ Hs1).
    replace (EMPTY (cmd (config stripped))) with false by (symmetry; exact Hcmd).
    unfold mbind, M_bind. by rewrite E.
  - rewrite Hh. cbn [heap w1 set_heap]. by rewrite insert_insert_eq.
  - exact Ht.
  - exact Hls.
Qed.

(** One more failed [initialize] on the registered session. *)
Lemma failure_step ft k t0 n d w spawn :
  chain_at ft k t0 n d w -> 0 <= k <= 5 -> (ft < filetypes_count)%nat ->
  exists w', (s ← registered ft; initialize_cb Failure s [] None spawn) w = Some (tt, w')
    /\ chain_at ft (k + 1) t0
         (if k + 1 >? 5 then n else S n) (if k + 1 >? 5 then S d else d) w'.
Proof.
  intros (servers & s & srv & t & Hl & Ha & Hs & Hft & Hk & _ & _ & Ht & Hn & Hd) Hr Hcount.
  pose proof (lookup_lt_Some _ _ _ Ha) as Hlen.
  destruct (initialize_failure_spec s [] None spawn w srv servers Hs Hl) as (w' & E & Hh & Ht' & Hls);
    [by rewrite Hft | by rewrite Hft | unfold fits_gint, INT_MAX; lia |].
  rewrite Hft, Hk in *.
  set (fresh := set_restarts k (lsp_server_new ft)) in *.
  exists w'. split.
  - unfold registered, mbind at 1 2, M_bind at 1 2, get_world. rewrite Hl.
    unfold pdata. rewrite Ha. exact E.
  - exists (<[ft := next_addr w]> servers), (next_addr w), (started spawn fresh),
      (t ++ ClientCall s "shutdown" :: start_effects (next_addr w) spawn fresh)%list.
    split; [exact Hls|]. split; [by apply list_lookup_insert_eq|]. split; [exact Hh|].
    split; [by rewrite started_filetype|]. split; [by rewrite started_restarts|].
    split; [unfold started; destruct (_ >? 5); [|destruct spawn]; reflexivity|].
    split.
    { intros Hdead. unfold started. cbn [restarts fresh set_restarts].
      replace (k + 1 >? 5) with true by (symmetry; rewrite Z.gtb_ltb; apply Z.ltb_lt; lia).
      reflexivity. }
    split; [by rewrite Ht', Ht, <- app_assoc|].
    destruct (count_start_effects (next_addr w) spawn fresh) as [Cs Cd].
    cbn [restarts fresh set_restarts] in Cs, Cd.
    rewrite count_spawns_app, count_dialogs_app.
    change (ClientCall s "shutdown" :: ?l) with ([ClientCall s "shutdown"] ++ l)%list.
    assert (C0 : count_spawns [ClientCall s "shutdown"] = 0%nat
                 /\ count_dialogs [ClientCall s "shutdown"] = 0%nat) by (split; reflexivity).
    destruct C0 as [C0s C0d].
    rewrite count_spawns_app, count_dialogs_app, Cs, Cd, Hn, Hd, C0s, C0d.
    destruct (k + 1 >? 5); split; lia.
Qed.

Lemma fail_initialize_cons ft spawn rest w w1 :
  (s ← registered ft; initialize_cb Failure s [] None spawn) w = Some (tt, w1) ->
  fail_initialize ft (spawn :: rest) w = fail_initialize ft rest w1.
Proof.
  intros (s & w0 & E0 & E)%bind_Some. cbn [fail_initialize].
  unfold mbind at 1, M_bind at 1. rewrite E0.
  unfold mbind at 1, M_bind at 1. by rewrite E.
Qed.

(** The ceiling as the code has it.  A session whose restart counter
    exceeds 5 is dead: a lookup that ends at it, directly or through a
    cached alias, returns no session and leaves the state as it is, and a
    call of the start routine on it launches nothing.  A session whose
    initialize fails five times in a row has by then made 5 launch
    attempts, the first one and four respawns; the fifth failure raises the
    dialog and leaves the registered session dead with its counter at 6. *)
Theorem crash_ceiling ft :
  (forall launch spawn w servers a srv0 srv,
     lsp_servers w = Some servers -> servers !! ft = Some a -> heap w !! a = Some srv0 ->
     heap w !! default a (referenced srv0) = Some srv ->
     is_dead srv = true -> srv_process srv = None ->
     server_get_or_start_for_ft (Some ft) launch spawn w = Some (None, w))
  /\ (forall s spawn w srv,
       heap w !! s = Some srv -> is_dead srv = true -> fits_gint (restarts srv + 1) ->
       exists w', exec (start_lsp_server s spawn) w = Some w'
         /\ count_spawns (trace w') = count_spawns (trace w))
  /\ (forall p0 sp1 sp2 sp3 sp4 sp5 w servers s,
       lsp_utils_is_lsp_disabled_for_project = false ->
       (ft < filetypes_count)%nat ->
       lsp_servers w = Some servers -> servers !! ft = Some s ->
       heap w !! s = Some (lsp_server_new ft) ->
       ref_lang (load_server_config ft) = None ->
       EMPTY (g_strstrip <$> cmd (load_server_config ft)) = false ->
       exists w' servers' s' srv' t,
         exec (_ ← lsp_server_get_for_ft (Some ft) (Some p0);
               fail_initialize ft [sp1; sp2; sp3; sp4; sp5]) w = Some w'
         /\ lsp_servers w' = Some servers' /\ servers' !! ft = Some s'
         /\ heap w' !! s' = Some srv'
         /\ restarts srv' = 6 /\ is_dead srv' = true
         /\ trace w' = (trace w ++ t)%list
         /\ count_spawns t = 5%nat /\ count_dialogs t = 1%nat
         /\ forall launch spawn,
              server_get_or_start_for_ft (Some ft) launch spawn w' = Some (None, w')).
Proof.
  split; [|split].
  - intros launch spawn w servers a srv0 srv. apply lookup_dead.
  - intros s spawn w srv Hs Hdead Hfit.
    destruct (start_lsp_server_spec s spawn w srv Hs Hfit) as (w' & E & _ & Ht & _).
    exists w'. split; [by apply exec_unit|].
    rewrite Ht, count_spawns_app.
    destruct (count_start_effects s spawn srv) as [-> _].
    unfold is_dead in Hdead.
    replace (restarts srv + 1 >? 5) with true
      by (symmetry; rewrite Z.gtb_ltb in *; apply Z.ltb_lt; apply Z.ltb_lt in Hdead; lia).
    lia.
  - intros p0 sp1 sp2 sp3 sp4 sp5 w servers s Hen Hcount Hl Ha Hs Href Hcmd.
    destruct (first_lookup_spec ft (Some p0) w servers s Hen Hl Ha Hs Href Hcmd)
      as (w0 & E0 & Hh0 & Ht0 & Hl0).
    set (stripped := upd_config (fun c => set_cmd (g_strstrip <$> cmd c) c)
                       (lsp_server_new ft)) in *.
    assert (C1 : chain_at ft 1 (trace w) 1 0 w0).
    { exists servers, s, (started (Some p0) stripped), (start_effects s (Some p0) stripped).
      split; [by rewrite Hl0|]. split; [exact Ha|].
      split; [rewrite Hh0; apply lookup_insert_eq|].
      repeat split; try reflexivity; [lia | exact Ht0]. }
    destruct (failure_step ft 1 _ _ _ w0 sp1 C1) as (w1 & E1 & C2); [lia | exact Hcount |].
    destruct (failure_step ft 2 _ _ _ w1 sp2 C2) as (w2 & E2 & C3); [lia | exact Hcount |].
    destruct (failure_step ft 3 _ _ _ w2 sp3 C3) as (w3 & E3 & C4); [lia | exact Hcount |].
    destruct (failure_step ft 4 _ _ _ w3 sp4 C4) as (w4 & E4 & C5); [lia | exact Hcount |].
    destruct (failure_step ft 5 _ _ _ w4 sp5 C5) as (w5 & E5 & C6); [lia | exact Hcount |].
    cbn in C6.
    destruct C6 as (servers' & s' & srv' & t & Hl' & Ha' & Hs' & _ & Hk' & Href' & Hp' & Ht' & Hn' & Hd').
    exists w5, servers', s', srv', t.
    split.
    { apply exec_unit. unfold mbind at 1, M_bind at 1. rewrite E0.
      rewrite (fail_initialize_cons _ _ _ _ _ E1), (fail_initialize_cons _ _ _ _ _ E2),
        (fail_initialize_cons _ _ _ _ _ E3), (fail_initialize_cons _ _ _ _ _ E4),
        (fail_initialize_cons _ _ _ _ _ E5).
      reflexivity. }
    assert (Hdead : is_dead srv' = true) by (unfold is_dead; by rewrite Hk').
    repeat (split; [done|]).
    intros launch spawn. eapply lookup_dead; eauto.
    + rewrite Href'. exact Hs'.
    + apply Hp'. lia.
Qed.

End Ceiling.

(** ** Reference languages *)



Section Aliases.

Context `{Host}.









End Aliases.

(** ** The properties at work in the concrete editor *)

Lemma two_phase_stop_witness :
  (exists w1, exec (stop_process 0%nat) Scenario.c_ready = Some w1
     /\ trace w1 = (trace Scenario.c_ready ++ [ClientCall 0%nat "shutdown"])%list
     /\ awaiting_stop 0%nat 100%nat w1)
  /\ (exists w2, exec (shutdown_cb true 0%nat) Scenario.c_stopping = Some w2
       /\ trace w2 = (trace Scenario.c_stopping ++ [SendSigterm 100%nat; ForceExit 100%nat])%list
       /\ 0%nat ∉ servers_in_shutdown w2)
  /\ (exists w3, exec (exit_cb false 0%nat) Scenario.c_stopping = Some w3
       /\ trace w3 = trace Scenario.c_stopping
       /\ 0%nat ∉ servers_in_shutdown w3).
Proof.
  destruct (two_phase_stop 0%nat 100%nat) as [Hstop Hcallbacks].
  assert (Hsis : servers_in_shutdown Scenario.c_ready = []) by (vm_compute; reflexivity).
  destruct (Hstop Scenario.c_ready Scenario.clangd_session) as (w1 & E1 & Ht1 & Hw1).
  - vm_compute. reflexivity.
  - vm_compute. reflexivity.
  - rewrite Hsis. apply not_elem_of_nil.
  - rewrite Hsis. apply NoDup_nil_2.
  - assert (Ew1 : w1 = Scenario.c_stopping)
      by (unfold Scenario.c_stopping, Scenario.after; by rewrite E1).
    split; [exists w1; split; [exact E1|]; split; [exact Ht1 | exact Hw1] |].
    rewrite Ew1 in Hw1. destruct (Hcallbacks Scenario.c_stopping Hw1) as (_ & Hforced & Hexit & _).
    split; [exact Hforced | exact Hexit].
Defined.

Lemma start_counts_every_invocation_witness :
  (exists w' srv', exec (start_lsp_server 0%nat (Some 100%nat)) Scenario.loaded = Some w'
     /\ heap w' !! 0%nat = Some srv'
     /\ restarts srv' = 1)
  /\ (exists w' s' srv',
       exec (initialize_cb (H := Scenario.host) Failure 0%nat [] None (Some 101%nat))
         Scenario.c_starting = Some w'
       /\ heap w' !! s' = Some srv' /\ restarts srv' = 2).
Proof.
  destruct (start_counts_every_invocation (H := Scenario.host)) as (Hstart & Hfailed).
  split.
  - destruct (Hstart 0%nat (Some 100%nat) Scenario.loaded
                (lsp_server_new (H := Scenario.host) Scenario.ft_C))
      as (w' & srv' & E & Hs & Hr & _).
    + vm_compute. reflexivity.
    + unfold fits_gint, INT_MAX. simpl. lia.
    + exists w', srv'. split; [exact E|]. split; [exact Hs|]. rewrite Hr. reflexivity.
  - destruct (Hfailed 0%nat [] None (Some 101%nat) Scenario.c_starting
                Scenario.clangd_starting [0; 1; 2; 3; 4]%nat)
      as (w' & s' & srv' & E & _ & Hs & _ & Hr).
    + vm_compute. reflexivity.
    + vm_compute. reflexivity.
    + vm_compute. lia.
    + vm_compute. lia.
    + vm_compute. split; discriminate.
    + exists w', s', srv'. split; [exact E|]. split; [exact Hs|]. rewrite Hr.
      vm_compute. reflexivity.
Defined.

(** C10 on the code: the exit of a process.  clangd is READY as the
    registered session of C, struct 0 with process 100 and its counter at
    1, and the process exits.  The handler finds its process, frees the
    struct and reads the file type out of it: the run is undefined, and no
    replacement with a counter comes out of it.  The failed initialize of
    the same session, which sets the struct aside without freeing it,
    does hand the counter on: the replacement reads 2. *)
Lemma process_exit_reads_the_freed_session :
  eval (registered Scenario.ft_C) Scenario.c_ready = Some 0%nat
  /\ srv_process <$> heap Scenario.c_ready !! 0%nat = Some (Some 100%nat)
  /\ restarts <$> heap Scenario.c_ready !! 0%nat = Some 1
  /\ process_stopped (H := Scenario.host) 100%nat 0%nat (Some 101%nat) Scenario.c_ready = None
  /\ restarts <$>
       heap (Scenario.after
               (initialize_cb (H := Scenario.host) Failure 0%nat [] None (Some 101%nat))
               Scenario.c_starting) !! 5%nat = Some 2.
Proof.
  split; [|split; [|split; [|split]]]; vm_compute; reflexivity.
Qed.

(** C1 on the code: five failed initializes.  clangd is started and its
    initialize fails five times in a row.  The registered session is then
    dead, its counter at 6, and the dialog, which says that the server
    terminated more than 5 times, has been raised once; but 5 processes
    have been launched in all, the first one and four respawns, not 6: the
    counter counts the first start too.  When a C++ document is shown
    next, C++ naming C as its reference language, the lookup calls the
    start routine on the dead session: nothing is launched, but the
    counter goes to 7 and the dialog is raised a second time. *)
Lemma five_failures_make_five_launches :
  exec (_ ← lsp_server_get_for_ft (H := Scenario.host) (Some Scenario.ft_C) (Some 100%nat);
        fail_initialize (H := Scenario.host) Scenario.ft_C
          [Some 101%nat; Some 102%nat; Some 103%nat; Some 104%nat; Some 105%nat])
    Scenario.loaded = Some Scenario.c_failed_5
  /\ eval (registered Scenario.ft_C) Scenario.c_failed_5 = Some 9%nat
  /\ restarts <$> heap Scenario.c_failed_5 !! 9%nat = Some 6
  /\ is_dead <$> heap Scenario.c_failed_5 !! 9%nat = Some true
  /\ count_spawns (trace Scenario.c_failed_5) = 5%nat
  /\ count_spawns (trace Scenario.c_failed_5) <> 6%nat
  /\ count_dialogs (trace Scenario.c_failed_5) = 1%nat
  /\ eval (lsp_server_get_for_ft (H := Scenario.host) (Some Scenario.ft_Cpp) (Some 106%nat))
       Scenario.c_failed_5 = Some None
  /\ count_spawns (trace Scenario.cpp_after_ceiling) = 5%nat
  /\ count_dialogs (trace Scenario.cpp_after_ceiling) = 2%nat
  /\ restarts <$> heap Scenario.cpp_after_ceiling !! 9%nat = Some 7.
Proof.
  split; [vm_compute; reflexivity|]. split; [vm_compute; reflexivity|].
  split; [vm_compute; reflexivity|]. split; [vm_compute; reflexivity|].
  split; [vm_compute; reflexivity|]. split; [vm_compute; discriminate|].
  split; [vm_compute; reflexivity|]. split; [vm_compute; reflexivity|].
  split; [vm_compute; reflexivity|]. split; vm_compute; reflexivity.
Qed.

Lemma crash_ceiling_witness :
  (exists w' t,
     exec (_ ← lsp_server_get_for_ft (H := Scenario.host) (Some Scenario.ft_C) (Some 100%nat);
           fail_initialize (H := Scenario.host) Scenario.ft_C
             [Some 101%nat; Some 102%nat; Some 103%nat; Some 104%nat; Some 105%nat])
       Scenario.loaded = Some w'
     /\ trace w' = (trace Scenario.loaded ++ t)%list
     /\ count_spawns t = 5%nat /\ count_dialogs t = 1%nat)
  /\ server_get_or_start_for_ft (H := Scenario.host) (Some Scenario.ft_C) true (Some 106%nat)
       Scenario.c_failed_5 = Some (None, Scenario.c_failed_5)
  /\ (exists w', exec (start_lsp_server 9%nat (Some 106%nat)) Scenario.c_failed_5 = Some w'
       /\ count_spawns (trace w') = count_spawns (trace Scenario.c_failed_5)).
Proof.
  destruct (crash_ceiling (H := Scenario.host) Scenario.ft_C) as (Hlookup & Hstart & Hchain).
  split; [|split].
  - destruct (Hchain 100%nat (Some 101%nat) (Some 102%nat) (Some 103%nat) (Some 104%nat)
                (Some 105%nat) Scenario.loaded [0; 1; 2; 3; 4]%nat 0%nat)
      as (w' & servers' & s' & srv' & t & E & _ & _ & _ & _ & _ & Ht & Hn & Hd & _).
    + reflexivity.
    + vm_compute. lia.
    + vm_compute. reflexivity.
    + reflexivity.
    + vm_compute. reflexivity.
    + reflexivity.
    + vm_compute. reflexivity.
    + exists w', t. split; [exact E|]. split; [exact Ht|]. split; [exact Hn | exact Hd].
  - apply (Hlookup true (Some 106%nat) Scenario.c_failed_5 [9; 1; 2; 3; 4]%nat 9%nat
             Scenario.dead_session Scenario.dead_session).
    + vm_compute. reflexivity.
    + reflexivity.
    + vm_compute. reflexivity.
    + vm_compute. reflexivity.
    + vm_compute. reflexivity.
    + vm_compute. reflexivity.
  - apply (Hstart 9%nat (Some 106%nat) Scenario.c_failed_5 Scenario.dead_session).
    + vm_compute. reflexivity.
    + vm_compute. reflexivity.
    + vm_compute. split; discriminate.
Defined.



(** * Further properties *)

(** ** Document synchronisation: closing, saving, unnamed documents *)

Lemma add_then_remove (x : nat) (X : gset nat) : x ∉ X -> ({[x]} ∪ X) ∖ {[x]} = X.
Proof. set_solver. Qed.

Lemma add_to_empty (x : nat) : ({[x]} ∪ ∅ : gset nat) = {[x]}.
Proof. set_solver. Qed.

Lemma in_added (x : nat) (X : gset nat) : x ∈ {[x]} ∪ X.
Proof. set_solver. Qed.

Section CloseAndSave.

Context `{Host}.

Lemma did_close_when_open server doc w table :
  open_docs w = Some table -> doc_id doc ∈ table ->
  lsp_sync_text_document_did_close server doc w =
    Some (tt, set_trace (trace w ++ [RpcNotify server "textDocument/didClose"
                           (JObject [("textDocument",
                              JObject [("uri", JString (lsp_utils_get_doc_uri doc))])])])
                (set_open_docs (Some (table ∖ {[doc_id doc]})) w)).
Proof.
  intros Ho Hin. unfold lsp_sync_text_document_did_close, mbind at 1, M_bind at 1.
  rewrite (is_document_open_spec _ _ _ Ho), bool_decide_eq_true_2 by exact Hin.
  cbn [negb]. unfold open_docs_remove, lsp_rpc_notify, emit, mbind, M_bind, modify_world.
  rewrite Ho. reflexivity.
Qed.

Lemma did_close_when_closed server doc w table :
  open_docs w = Some table -> doc_id doc ∉ table ->
  lsp_sync_text_document_did_close server doc w = Some (tt, w).
Proof.
  intros Ho Hout. unfold lsp_sync_text_document_did_close, mbind at 1, M_bind at 1.
  by rewrite (is_document_open_spec _ _ _ Ho), bool_decide_eq_false_2.
Qed.

(** X1: did_close undoes did_open on the table of open documents and on
    nothing else.  For a document that is not open, a did_open followed by
    a did_close, to the same or to another session, leaves the table as it
    was and emits the didOpen and then one didClose that carries the URI
    alone; the version counter of the path keeps the step the didOpen
    made.  A did_close for a document that is not in the table does
    nothing. *)
Theorem did_close_undoes_did_open server server2 doc w table :
  open_docs w = Some table -> doc_id doc ∉ table -> version_in_range w doc ->
  (exists w',
     exec (_ ← lsp_sync_text_document_did_open server doc;
           lsp_sync_text_document_did_close server2 doc) w = Some w'
     /\ open_docs w' = Some table
     /\ heap w' = heap w
     /\ trace w' = (trace w ++
          [RpcNotify server "textDocument/didOpen"
             (JObject [("textDocument", JObject [
                ("uri", JString (lsp_utils_get_doc_uri doc));
                ("languageId", JString (lsp_utils_get_lsp_lang_name doc));
                ("version", JInt (next_version w doc));
                ("text", JString (sci_contents doc))])]);
           RpcNotify server2 "textDocument/didClose"
             (JObject [("textDocument", JObject [
                ("uri", JString (lsp_utils_get_doc_uri doc))])])])%list
     /\ forall path, real_path doc = Some path ->
          doc_version w' path = doc_version w path + 1)
  /\ lsp_sync_text_document_did_close server2 doc w = Some (tt, w).
Proof.
  intros Ho Hout Hr. split; [|by eapply did_close_when_closed].
  destruct (did_open_when_closed server doc w table Ho Hout Hr)
    as (w1 & E1 & Ho1 & Hh1 & Hv1 & Ht1).
  eexists. split.
  { apply exec_unit. unfold mbind, M_bind. rewrite E1.
    apply (did_close_when_open server2 doc w1 _ Ho1), in_added. }
  cbn [open_docs heap trace set_trace set_open_docs].
  split; [by rewrite add_then_remove|]. split; [exact Hh1|].
  split; [by rewrite Ht1, <- app_assoc|]. exact Hv1.
Qed.


(** X2: a did_open, a did_close and a second did_open of the same document
    send two didOpen notifications with consecutive versions: closing a
    document does not reset the counter of its path. *)
Theorem reopen_carries_next_version server doc w table path :
  open_docs w = Some table -> doc_id doc ∉ table -> real_path doc = Some path ->
  0 <= doc_version w path < INT_MAX - 1 ->
  exists w',
    exec (_ ← lsp_sync_text_document_did_open server doc;
          _ ← lsp_sync_text_document_did_close server doc;
          lsp_sync_text_document_did_open server doc) w = Some w'
    /\ did_open_versions (trace w') =
         (did_open_versions (trace w)
            ++ [Some (doc_version w path + 1); Some (doc_version w path + 2)])%list
    /\ open_docs w' = Some ({[doc_id doc]} ∪ table)
    /\ doc_version w' path = doc_version w path + 2.
Proof.
  intros Ho Hout Ep Hr.
  assert (Hr0 : version_in_range w doc) by (unfold version_in_range; rewrite Ep; lia).
  destruct (did_open_when_closed server doc w table Ho Hout Hr0)
    as (w1 & E1 & Ho1 & Hh1 & Hv1 & Ht1).
  specialize (Hv1 path Ep).
  pose proof (in_added (doc_id doc) table) as Hin1.
  pose proof (did_close_when_open server doc w1 _ Ho1 Hin1) as E2.
  set (w2 := set_trace _ _) in E2.
  assert (Ho2 : open_docs w2 = Some table).
  { subst w2. cbn [open_docs set_trace set_open_docs]. by rewrite add_then_remove. }
  assert (Hv2 : doc_version w2 path = doc_version w path + 1) by exact Hv1.
  assert (Hr2 : version_in_range w2 doc) by (unfold version_in_range; rewrite Ep, Hv2; lia).
  destruct (did_open_when_closed server doc w2 table Ho2 Hout Hr2)
    as (w3 & E3 & Ho3 & _ & Hv3 & Ht3).
  exists w3. split.
  { apply exec_unit. unfold mbind, M_bind. by rewrite E1, E2. }
  split; [|split; [exact Ho3 | rewrite (Hv3 path Ep), Hv2; lia]].
  assert (Ht2 : trace w2 = (trace w1 ++ [RpcNotify server "textDocument/didClose"
                 (JObject [("textDocument",
                    JObject [("uri", JString (lsp_utils_get_doc_uri doc))])])])%list)
    by reflexivity.
  rewrite Ht3, Ht2, Ht1. unfold did_open_versions, next_version. rewrite Ep, Hv2.
  rewrite !omap_app. cbn. rewrite <- !app_assoc. cbn.
  do 4 f_equal. lia.
Qed.

(** What a save or a change does to the state: the counter apart, only the
    trace grows, by the one notification. *)
Lemma save_or_change_step op w :
  save_or_change w op ->
  exists w' e, run_sync_op op w = Some (tt, w')
    /\ trace w' = (trace w ++ [e])%list /\ notifies op e
    /\ open_docs w' = open_docs w /\ heap w' = heap w.
Proof.
  destruct op as [|server doc|server doc|server doc|server doc ps pe text]; try done.
  - intros _. cbn [run_sync_op]. unfold lsp_sync_text_document_did_save, lsp_rpc_notify, emit,
      modify_world. eexists _, _. split; [reflexivity|]. by repeat split.
  - intros [srv Hs]. cbn [run_sync_op]. unfold lsp_sync_text_document_did_change.
    unfold mbind at 1, M_bind at 1. destruct (real_path doc) as [path|] eqn:Ep.
    + rewrite (get_next_doc_version_num_path _ _ _ Ep).
      rewrite (bind_deref _ _ _ srv) by exact Hs.
      unfold lsp_rpc_notify, emit, modify_world. eexists _, _. split; [reflexivity|].
      by repeat split.
    + rewrite (get_next_doc_version_num_unnamed _ _ Ep).
      rewrite (bind_deref _ _ _ srv) by exact Hs.
      unfold lsp_rpc_notify, emit, modify_world. eexists _, _. split; [reflexivity|].
      by repeat split.
Qed.

(** X3: did_save and did_change never look at the table of open documents.
    Whatever the table holds, and whether or not it exists, every one of a
    run of saves and changes sends its notification, one each and in
    order, and the table and the sessions are left as they were. *)
Theorem saves_and_changes_ignore_open_table ops w :
  Forall (save_or_change w) ops ->
  exists w' t,
    exec (run_sync_ops ops) w = Some w'
    /\ trace w' = (trace w ++ t)%list
    /\ Forall2 notifies ops t
    /\ open_docs w' = open_docs w
    /\ heap w' = heap w.
Proof.
  revert w. induction ops as [|op rest IH]; intros w Hall.
  - exists w, []. split; [reflexivity|]. rewrite app_nil_r. by repeat split.
  - apply Forall_cons in Hall as [Hop Hrest].
    destruct (save_or_change_step op w Hop) as (w1 & e & E1 & Ht1 & Hn & Ho1 & Hh1).
    destruct (IH w1) as (w' & t & E & Ht & Hns & Ho & Hh).
    { eapply Forall_impl; [exact Hrest|]. intros op'. unfold save_or_change.
      by rewrite Hh1. }
    exists w', (e :: t). split.
    { apply exec_unit. apply exec_unit in E. cbn [run_sync_ops].
      unfold mbind, M_bind. by rewrite E1. }
    split; [by rewrite Ht, Ht1, <- app_assoc|].
    split; [by constructor|]. split; congruence.
Qed.

(** X4: a document without a real path has no version counter.  Every
    didChange for such a document carries version 0, however many were
    sent before, and the table of counters is left as it was. *)
Theorem unnamed_document_changes_carry_version_0 ops w :
  Forall (unnamed_change w) ops ->
  exists w' t,
    exec (run_sync_ops ops) w = Some w'
    /\ trace w' = (trace w ++ t)%list
    /\ length t = length ops
    /\ Forall (carries_version 0) t
    /\ doc_version_nums w' = doc_version_nums w.
Proof.
  revert w. induction ops as [|op rest IH]; intros w Hall.
  - exists w, []. split; [reflexivity|]. rewrite app_nil_r. by repeat split.
  - apply Forall_cons in Hall as [Hop Hrest].
    destruct op as [|?|?|?|server doc ps pe text]; try done.
    destruct Hop as [Ep [srv Hs]].
    set (e := RpcNotify server "textDocument/didChange"
                (if srv_use_incremental_sync srv
                 then did_change_incremental_params (lsp_utils_get_doc_uri doc) 0 ps pe text
                 else did_change_full_params (lsp_utils_get_doc_uri doc) 0 (sci_contents doc))).
    set (w1 := set_trace (trace w ++ [e]) w).
    destruct (IH w1) as (w' & t & E & Ht & Hlen & Hcarry & Hv).
    { eapply Forall_impl; [exact Hrest|]. by intros op'. }
    exists w', (e :: t). split.
    { apply exec_unit. apply exec_unit in E. cbn [run_sync_ops run_sync_op].
      unfold lsp_sync_text_document_did_change at 1.
      unfold mbind at 1, M_bind at 1, mbind at 1, M_bind at 1.
      rewrite (get_next_doc_version_num_unnamed _ _ Ep).
      rewrite (bind_deref _ _ _ srv) by exact Hs.
      unfold lsp_rpc_notify, emit, modify_world. fold e. fold w1. exact E. }
    split; [rewrite Ht; subst w1; cbn [trace set_trace]; by rewrite <- app_assoc|].
    split; [cbn [length]; by rewrite Hlen|].
    split; [|exact Hv].
    constructor; [|exact Hcarry].
    subst e. unfold carries_version. by destruct (srv_use_incremental_sync srv).
Qed.

Lemma get_next_doc_version_num_other doc q w v w' :
  real_path doc <> Some q -> get_next_doc_version_num doc w = Some (v, w') ->
  doc_version_nums w' !! q = doc_version_nums w !! q.
Proof.
  intros Hne E. destruct (real_path doc) as [p|] eqn:Ep.
  - rewrite (get_next_doc_version_num_path _ _ _ Ep) in E. simplify_eq.
    cbn [doc_version_nums set_doc_version_nums]. apply lookup_insert_ne. congruence.
  - rewrite (get_next_doc_version_num_unnamed _ _ Ep) in E. by simplify_eq.
Qed.

(** X5: the version counters are independent of each other.  A run of sync
    operations none of which is about a document with the path [q] leaves
    the counter of [q] as it was. *)
Theorem other_paths_keep_their_version q ops w w' :
  Forall (off_path q) ops ->
  exec (run_sync_ops ops) w = Some w' ->
  doc_version_nums w' !! q = doc_version_nums w !! q.
Proof.
  intros Hall E%exec_unit. revert w E. induction Hall as [|op rest Hop _ IH]; intros w E.
  - unfold run_sync_ops, mret, M_ret in E. by simplify_eq.
  - cbn [run_sync_ops] in E. apply bind_Some in E as ([] & w1 & E1 & E).
    rewrite (IH _ E). clear IH E.
    destruct op as [|server doc|server doc|server doc|server doc ps pe text];
      cbn [run_sync_op] in E1; unfold off_path in Hop; cbn [sync_op_doc] in Hop.
    + by rewrite (lsp_sync_init_versions _ _ _ E1).
    + unfold lsp_sync_text_document_did_open in E1.
      apply bind_Some in E1 as (b & w2 & E2 & E1).
      rewrite <- (is_document_open_versions doc _ _ _ E2).
      destruct b; [unfold mret, M_ret in E1; by simplify_eq|].
      apply bind_Some in E1 as ([] & w3 & E3 & E1).
      apply bind_Some in E1 as (v & w4 & E4 & E1).
      assert (Hw3 : doc_version_nums w3 = doc_version_nums w2).
      { assert (Hp : preserves doc_version_nums (open_docs_add doc))
          by (unfold open_docs_add; preserves_walk).
        eapply Hp, E3. }
      assert (Hw4 : doc_version_nums w1 = doc_version_nums w4).
      { assert (Hp : forall node,
                  preserves doc_version_nums (lsp_rpc_notify server "textDocument/didOpen" node))
          by (intros node; unfold lsp_rpc_notify; preserves_walk).
        eapply Hp, E1. }
      rewrite Hw4, <- Hw3. by eapply get_next_doc_version_num_other.
    + by rewrite (did_close_versions _ _ _ _ _ E1).
    + by rewrite (did_save_versions _ _ _ _ _ E1).
    + unfold lsp_sync_text_document_did_change in E1.
      apply bind_Some in E1 as (v & w2 & E2 & E1).
      assert (Hw2 : doc_version_nums w1 = doc_version_nums w2).
      { assert (Hp : preserves doc_version_nums
                       (s ← deref server;
                        lsp_rpc_notify server "textDocument/didChange"
                          (if srv_use_incremental_sync s
                           then did_change_incremental_params (lsp_utils_get_doc_uri doc) v ps pe text
                           else did_change_full_params (lsp_utils_get_doc_uri doc) v
                                  (sci_contents doc))))
          by (unfold lsp_rpc_notify; preserves_walk).
        eapply Hp, E1. }
      rewrite Hw2. by eapply get_next_doc_version_num_other.
Qed.

(** X6: lsp_sync_init forgets every open document without telling any
    server.  It sends nothing, and after it a did_open of any document,
    open before or not, sends a didOpen again, with the next version of
    the path. *)
Theorem sync_init_forgets_open_documents server doc w :
  version_in_range w doc ->
  exists w',
    exec (_ ← lsp_sync_init; lsp_sync_text_document_did_open server doc) w = Some w'
    /\ open_docs w' = Some {[doc_id doc]}
    /\ trace w' = (trace w ++
         [RpcNotify server "textDocument/didOpen"
            (JObject [("textDocument", JObject [
               ("uri", JString (lsp_utils_get_doc_uri doc));
               ("languageId", JString (lsp_utils_get_lsp_lang_name doc));
               ("version", JInt (next_version w doc));
               ("text", JString (sci_contents doc))])])])%list.
Proof.
  intros Hr.
  destruct (did_open_when_closed server doc (set_open_docs (Some ∅) w) ∅)
    as (w' & E & Ho & _ & _ & Ht); [reflexivity | apply not_elem_of_empty | exact Hr |].
  exists w'. split; [by apply exec_unit|]. split; [|exact Ht].
  by rewrite Ho, add_to_empty.
Qed.

End CloseAndSave.

Lemma did_close_undoes_did_open_witness :
  (exists w',
     exec (_ ← lsp_sync_text_document_did_open (H := Scenario.host) 0%nat Scenario.main_c;
           lsp_sync_text_document_did_close (H := Scenario.host) 0%nat Scenario.main_c)
       Scenario.loaded = Some w'
     /\ open_docs w' = Some ∅
     /\ heap w' = heap Scenario.loaded
     /\ doc_version w' "/src/main.c" = 1)
  /\ lsp_sync_text_document_did_close (H := Scenario.host) 0%nat Scenario.main_c Scenario.loaded
     = Some (tt, Scenario.loaded).
Proof.
  destruct (did_close_undoes_did_open (H := Scenario.host) 0%nat 0%nat Scenario.main_c
              Scenario.loaded ∅) as ((w' & E & Ho & Hh & _ & Hv) & Hnoop).
  - vm_compute. reflexivity.
  - set_solver.
  - vm_compute. split; [discriminate | reflexivity].
  - split; [|exact Hnoop]. exists w'. split; [exact E|]. split; [exact Ho|].
    split; [exact Hh|]. rewrite (Hv "/src/main.c" eq_refl). vm_compute. reflexivity.
Defined.

Lemma reopen_carries_next_version_witness :
  exists w',
    exec (_ ← lsp_sync_text_document_did_open (H := Scenario.host) 0%nat Scenario.main_c;
          _ ← lsp_sync_text_document_did_close (H := Scenario.host) 0%nat Scenario.main_c;
          lsp_sync_text_document_did_open (H := Scenario.host) 0%nat Scenario.main_c)
      Scenario.loaded = Some w'
    /\ did_open_versions (trace w') = [Some 1; Some 2]
    /\ doc_version w' "/src/main.c" = 2.
Proof.
  assert (Ev : doc_version Scenario.loaded "/src/main.c" = 0) by (vm_compute; reflexivity).
  destruct (reopen_carries_next_version (H := Scenario.host) 0%nat Scenario.main_c
              Scenario.loaded ∅ "/src/main.c") as (w' & E & Ht & _ & Hv).
  - vm_compute. reflexivity.
  - set_solver.
  - reflexivity.
  - rewrite Ev. unfold INT_MAX. lia.
  - exists w'. split; [exact E|]. rewrite Ev in Ht, Hv. split; [exact Ht | exact Hv].
Defined.

Lemma saves_and_changes_ignore_open_table_witness :
  exists w' t,
    exec (run_sync_ops (H := Scenario.host)
            [DidSave 0%nat Scenario.widget_vala;
             DidChange 0%nat Scenario.widget_vala {| line := 0; character := 0 |}
               {| line := 0; character := 5 |} "using"]) Scenario.c_ready = Some w'
    /\ trace w' = (trace Scenario.c_ready ++ t)%list
    /\ length t = 2%nat
    /\ open_docs w' = Some {[1%nat]}.
Proof.
  destruct (saves_and_changes_ignore_open_table (H := Scenario.host)
              [DidSave 0%nat Scenario.widget_vala;
               DidChange 0%nat Scenario.widget_vala {| line := 0; character := 0 |}
                 {| line := 0; character := 5 |} "using"] Scenario.c_ready)
    as (w' & t & E & Ht & Hn & Ho & _).
  - constructor; [exact I|]. constructor; [|constructor].
    exists Scenario.clangd_session. vm_compute. reflexivity.
  - exists w', t. split; [exact E|]. split; [exact Ht|].
    split; [symmetry; exact (Forall2_length _ _ _ Hn)|].
    rewrite Ho. vm_compute. reflexivity.
Defined.

Lemma unnamed_document_changes_carry_version_0_witness :
  exists w' t,
    exec (run_sync_ops (H := Scenario.host)
            [DidChange 0%nat Scenario.untitled {| line := 0; character := 0 |}
               {| line := 0; character := 0 |} "a";
             DidChange 0%nat Scenario.untitled {| line := 0; character := 1 |}
               {| line := 0; character := 1 |} "b"]) Scenario.c_ready = Some w'
    /\ trace w' = (trace Scenario.c_ready ++ t)%list
    /\ length t = 2%nat
    /\ Forall (carries_version 0) t.
Proof.
  destruct (unnamed_document_changes_carry_version_0 (H := Scenario.host)
              [DidChange 0%nat Scenario.untitled {| line := 0; character := 0 |}
                 {| line := 0; character := 0 |} "a";
               DidChange 0%nat Scenario.untitled {| line := 0; character := 1 |}
                 {| line := 0; character := 1 |} "b"] Scenario.c_ready)
    as (w' & t & E & Ht & Hn & Hv & _).
  - assert (Hs : is_Some (heap Scenario.c_ready !! 0%nat))
      by (exists Scenario.clangd_session; vm_compute; reflexivity).
    constructor; [split; [reflexivity | exact Hs]|].
    constructor; [split; [reflexivity | exact Hs]|]. constructor.
  - exists w', t. split; [exact E|]. split; [exact Ht|]. split; [exact Hn | exact Hv].
Defined.

Lemma other_paths_keep_their_version_witness :
  doc_version_nums
    (Scenario.after
       (run_sync_ops (H := Scenario.host)
          [DidOpen 0%nat Scenario.widget_vala;
           DidChange 0%nat Scenario.widget_vala {| line := 0; character := 0 |}
             {| line := 0; character := 5 |} "using";
           DidSave 0%nat Scenario.untitled]) Scenario.c_ready) !! "/src/main.c"
  = doc_version_nums Scenario.c_ready !! "/src/main.c".
Proof.
  apply (other_paths_keep_their_version (H := Scenario.host) "/src/main.c"
           [DidOpen 0%nat Scenario.widget_vala;
            DidChange 0%nat Scenario.widget_vala {| line := 0; character := 0 |}
              {| line := 0; character := 5 |} "using";
            DidSave 0%nat Scenario.untitled] Scenario.c_ready).
  - constructor; [discriminate|]. constructor; [discriminate|].
    constructor; [discriminate|]. constructor.
  - vm_compute. reflexivity.
Defined.

Lemma sync_init_forgets_open_documents_witness :
  exists w',
    exec (_ ← lsp_sync_init;
          lsp_sync_text_document_did_open (H := Scenario.host) 0%nat Scenario.main_c)
      Scenario.c_ready = Some w'
    /\ open_docs w' = Some {[1%nat]}
    /\ did_open_versions (trace w') = [Some 1; Some 2].
Proof.
  destruct (sync_init_forgets_open_documents (H := Scenario.host) 0%nat Scenario.main_c
              Scenario.c_ready) as (w' & E & Ho & Ht).
  - vm_compute. split; [discriminate | reflexivity].
  - exists w'. split; [exact E|]. split; [exact Ho|]. rewrite Ht. vm_compute. reflexivity.
Defined.

(** ** Capability negotiation: the token mask and the feature switches *)

Lemma token_index_next k : to_guint64 (Z.shiftl (token_index k) 1) = token_index (S k).
Proof.
  unfold token_index, to_guint64, UINT64_MODULUS.
  destruct (k <? 64)%nat eqn:Ek.
  - apply Nat.ltb_lt in Ek. rewrite Z.shiftl_mul_pow2 by lia.
    replace (2 ^ Z.of_nat k * 2 ^ 1) with (2 ^ Z.of_nat (S k))
      by (rewrite Nat2Z.inj_succ, Z.pow_succ_r by lia; lia).
    destruct (S k <? 64)%nat eqn:Ek'.
    + apply Nat.ltb_lt in Ek'. apply Z.mod_small. split; [lia|].
      change 18446744073709551616 with (2 ^ 64). apply Z.pow_lt_mono_r; lia.
    + apply Nat.ltb_ge in Ek'. assert (k = 63%nat) as -> by lia. reflexivity.
  - apply Nat.ltb_ge in Ek.
    destruct (S k <? 64)%nat eqn:Ek'; [apply Nat.ltb_lt in Ek'; lia|]. reflexivity.
Qed.

Lemma token_index_testbit k i :
  Z.testbit (token_index k) (Z.of_nat i) = (k <? 64)%nat && Nat.eqb i k.
Proof.
  unfold token_index. destruct (k <? 64)%nat; cbn [andb]; [|apply Z.bits_0].
  rewrite Z.pow2_bits_eqb by lia.
  destruct (Nat.eqb i k) eqn:E.
  - apply Nat.eqb_eq in E as ->. apply Z.eqb_refl.
  - apply Nat.eqb_neq in E. apply Z.eqb_neq. lia.
Qed.

(** The loop, bit by bit: entry [j] of the rest of the legend decides bit
    [k + j], as long as that bit exists. *)
Lemma token_mask_loop_testbit items mask k i :
  Z.testbit (token_mask_loop items mask (token_index k)) (Z.of_nat i) =
    Z.testbit mask (Z.of_nat i)
    || (k <=? i)%nat && (i <? 64)%nat && type_like_at items (i - k).
Proof.
  revert mask k. induction items as [|val rest IH]; intros mask k.
  - cbn [token_mask_loop]. unfold type_like_at. rewrite lookup_nil.
    by rewrite andb_false_r, orb_false_r.
  - cbn [token_mask_loop]. rewrite token_index_next, IH.
    assert (Hhead : Z.testbit (if is_type_like (get_string val)
                               then Z.lor mask (token_index k) else mask) (Z.of_nat i)
                    = Z.testbit mask (Z.of_nat i)
                      || (k <? 64)%nat && Nat.eqb i k && is_type_like (get_string val)).
    { destruct (is_type_like (get_string val)).
      - rewrite Z.lor_spec, token_index_testbit. by rewrite andb_true_r.
      - by rewrite andb_false_r, orb_false_r. }
    rewrite Hhead. unfold type_like_at.
    destruct (Nat.eqb i k) eqn:Eik.
    + apply Nat.eqb_eq in Eik as ->.
      replace (k - k)%nat with 0%nat by lia. cbn [lookup list_lookup].
      replace (S k <=? k)%nat with false by (symmetry; apply Nat.leb_gt; lia).
      rewrite Nat.leb_refl. cbn [andb]. by rewrite orb_false_r, andb_true_r.
    + apply Nat.eqb_neq in Eik. rewrite andb_false_r. cbn [andb]. rewrite orb_false_r.
      destruct (k <=? i)%nat eqn:Eki.
      * apply Nat.leb_le in Eki.
        replace (S k <=? i)%nat with true by (symmetry; apply Nat.leb_le; lia).
        replace (i - k)%nat with (S (i - S k)) by lia. reflexivity.
      * apply Nat.leb_gt in Eki.
        replace (S k <=? i)%nat with false by (symmetry; apply Nat.leb_gt; lia).
        reflexivity.
Qed.

Lemma token_mask_loop_range items mask k :
  0 <= mask < UINT64_MODULUS -> 0 <= token_mask_loop items mask (token_index k) < UINT64_MODULUS.
Proof.
  revert mask k. induction items as [|val rest IH]; intros mask k Hm; [exact Hm|].
  cbn [token_mask_loop]. rewrite token_index_next. apply IH.
  destruct (is_type_like (get_string val)); [|exact Hm].
  unfold UINT64_MODULUS in *. change 18446744073709551616 with (2 ^ 64) in *.
  assert (Hi : 0 <= token_index k < 2 ^ 64).
  { unfold token_index. destruct (k <? 64)%nat eqn:Ek; [|lia].
    apply Nat.ltb_lt in Ek. split; [lia|]. apply Z.pow_lt_mono_r; lia. }
  split; [apply Z.lor_nonneg; lia|].
  destruct (Z.eq_dec (Z.lor mask (token_index k)) 0) as [->|Hne]; [lia|].
  apply Z.log2_lt_pow2; [pose proof (Z.lor_nonneg mask (token_index k)); lia|].
  rewrite Z.log2_lor by lia.
  destruct (Z.eq_dec mask 0) as [->|Hm0]; destruct (Z.eq_dec (token_index k) 0) as [Hk0|Hk0].
  - rewrite Hk0 in Hne. by cbn in Hne.
  - rewrite Z.max_r by (cbn; apply Z.log2_nonneg). apply Z.log2_lt_pow2; lia.
  - rewrite Hk0. rewrite Z.max_l by (cbn; apply Z.log2_nonneg). apply Z.log2_lt_pow2; lia.
  - apply Z.max_lub_lt; apply Z.log2_lt_pow2; lia.
Qed.

(** X7: the mask of type-like semantic tokens.  Bit [i] of the mask is set
    exactly when the legend of the response has an entry [i], the entry is
    a string naming one of namespace, type, class, enum, interface, struct
    and decorator, and [i] is below 64: later entries of a longer legend
    are ignored, and without a legend the mask is 0.  The mask always fits
    64 bits. *)
Theorem semantic_token_mask_bits node i :
  Z.testbit (get_semantic_token_mask node) (Z.of_nat i) =
    match token_types node with
    | Some items => (i <? 64)%nat && type_like_at items i
    | None => false
    end
  /\ 0 <= get_semantic_token_mask node < UINT64_MODULUS.
Proof.
  unfold get_semantic_token_mask, token_types.
  destruct (_ ≫= _) as [items|]; [|split; [apply Z.bits_0 | unfold UINT64_MODULUS; lia]].
  change 1 with (token_index 0). split.
  - rewrite token_mask_loop_testbit, Z.bits_0. cbn [orb Nat.leb andb].
    by rewrite Nat.sub_0_r.
  - apply token_mask_loop_range. unfold UINT64_MODULUS. lia.
Qed.

Lemma string_app_empty (s1 s2 : string) : s1 +:+ s2 = "" <-> s1 = "" /\ s2 = "".
Proof.
  destruct s1 as [|a s1];
    [change ("" +:+ s2) with s2 | change (String a s1 +:+ s2) with (String a (s1 +:+ s2))];
    intuition congruence.
Qed.

Lemma append_strings_from items acc :
  fold_left (fun str val => str +:+ default "" (get_string val)) items acc = ""
  <-> acc = "" /\ forallb (fun val => negb (adds_trigger_chars val)) items = true.
Proof.
  revert acc. induction items as [|val rest IH]; intros acc; cbn [fold_left forallb].
  - intuition.
  - rewrite IH, string_app_empty. unfold adds_trigger_chars, EMPTY.
    destruct (get_string val) as [[|c s]|]; cbn; intuition congruence.
Qed.

(** The string built from a list is empty exactly when no element adds to
    it. *)
Lemma append_strings_empty items :
  EMPTY (Some (append_strings items)) = negb (existsb adds_trigger_chars items).
Proof.
  assert (Hex : negb (existsb adds_trigger_chars items)
                = forallb (fun val => negb (adds_trigger_chars val)) items).
  { induction items as [|val rest IH]; [reflexivity|]. cbn [existsb forallb].
    by rewrite negb_orb, IH. }
  rewrite Hex. unfold append_strings.
  destruct (forallb _ items) eqn:Ef.
  - assert (E : fold_left (fun str val => str +:+ default "" (get_string val)) items "" = "")
      by (by apply append_strings_from).
    by rewrite E.
  - destruct (fold_left _ items "") eqn:E; [|reflexivity].
    apply append_strings_from in E as [_ E]. congruence.
Qed.

Section FeatureSwitches.

Context `{Host}.

(** X8: which trigger characters keep a feature alive.  After an initialize
    response autocomplete is on exactly when it was on before and the
    response has a completionProvider.triggerCharacters list with at least
    one element that is a non-empty string; a missing list, an empty one,
    and one of empty strings or of values that are not strings all turn it
    off.  The same holds for signature help and
    signatureHelpProvider.triggerCharacters. *)
Theorem trigger_characters_keep_feature rv s docs cur spawn w srv :
  live_session w s srv ->
  exists w' srv', exec (initialize_cb (Reply rv) s docs cur spawn) w = Some w'
    /\ heap w' !! s = Some srv'
    /\ autocomplete_enable (config srv') =
         autocomplete_enable (config srv)
         && existsb adds_trigger_chars (default [] (completion_trigger_characters rv))
    /\ signature_enable (config srv') =
         signature_enable (config srv)
         && existsb adds_trigger_chars (default [] (signature_trigger_characters rv)).
Proof.
  intros Hlive.
  destruct (initialize_cb_reply rv s docs cur spawn w srv Hlive)
    as (w' & srv' & E & Hs' & _ & _ & Ha & Hg & _).
  exists w', srv'. split; [exact E|]. split; [exact Hs'|]. rewrite Ha, Hg.
  unfold get_autocomplete_trigger_chars, get_signature_trigger_chars,
    completion_trigger_characters, signature_trigger_characters.
  split.
  - destruct (_ ≫= _) as [items|]; cbn [default existsb]; unfold id.
    + rewrite append_strings_empty.
      destruct (existsb _ items), (autocomplete_enable (config srv)); reflexivity.
    + by destruct (autocomplete_enable (config srv)).
  - destruct (get_dict "capabilities" rv ≫= λ caps, get_dict "signatureHelpProvider" caps ≫= _)
      as [items|]; cbn [default existsb]; unfold id.
    + rewrite append_strings_empty.
      destruct (existsb _ items), (signature_enable (config srv)); reflexivity.
    + by destruct (signature_enable (config srv)).
Qed.

Lemma supports_semantic_tokens_true rv :
  supports_semantic_tokens rv = true <-> semantic_tokens_delta rv = Some (JBool true).
Proof.
  unfold supports_semantic_tokens, semantic_tokens_delta, get_boolean.
  destruct (get_dict "capabilities" rv) as [caps|]; cbn; [|intuition discriminate].
  destruct (get_dict "semanticTokensProvider" caps) as [provider|]; cbn;
    [|intuition discriminate].
  destruct (get_dict "full" provider) as [full|]; cbn; [|intuition discriminate].
  destruct (member "delta" full) as [j|]; [destruct j as [|b| | | | |]; try destruct b|];
    cbn; intuition congruence.
Qed.

(** X9: a provider capability counts only as the boolean true.  After an
    initialize response each of hover, goto, document symbols and
    highlighting is on exactly when it was on before and the server's
    hoverProvider, definitionProvider, documentSymbolProvider or
    documentHighlightProvider is the boolean true: a provider announced by
    an options object turns the feature off like a missing one.  Semantic
    tokens stay on exactly when they were on and
    semanticTokensProvider.full.delta is the boolean true. *)
Theorem provider_capability_must_be_true rv s docs cur spawn w srv :
  live_session w s srv ->
  exists w' srv', exec (initialize_cb (Reply rv) s docs cur spawn) w = Some w'
    /\ heap w' !! s = Some srv'
    /\ (hover_enable (config srv') = true <->
        hover_enable (config srv) = true
        /\ capability "hoverProvider" rv = Some (JBool true))
    /\ (goto_enable (config srv') = true <->
        goto_enable (config srv) = true
        /\ capability "definitionProvider" rv = Some (JBool true))
    /\ (document_symbols_enable (config srv') = true <->
        document_symbols_enable (config srv) = true
        /\ capability "documentSymbolProvider" rv = Some (JBool true))
    /\ (highlighting_enable (config srv') = true <->
        highlighting_enable (config srv) = true
        /\ capability "documentHighlightProvider" rv = Some (JBool true))
    /\ (semantic_tokens_enable (config srv') = true <->
        semantic_tokens_enable (config srv) = true
        /\ semantic_tokens_delta rv = Some (JBool true)).
Proof.
  intros Hlive.
  destruct (initialize_cb_reply rv s docs cur spawn w srv Hlive)
    as (w' & srv' & E & Hs' & _ & _ & _ & _ & Hh & Hd & Hy & Hl & Ht & _).
  exists w', srv'. split; [exact E|]. split; [exact Hs'|].
  rewrite Hh, Hd, Hy, Hl, Ht, !update_config_true.
  do 4 (split; [reflexivity|]).
  rewrite <- supports_semantic_tokens_true.
  destruct (supports_semantic_tokens rv); intuition congruence.
Qed.

End FeatureSwitches.

Lemma trigger_characters_keep_feature_witness :
  exists w' srv',
    exec (initialize_cb (H := Scenario.host) (Reply Scenario.reply_incremental) 0%nat
            [Scenario.main_c] (Some 1%nat) None) Scenario.c_starting = Some w'
    /\ heap w' !! 0%nat = Some srv'
    /\ autocomplete_enable (config srv') = true
    /\ signature_enable (config srv') = false.
Proof.
  destruct (trigger_characters_keep_feature (H := Scenario.host) Scenario.reply_incremental
              0%nat [Scenario.main_c] (Some 1%nat) None Scenario.c_starting
              Scenario.clangd_starting) as (w' & srv' & E & Hs & Ha & Hg).
  - split; [|split]; vm_compute; reflexivity.
  - exists w', srv'. split; [exact E|]. split; [exact Hs|].
    split; [rewrite Ha | rewrite Hg]; vm_compute; reflexivity.
Defined.

Lemma provider_capability_must_be_true_witness :
  exists w' srv',
    exec (initialize_cb (H := Scenario.host) (Reply Scenario.reply_incremental) 0%nat
            [Scenario.main_c] (Some 1%nat) None) Scenario.c_starting = Some w'
    /\ heap w' !! 0%nat = Some srv'
    /\ goto_enable (config srv') = true
    /\ document_symbols_enable (config srv') <> true.
Proof.
  destruct (provider_capability_must_be_true (H := Scenario.host) Scenario.reply_incremental
              0%nat [Scenario.main_c] (Some 1%nat) None Scenario.c_starting
              Scenario.clangd_starting) as (w' & srv' & E & Hs & _ & Hgoto & Hsym & _).
  - split; [|split]; vm_compute; reflexivity.
  - exists w', srv'. split; [exact E|]. split; [exact Hs|]. split.
    + apply Hgoto. split; vm_compute; reflexivity.
    + intros Hon. apply Hsym in Hon as [_ Hcap]. vm_compute in Hcap. discriminate.
Defined.

(** ** White space around a command *)

Lemma g_strchug_empty s : g_strchug s = "" <-> blank s = true.
Proof.
  induction s as [|c s IH]; cbn [g_strchug blank]; [done|].
  destruct (g_ascii_isspace c); cbn [andb]; [exact IH | split; discriminate].
Qed.

(** What [g_strchug] returns is empty or starts with a character that is
    no white space. *)
Lemma g_strchug_head s :
  match g_strchug s with
  | String c _ => g_ascii_isspace c = false
  | EmptyString => True
  end.
Proof.
  induction s as [|c s IH]; cbn [g_strchug]; [done|].
  destruct (g_ascii_isspace c) eqn:Ec; [exact IH | exact Ec].
Qed.

Lemma g_strchug_fixed s :
  match s with String c _ => g_ascii_isspace c = false | EmptyString => True end ->
  g_strchug s = s.
Proof. destruct s as [|c s]; [done|]. cbn [g_strchug]. by intros ->. Qed.

Lemma rev_app_blank s acc : blank (String.rev_app s acc) = blank s && blank acc.
Proof.
  revert acc. induction s as [|c s IH]; intros acc; cbn [String.rev_app blank]; [done|].
  rewrite IH. cbn [blank]. by destruct (g_ascii_isspace c), (blank s), (blank acc).
Qed.

Lemma rev_blank s : blank (String.rev s) = blank s.
Proof. unfold String.rev. rewrite rev_app_blank. cbn [blank]. by rewrite andb_true_r. Qed.

Lemma rev_app_empty s acc : String.rev_app s acc = "" <-> s = "" /\ acc = "".
Proof.
  revert acc. induction s as [|c s IH]; intros acc; cbn [String.rev_app].
  - intuition.
  - rewrite IH. intuition congruence.
Qed.

Lemma rev_empty s : String.rev s = "" <-> s = "".
Proof. unfold String.rev. rewrite rev_app_empty. intuition. Qed.

Lemma blank_head s :
  match s with String c _ => g_ascii_isspace c = false | EmptyString => True end ->
  blank s = true -> s = "".
Proof. destruct s as [|c s]; [done|]. cbn [blank]. by intros ->. Qed.

Lemma g_strchomp_empty s : g_strchomp s = "" <-> blank s = true.
Proof. unfold g_strchomp. by rewrite rev_empty, g_strchug_empty, rev_blank. Qed.

(** What is left after the strip is empty only if there was nothing but
    white space. *)
Lemma g_strstrip_empty s : g_strstrip s = "" <-> blank s = true.
Proof.
  unfold g_strstrip. rewrite g_strchomp_empty. split.
  - intros Hb. apply g_strchug_empty. apply blank_head; [apply g_strchug_head | exact Hb].
  - intros Hb. apply g_strchug_empty in Hb. by rewrite Hb.
Qed.

(** What the strip leaves is blank only if it is empty. *)
Lemma g_strstrip_blank s : blank (g_strstrip s) = true -> g_strstrip s = "".
Proof.
  unfold g_strstrip, g_strchomp. rewrite rev_blank. intros Hb.
  apply rev_empty. apply blank_head; [apply g_strchug_head | exact Hb].
Qed.

Lemma EMPTY_strip cmd : EMPTY (g_strstrip <$> cmd) = match cmd with
                                                      | Some c => blank c
                                                      | None => true
                                                      end.
Proof.
  destruct cmd as [c|]; [|reflexivity]. cbn [fmap option_fmap option_map EMPTY].
  destruct (g_strstrip c) eqn:E.
  - symmetry. by apply g_strstrip_empty.
  - destruct (blank c) eqn:Eb; [|reflexivity]. apply g_strstrip_empty in Eb. congruence.
Qed.

Lemma EMPTY_strip_again cmd :
  EMPTY (g_strstrip <$> (g_strstrip <$> cmd)) = EMPTY (g_strstrip <$> cmd).
Proof.
  rewrite !EMPTY_strip. destruct cmd as [c|]; [|reflexivity]. cbn [fmap option_fmap option_map].
  destruct (blank c) eqn:Eb.
  - apply g_strstrip_empty in Eb. by rewrite Eb.
  - destruct (blank (g_strstrip c)) eqn:Eb'; [|reflexivity].
    apply g_strstrip_blank, g_strstrip_empty in Eb'. congruence.
Qed.

Lemma string_app_nil_r (s : string) : s +:+ "" = s.
Proof.
  induction s as [|c s IH]; [reflexivity|].
  change (String c s +:+ "") with (String c (s +:+ "")). by rewrite IH.
Qed.

Lemma rev_app_rev_app s a b :
  String.rev_app (String.rev_app s a) b = String.rev_app a (s +:+ b).
Proof.
  revert a b. induction s as [|c s IH]; intros a b; [reflexivity|].
  cbn [String.rev_app]. rewrite IH. reflexivity.
Qed.

Lemma rev_involutive s : String.rev (String.rev s) = s.
Proof. unfold String.rev. rewrite rev_app_rev_app. cbn [String.rev_app]. apply string_app_nil_r. Qed.

Lemma headed_not_blank s : headed s -> blank s = false.
Proof. destruct s as [|c s]; [done|]. cbn [headed blank]. by intros ->. Qed.

Lemma g_strchug_cases s : g_strchug s = "" \/ headed (g_strchug s).
Proof. pose proof (g_strchug_head s) as Hh. destruct (g_strchug s); [by left | by right]. Qed.

Lemma g_strchug_headed s : headed s -> g_strchug s = s.
Proof. destruct s as [|c s]; [done|]. cbn [headed g_strchug]. by intros ->. Qed.

Lemma g_strchug_idemp s : g_strchug (g_strchug s) = g_strchug s.
Proof. destruct (g_strchug_cases s) as [->|Hh]; [reflexivity | by apply g_strchug_headed]. Qed.

(** [g_strchug] drops a blank prefix. *)
Lemma g_strchug_split s : exists ws, s = ws +:+ g_strchug s /\ blank ws = true.
Proof.
  induction s as [|c s (ws & Hs & Hb)]; [by exists ""|]. cbn [g_strchug].
  destruct (g_ascii_isspace c) eqn:Ec.
  - exists (String c ws). change (String c ws +:+ g_strchug s) with (String c (ws +:+ g_strchug s)).
    rewrite <- Hs. split; [reflexivity|]. cbn [blank]. by rewrite Ec, Hb.
  - by exists "".
Qed.

Lemma rev_app_app_r s a b : String.rev_app s (a +:+ b) = String.rev_app s a +:+ b.
Proof.
  revert a. induction s as [|c s IH]; intros a; [reflexivity|].
  cbn [String.rev_app]. change (String c (a +:+ b)) with (String c a +:+ b). apply IH.
Qed.

Lemma rev_app_app_l a b acc :
  String.rev_app (a +:+ b) acc = String.rev_app b (String.rev_app a acc).
Proof.
  revert acc. induction a as [|c a IH]; intros acc; [reflexivity|].
  change (String c a +:+ b) with (String c (a +:+ b)). cbn [String.rev_app]. apply IH.
Qed.

Lemma rev_app_distr a b : String.rev (a +:+ b) = String.rev b +:+ String.rev a.
Proof.
  unfold String.rev. rewrite rev_app_app_l.
  change (String.rev_app a "") with ("" +:+ String.rev_app a "") at 1.
  apply rev_app_app_r.
Qed.

(** A character that is no white space at the head of a string is still
    there after [g_strchomp]. *)
Lemma g_strchomp_headed s : headed s -> headed (g_strchomp s).
Proof.
  intros Hh. unfold g_strchomp.
  destruct (g_strchug_split (String.rev s)) as (ws & Hs & Hb).
  set (u := g_strchug (String.rev s)) in *.
  assert (Et : s = String.rev u +:+ String.rev ws)
    by (by rewrite <- rev_app_distr, <- Hs, rev_involutive).
  destruct (String.rev u) as [|d r] eqn:Eu.
  - change ("" +:+ String.rev ws) with (String.rev ws) in Et.
    apply headed_not_blank in Hh. rewrite Et, rev_blank in Hh. congruence.
  - rewrite Et in Hh. exact Hh.
Qed.

Lemma g_strchomp_idemp s : g_strchomp (g_strchomp s) = g_strchomp s.
Proof. unfold g_strchomp. by rewrite rev_involutive, g_strchug_idemp. Qed.

(** Stripping what was stripped changes nothing. *)
Lemma g_strstrip_idemp s : g_strstrip (g_strstrip s) = g_strstrip s.
Proof.
  unfold g_strstrip. destruct (g_strchug_cases s) as [->|Hh]; [reflexivity|].
  rewrite (g_strchug_headed (g_strchomp _)) by (by apply g_strchomp_headed).
  apply g_strchomp_idemp.
Qed.

(** ** Sessions that never start *)

Section NeverStarted.

Context `{Host}.

(** A lookup that may launch, for a session that stands for itself and is
    not dead, goes straight to the strip of the command. *)
Lemma own_lookup_spec ft spawn w servers s srv :
  lsp_utils_is_lsp_disabled_for_project = false ->
  lsp_servers w = Some servers -> servers !! ft = Some s -> heap w !! s = Some srv ->
  launchable srv -> is_dead srv = false ->
  lsp_server_get_for_ft (Some ft) spawn w = strip_and_start s spawn w.
Proof.
  intros Hen Hl Ha Hs (Href & Hlang & Hss & Hp & Hnu) Hdead.
  unfold lsp_server_get_for_ft, server_get_or_start_for_ft.
  unfold mbind at 1, M_bind at 1, get_world. rewrite Hl, Hen.
  unfold pdata. rewrite Ha, bind_mret, (bind_deref _ _ _ _ Hs), Href.
  cbn [default]. rewrite (bind_deref _ _ _ _ Hs), Hss, Hp, Hnu, Hdead, Hlang.
  rewrite bool_decide_eq_false_2 by (by intros [? ?]). reflexivity.
Qed.

(** A lookup for a session that is marked unused and has no process does
    nothing. *)
Lemma lookup_not_used ft launch spawn w servers s srv :
  lsp_servers w = Some servers -> servers !! ft = Some s -> heap w !! s = Some srv ->
  referenced srv = None -> srv_process srv = None -> not_used srv = true ->
  server_get_or_start_for_ft (Some ft) launch spawn w = Some (None, w).
Proof.
  intros Hl Ha Hs Href Hp Hnu. unfold server_get_or_start_for_ft.
  unfold mbind at 1, M_bind at 1, get_world. rewrite Hl.
  destruct lsp_utils_is_lsp_disabled_for_project; [reflexivity|].
  unfold pdata. rewrite Ha, bind_mret, (bind_deref _ _ _ _ Hs), Href.
  cbn [default]. rewrite (bind_deref _ _ _ _ Hs), Hp, Hnu.
  destruct (startup_shutdown srv); [reflexivity|].
  rewrite bool_decide_eq_false_2 by (by intros [? ?]). reflexivity.
Qed.

(** The configured session of a file type without a reference language is
    the registered one. *)
Lemma configured_own ft w servers s srv :
  lsp_utils_is_lsp_disabled_for_project = false ->
  lsp_servers w = Some servers -> servers !! ft = Some s -> heap w !! s = Some srv ->
  ref_lang (config srv) = None ->
  server_get_configured_for_ft ft w = Some (Some s, w).
Proof.
  intros Hen Hl Ha Hs Hlang. unfold server_get_configured_for_ft.
  unfold mbind at 1, M_bind at 1, get_world. rewrite Hl, Hen.
  unfold pdata. by rewrite Ha, bind_mret, (bind_deref _ _ _ _ Hs), Hlang.
Qed.

(** X10: a language without a command is never launched.  When the command
    of a session is missing or consists of white space only, the first
    lookup that may launch marks the session unused and clears the
    command; it launches nothing, raises no dialog and does not count as a
    start.  From then on every lookup for the file type returns no session
    and changes nothing, and lsp_server_is_usable is false for its
    documents. *)
Theorem blank_command_is_never_launched ft spawn w servers s srv :
  lsp_utils_is_lsp_disabled_for_project = false ->
  lsp_servers w = Some servers -> servers !! ft = Some s -> heap w !! s = Some srv ->
  launchable srv -> is_dead srv = false ->
  match cmd (config srv) with Some c => blank c = true | None => True end ->
  exists w' srv',
    lsp_server_get_for_ft (Some ft) spawn w = Some (None, w')
    /\ heap w' = <[s := srv']> (heap w)
    /\ not_used srv' = true /\ cmd (config srv') = None
    /\ restarts srv' = restarts srv /\ srv_process srv' = None
    /\ trace w' = trace w /\ lsp_servers w' = lsp_servers w
    /\ (forall launch spawn',
          server_get_or_start_for_ft (Some ft) launch spawn' w' = Some (None, w'))
    /\ (forall doc, file_type doc = ft ->
          lsp_server_is_usable (Some doc) w' = Some (false, w')).
Proof.
  intros Hen Hl Ha Hs Hfree Hdead Hblank.
  rewrite (own_lookup_spec ft spawn w servers s srv Hen Hl Ha Hs Hfree Hdead).
  destruct Hfree as (Href & Hlang & Hss & Hp & Hnu).
  unfold strip_and_start. rewrite (bind_modify _ _ _ _ _ Hs).
  set (stripped := upd_config _ srv).
  set (w1 := set_heap (<[s := stripped]> (heap w)) w).
  assert (Hs1 : heap w1 !! s = Some stripped) by apply lookup_insert_eq.
  rewrite (bind_deref _ _ _ _ Hs1).
  assert (He : EMPTY (cmd (config stripped)) = true).
  { subst stripped. cbn [upd_config config set_config cmd set_cmd]. rewrite EMPTY_strip.
    by destruct (cmd (config srv)). }
  rewrite He, (bind_modify _ _ _ _ _ Hs1).
  set (srv' := set_not_used true (upd_config (set_cmd None) stripped)).
  set (w' := set_heap (<[s := srv']> (heap w1)) w1).
  assert (Hs' : heap w' !! s = Some srv') by apply lookup_insert_eq.
  exists w', srv'. split; [reflexivity|].
  split; [subst w' w1; cbn [heap set_heap]; by rewrite insert_insert_eq|].
  do 6 (split; [done|]). split.
  - intros launch spawn'. by eapply lookup_not_used.
  - intros doc Eft.
    assert (Hl' : lsp_servers w' = Some servers) by exact Hl.
    assert (Hlang' : ref_lang (config srv') = None) by exact Hlang.
    unfold lsp_server_is_usable, server_get_configured_for_doc. cbv beta iota.
    rewrite Eft. unfold mbind, M_bind.
    rewrite (configured_own ft w' servers s srv' Hen Hl' Ha Hs' Hlang').
    unfold deref. rewrite Hs'.
    destruct (negb (is_lsp_valid_for_doc (config srv') (Some doc))); [reflexivity|].
    cbn [mret M_ret]. by rewrite Hs'.
Qed.

Lemma retry_step ft s command k t servers w :
  lsp_utils_is_lsp_disabled_for_project = false -> servers !! ft = Some s ->
  command <> "" -> 0 <= k <= 5 ->
  retrying s command k t servers w ->
  exists w', lsp_server_get_for_ft (Some ft) None w = Some (None, w')
    /\ retrying s command (k + 1)
         (t ++ [if k + 1 >? 5 then Dialog command else Spawn s command]) servers w'.
Proof.
  intros Hen Ha Hne Hk (srv & Hl & Hs & Hfree & Hr & Hcmd & Ht).
  assert (Hdead : is_dead srv = false).
  { unfold is_dead. rewrite Hr, Z.gtb_ltb. apply Z.ltb_ge. lia. }
  rewrite (own_lookup_spec ft None w servers s srv Hen Hl Ha Hs Hfree Hdead).
  destruct Hfree as (Href & Hlang & Hss & Hp & Hnu).
  unfold strip_and_start. rewrite (bind_modify _ _ _ _ _ Hs).
  set (stripped := upd_config _ srv).
  set (w1 := set_heap (<[s := stripped]> (heap w)) w).
  assert (Hs1 : heap w1 !! s = Some stripped) by apply lookup_insert_eq.
  rewrite (bind_deref _ _ _ _ Hs1).
  assert (Hc1 : cmd (config stripped) = Some command) by exact Hcmd.
  rewrite Hc1. destruct command as [|c0 rest]; [done|]. cbn [EMPTY].
  destruct (start_lsp_server_spec s None w1 stripped Hs1) as (w' & E & Hh & Ht' & Hls & _).
  { change (restarts stripped) with (restarts srv). rewrite Hr.
    unfold fits_gint, INT_MAX. lia. }
  exists w'. split; [unfold mbind, M_bind; by rewrite E|].
  exists (started None stripped).
  split; [by rewrite Hls|].
  split; [rewrite Hh; apply lookup_insert_eq|].
  unfold started, start_effects in *.
  change (restarts stripped) with (restarts srv) in *. rewrite Hr in *.
  rewrite Hc1 in Ht'. cbn [default] in Ht'. unfold id in Ht'.
  split.
  { destruct (k + 1 >? 5); by repeat split. }
  split; [by destruct (k + 1 >? 5)|].
  split.
  { assert (Hkeep : g_strstrip <$> cmd (config stripped) = Some (String c0 rest)).
    { rewrite Hc1. cbn [fmap option_fmap option_map]. f_equal.
      assert (Hst : exists c, String c0 rest = g_strstrip c).
      { destruct (cmd (config srv)) as [c|]; [|discriminate].
        exists c. cbn [fmap option_fmap option_map] in Hcmd. congruence. }
      destruct Hst as [c ->]. apply g_strstrip_idemp. }
    by destruct (k + 1 >? 5). }
  rewrite Ht'. change (trace w1) with (trace w). rewrite Ht.
  by destruct (k + 1 >? 5).
Qed.

Lemma launch_repeatedly_cons ft spawn rest w w1 :
  lsp_server_get_for_ft (Some ft) spawn w = Some (None, w1) ->
  launch_repeatedly ft (spawn :: rest) w = launch_repeatedly ft rest w1.
Proof. intros E. cbn [launch_repeatedly]. unfold mbind, M_bind. by rewrite E. Qed.

(** X11: a server that cannot be launched is tried five times.  For a
    session that stands for itself, with a command that is more than white
    space, six lookups that may launch, each met by a launch that fails,
    make five launch attempts with the stripped command and then raise the
    dialog once; the session is then dead with its counter at 6, and every
    further lookup returns no session and changes nothing. *)
Theorem unstartable_server_is_tried_5_times ft c w servers s srv :
  lsp_utils_is_lsp_disabled_for_project = false ->
  lsp_servers w = Some servers -> servers !! ft = Some s -> heap w !! s = Some srv ->
  launchable srv -> restarts srv = 0 -> cmd (config srv) = Some c -> blank c = false ->
  exists w' srv',
    exec (launch_repeatedly ft (replicate 6 None)) w = Some w'
    /\ trace w' = (trace w ++ replicate 5 (Spawn s (g_strstrip c))
                           ++ [Dialog (g_strstrip c)])%list
    /\ heap w' !! s = Some srv'
    /\ restarts srv' = 6 /\ srv_process srv' = None /\ is_dead srv' = true
    /\ forall launch spawn,
         server_get_or_start_for_ft (Some ft) launch spawn w' = Some (None, w').
Proof.
  intros Hen Hl Ha Hs Hfree Hr Hc Hb.
  assert (Hne : g_strstrip c <> "").
  { intros E. apply g_strstrip_empty in E. congruence. }
  assert (R0 : retrying s (g_strstrip c) 0 (trace w) servers w).
  { exists srv. repeat split; try done; try apply Hfree. by rewrite Hc. }
  destruct (retry_step ft s _ 0 _ servers w Hen Ha Hne ltac:(lia) R0) as (w1 & E1 & R1).
  destruct (retry_step ft s _ 1 _ servers w1 Hen Ha Hne ltac:(lia) R1) as (w2 & E2 & R2).
  destruct (retry_step ft s _ 2 _ servers w2 Hen Ha Hne ltac:(lia) R2) as (w3 & E3 & R3).
  destruct (retry_step ft s _ 3 _ servers w3 Hen Ha Hne ltac:(lia) R3) as (w4 & E4 & R4).
  destruct (retry_step ft s _ 4 _ servers w4 Hen Ha Hne ltac:(lia) R4) as (w5 & E5 & R5).
  destruct (retry_step ft s _ 5 _ servers w5 Hen Ha Hne ltac:(lia) R5) as (w6 & E6 & R6).
  cbn in R6.
  destruct R6 as (srv6 & Hl6 & Hs6 & (Href6 & _ & _ & Hp6 & _) & Hr6 & _ & Ht6).
  assert (Hdead : is_dead srv6 = true) by (unfold is_dead; by rewrite Hr6).
  exists w6, srv6. split.
  { apply exec_unit. cbn [replicate].
    rewrite (launch_repeatedly_cons _ _ _ _ _ E1), (launch_repeatedly_cons _ _ _ _ _ E2),
      (launch_repeatedly_cons _ _ _ _ _ E3), (launch_repeatedly_cons _ _ _ _ _ E4),
      (launch_repeatedly_cons _ _ _ _ _ E5), (launch_repeatedly_cons _ _ _ _ _ E6).
    reflexivity. }
  split; [rewrite Ht6; cbn [replicate]; by rewrite <- !app_assoc|].
  do 4 (split; [done|]).
  intros launch spawn. eapply lookup_dead; eauto. rewrite Href6. exact Hs6.
Qed.

End NeverStarted.

Lemma blank_command_is_never_launched_witness :
  exists w',
    lsp_server_get_for_ft (H := Editor2.editor) (Some Editor2.ft_Make) (Some 7%nat)
      Editor2.started_up = Some (None, w')
    /\ trace w' = trace Editor2.started_up
    /\ lsp_server_get_for_ft (H := Editor2.editor) (Some Editor2.ft_Make) (Some 8%nat) w'
       = Some (None, w')
    /\ lsp_server_is_usable (H := Editor2.editor) (Some Editor2.makefile) w' = Some (false, w').
Proof.
  destruct (blank_command_is_never_launched (H := Editor2.editor) Editor2.ft_Make (Some 7%nat)
              Editor2.started_up [0%nat; 1%nat] 0%nat Editor2.make_session)
    as (w' & srv' & E & _ & _ & _ & _ & _ & Ht & _ & Hlater & Husable).
  - reflexivity.
  - vm_compute. reflexivity.
  - reflexivity.
  - vm_compute. reflexivity.
  - split; [|split; [|split; [|split]]]; vm_compute; reflexivity.
  - vm_compute. reflexivity.
  - vm_compute. reflexivity.
  - exists w'. split; [exact E|]. split; [exact Ht|].
    split; [exact (Hlater true (Some 8%nat)) | exact (Husable Editor2.makefile eq_refl)].
Defined.

Lemma unstartable_server_is_tried_5_times_witness :
  exists w' srv',
    exec (launch_repeatedly (H := Editor2.editor) Editor2.ft_Rust (replicate 6 None))
      Editor2.started_up = Some w'
    /\ trace w' = (trace Editor2.started_up ++ replicate 5 (Spawn 1%nat "rust-analyzer")
                     ++ [Dialog "rust-analyzer"])%list
    /\ heap w' !! 1%nat = Some srv'
    /\ restarts srv' = 6
    /\ lsp_server_get_for_ft (H := Editor2.editor) (Some Editor2.ft_Rust) (Some 7%nat) w'
       = Some (None, w').
Proof.
  destruct (unstartable_server_is_tried_5_times (H := Editor2.editor) Editor2.ft_Rust
              " rust-analyzer " Editor2.started_up [0%nat; 1%nat] 1%nat Editor2.rust_session)
    as (w' & srv' & E & Ht & Hs & Hr & _ & _ & Hlater).
  - reflexivity.
  - vm_compute. reflexivity.
  - reflexivity.
  - vm_compute. reflexivity.
  - split; [|split; [|split; [|split]]]; vm_compute; reflexivity.
  - vm_compute. reflexivity.
  - vm_compute. reflexivity.
  - vm_compute. reflexivity.
  - exists w', srv'. split; [exact E|]. split; [exact Ht|]. split; [exact Hs|].
    split; [exact Hr | exact (Hlater true (Some 7%nat))].
Defined.

(** ** Lookups for a document *)

Section Queries.

Context `{Host}.

Lemma strip_and_start_none s spawn w r w' :
  strip_and_start s spawn w = Some (r, w') -> r = None.
Proof.
  unfold strip_and_start. intros E.
  apply bind_Some in E as ([] & w1 & _ & E).
  apply bind_Some in E as (srv & w2 & _ & E).
  apply bind_Some in E as ([] & w3 & _ & E).
  unfold mret, M_ret in E. by simplify_eq.
Qed.

(** A session a lookup returns exists. *)
Lemma lookup_returns_live ft launch spawn w a w' :
  server_get_or_start_for_ft ft launch spawn w = Some (Some a, w') ->
  exists srv, heap w' !! a = Some srv.
Proof.
  unfold server_get_or_start_for_ft. intros E.
  apply bind_Some in E as (w0 & wa & [= <- <-] & E).
  destruct ft as [ft_id|]; [|unfold mret, M_ret in E; by simplify_eq].
  destruct (lsp_servers w) as [servers|]; [|unfold mret, M_ret in E; by simplify_eq].
  destruct lsp_utils_is_lsp_disabled_for_project; [unfold mret, M_ret in E; by simplify_eq|].
  apply bind_Some in E as (s & wb & E1 & E).
  unfold pdata in E1. destruct (servers !! ft_id); [|done].
  unfold mret, M_ret in E1. simplify_eq.
  apply bind_Some in E as (srv0 & wc & [Hs0 ->]%deref_Some & E).
  apply bind_Some in E as (srv & wd & [Hs ->]%deref_Some & E).
  destruct (startup_shutdown srv); [unfold mret, M_ret in E; by simplify_eq|].
  destruct (bool_decide (is_Some (srv_process srv))).
  { unfold mret, M_ret in E. simplify_eq. by eexists. }
  destruct (not_used srv); [unfold mret, M_ret in E; by simplify_eq|].
  destruct (is_dead srv); [unfold mret, M_ret in E; by simplify_eq|].
  destruct (negb launch); [unfold mret, M_ret in E; by simplify_eq|].
  destruct (ref_lang (config srv)) as [name|];
    [|by apply strip_and_start_none in E].
  destruct (filetypes_lookup_by_name name) as [ft2|];
    [|by apply strip_and_start_none in E].
  apply bind_Some in E as (s2 & we & E1 & E).
  unfold pdata in E1. destruct (servers !! ft2); [|done].
  unfold mret, M_ret in E1. simplify_eq.
  apply bind_Some in E as ([] & wf & E1 & E).
  apply bind_Some in E as (srv2 & wg & [Hs2 ->]%deref_Some & E).
  destruct (bool_decide (is_Some (srv_process srv2)));
    [|by apply strip_and_start_none in E].
  unfold mret, M_ret in E. simplify_eq. by eexists.
Qed.

(** X12: whether a document may be served does not decide whether its
    server is launched.  lsp_server_get looks the session of the file type
    up, launching it if need be, before it looks at the document: it
    leaves the state exactly as lsp_server_get_for_ft leaves it, and
    returns the session that lookup returned, or none when the project
    policy excludes the document.  For a document without a real path it
    returns none, after the same launch. *)
Theorem document_lookup_launches_like_file_type_lookup doc spawn w r w' :
  lsp_server_get_for_ft (Some (file_type doc)) spawn w = Some (r, w') ->
  exists r',
    lsp_server_get (Some doc) spawn w = Some (r', w')
    /\ (r' = None \/ r' = r)
    /\ (r' = r <-> r = None
                   \/ exists a srv, r = Some a /\ heap w' !! a = Some srv
                        /\ is_lsp_valid_for_doc (config srv) (Some doc) = true)
    /\ (real_path doc = None -> r' = None).
Proof.
  unfold lsp_server_get_for_ft, lsp_server_get, server_get_for_doc. intros E.
  unfold mbind at 1, M_bind at 1. rewrite E.
  destruct r as [a|].
  - destruct (lookup_returns_live _ _ _ _ _ _ E) as [srv Hs].
    rewrite (bind_deref _ _ _ _ Hs).
    destruct (is_lsp_valid_for_doc (config srv) (Some doc)) eqn:Ev; cbn [negb].
    + exists (Some a). split; [reflexivity|]. split; [by right|]. split.
      * split; [|done]. intros _. right. by exists a, srv.
      * intros Ep. unfold is_lsp_valid_for_doc in Ev. cbn [mbind option_bind] in Ev.
        rewrite Ep in Ev. by destruct (_ && _).
    + exists None. split; [reflexivity|]. split; [by left|]. split; [|done].
      split; [done|]. intros [|(a' & srv' & [= <-] & Hs' & Ev')]; [done|]. congruence.
  - exists None. split; [reflexivity|]. split; [by left|]. split; [|done].
    split; [by left | done].
Qed.

Lemma configured_total ft w :
  registry_sound w = true -> has_slot w ft = true -> names_have_slots w ->
  exists r, server_get_configured_for_ft ft w = Some (r, w)
    /\ forall a, r = Some a -> is_Some (heap w !! a).
Proof.
  unfold registry_sound, has_slot, names_have_slots, has_slot. intros Hsound Hslot Hnames.
  unfold server_get_configured_for_ft, mbind at 1, M_bind at 1, get_world.
  destruct (lsp_servers w) as [servers|]; [|by exists None].
  destruct lsp_utils_is_lsp_disabled_for_project; [by exists None|].
  rewrite forallb_forall in Hsound.
  assert (Hlive : forall i a, servers !! i = Some a -> is_Some (heap w !! a)).
  { intros i a Hi.
    assert (Hin : In a servers) by (apply list_elem_of_In, list_elem_of_lookup; eauto).
    specialize (Hsound a Hin). unfold session_sound in Hsound.
    destruct (heap w !! a); [by eexists | discriminate]. }
  apply bool_decide_eq_true_1 in Hslot.
  destruct (lookup_lt_is_Some_2 servers ft Hslot) as [a Ha].
  unfold pdata. rewrite Ha, bind_mret.
  destruct (Hlive _ _ Ha) as [srv Hs]. rewrite (bind_deref _ _ _ _ Hs).
  destruct (ref_lang (config srv)) as [name|].
  - destruct (filetypes_lookup_by_name name) as [ft2|] eqn:En; [|by exists None].
    specialize (Hnames _ _ En). apply bool_decide_eq_true_1 in Hnames.
    destruct (lookup_lt_is_Some_2 servers ft2 Hnames) as [a2 Ha2].
    rewrite Ha2, bind_mret. exists (Some a2). split; [reflexivity|].
    intros ? [= <-]. by eapply Hlive.
  - exists (Some a). split; [reflexivity|]. intros ? [= <-]. by eexists.
Qed.

Lemma unnamed_not_valid c doc :
  real_path doc = None -> is_lsp_valid_for_doc c (Some doc) = false.
Proof.
  intros Ep. unfold is_lsp_valid_for_doc. cbn [mbind option_bind]. rewrite Ep.
  by destruct (_ && _).
Qed.

Lemma get_if_running_spec doc w :
  registry_sound w = true -> has_slot w (file_type doc) = true ->
  exists r, lsp_server_get_if_running (Some doc) w = Some (r, w)
    /\ (real_path doc = None -> r = None).
Proof.
  intros Hsound Hslot.
  destruct (lookup_total (file_type doc) None w Hsound Hslot) as (r0 & E0 & Hr0).
  unfold lsp_server_get_if_running, server_get_for_doc, mbind at 1, M_bind at 1.
  rewrite E0. destruct r0 as [a|]; [|by exists None].
  destruct (Hr0 a eq_refl) as [srv Hs]. rewrite (bind_deref _ _ _ _ Hs).
  destruct (is_lsp_valid_for_doc (config srv) (Some doc)) eqn:Ev; cbn [negb].
  - exists (Some a). split; [reflexivity|]. intros Ep. by rewrite unnamed_not_valid in Ev.
  - by exists None.
Qed.

Lemma configured_for_doc_spec doc w :
  registry_sound w = true -> has_slot w (file_type doc) = true -> names_have_slots w ->
  exists c, server_get_configured_for_doc (Some doc) w = Some (c, w)
    /\ (forall a, c = Some a -> is_Some (heap w !! a))
    /\ (real_path doc = None -> c = None).
Proof.
  intros Hsound Hslot Hnames.
  destruct (configured_total (file_type doc) w Hsound Hslot Hnames) as (c0 & Ec & Hc0).
  unfold server_get_configured_for_doc, mbind at 1, M_bind at 1. rewrite Ec.
  destruct c0 as [a|]; [|by exists None].
  destruct (Hc0 a eq_refl) as [srv Hs]. rewrite (bind_deref _ _ _ _ Hs).
  destruct (is_lsp_valid_for_doc (config srv) (Some doc)) eqn:Ev; cbn [negb].
  - exists (Some a). split; [reflexivity|]. split; [intros ? [= <-]; by eexists|].
    intros Ep. by rewrite unnamed_not_valid in Ev.
  - by exists None.
Qed.

(** X13: the queries leave the state alone.  In a registry whose sessions
    all exist, lsp_server_get_if_running, lsp_server_is_usable and
    lsp_server_get_config return without launching anything and without
    changing anything; a document that is usable has a configuration; and
    a document without a real path gets no session, is not usable and has
    no configuration. *)
Theorem queries_leave_the_state_alone doc w :
  registry_sound w = true -> has_slot w (file_type doc) = true -> names_have_slots w ->
  exists r usable cfg,
    lsp_server_get_if_running (Some doc) w = Some (r, w)
    /\ lsp_server_is_usable (Some doc) w = Some (usable, w)
    /\ lsp_server_get_config (Some doc) w = Some (cfg, w)
    /\ (usable = true -> is_Some cfg)
    /\ (real_path doc = None -> r = None /\ usable = false /\ cfg = None).
Proof.
  intros Hsound Hslot Hnames.
  destruct (get_if_running_spec doc w Hsound Hslot) as (r & Er & Hr).
  destruct (configured_for_doc_spec doc w Hsound Hslot Hnames) as (c & Ec & Hc & Hcp).
  exists r.
  assert (Eu : lsp_server_is_usable (Some doc) w =
               match c with
               | Some a => srv ← deref a; mret (negb (not_used srv) && negb (is_dead srv))
               | None => mret false
               end w)
    by (unfold lsp_server_is_usable, mbind at 1, M_bind at 1; by rewrite Ec).
  assert (Eg : lsp_server_get_config (Some doc) w =
               match c with
               | Some a => srv ← deref a; mret (Some (config srv))
               | None => mret None
               end w)
    by (unfold lsp_server_get_config, mbind at 1, M_bind at 1; by rewrite Ec).
  rewrite Eu, Eg. clear Eu Eg.
  destruct c as [a|].
  - destruct (Hc a eq_refl) as [srv Hs]. rewrite !(bind_deref _ _ _ _ Hs).
    eexists _, _. do 3 (split; [done|]). split; [by eexists|].
    intros Ep. by specialize (Hcp Ep).
  - exists false, None. do 3 (split; [done|]). split; [done|].
    intros Ep. by split; [apply Hr|].
Qed.

End Queries.

Lemma document_lookup_launches_like_file_type_lookup_witness :
  lsp_server_get (H := Scenario.host) (Some Scenario.untitled) (Some 100%nat) Scenario.loaded
    = Some (None, Scenario.c_starting)
  /\ lsp_server_get_for_ft (H := Scenario.host) (Some Scenario.ft_C) None Scenario.c_ready
     = Some (Some 0%nat, Scenario.c_ready)
  /\ lsp_server_get (H := Scenario.host) (Some Scenario.untitled) None Scenario.c_ready
     = Some (None, Scenario.c_ready).
Proof.
  assert (E1 : lsp_server_get_for_ft (H := Scenario.host) (Some (file_type Scenario.untitled))
                 (Some 100%nat) Scenario.loaded = Some (None, Scenario.c_starting))
    by (vm_compute; reflexivity).
  assert (E2 : lsp_server_get_for_ft (H := Scenario.host) (Some (file_type Scenario.untitled))
                 None Scenario.c_ready = Some (Some 0%nat, Scenario.c_ready))
    by (vm_compute; reflexivity).
  destruct (document_lookup_launches_like_file_type_lookup (H := Scenario.host)
              Scenario.untitled (Some 100%nat) Scenario.loaded None
              Scenario.c_starting E1) as (r1 & E1' & _ & _ & Hnone1).
  destruct (document_lookup_launches_like_file_type_lookup (H := Scenario.host)
              Scenario.untitled None Scenario.c_ready (Some 0%nat)
              Scenario.c_ready E2) as (r2 & E2' & _ & _ & Hnone2).
  split; [rewrite E1', (Hnone1 eq_refl); reflexivity|].
  split; [exact E2|]. rewrite E2', (Hnone2 eq_refl). reflexivity.
Defined.

Lemma queries_leave_the_state_alone_witness :
  exists r usable cfg,
    lsp_server_get_if_running (H := Scenario.host) (Some Scenario.main_c) Scenario.c_ready
      = Some (r, Scenario.c_ready)
    /\ lsp_server_is_usable (H := Scenario.host) (Some Scenario.main_c) Scenario.c_ready
       = Some (usable, Scenario.c_ready)
    /\ lsp_server_get_config (H := Scenario.host) (Some Scenario.main_c) Scenario.c_ready
       = Some (cfg, Scenario.c_ready)
    /\ (usable = true -> is_Some cfg).
Proof.
  destruct (queries_leave_the_state_alone (H := Scenario.host) Scenario.main_c Scenario.c_ready)
    as (r & usable & cfg & Hr & Hu & Hc & Hsome & _).
  - vm_compute. reflexivity.
  - vm_compute. reflexivity.
  - intros name ft. cbn [filetypes_lookup_by_name Scenario.host]. unfold Scenario.names.
    repeat destruct (String.eqb name _); intros [= <-]; vm_compute; reflexivity.
  - exists r, usable, cfg. split; [exact Hr|]. split; [exact Hu|]. split; [exact Hc | exact Hsome].
Defined.

(** ** Stopping every session and rebuilding the registry *)

(** A fast removal drops the element at the index and keeps all others. *)
Lemma remove_index_fast_Permutation i (l : list addr) x :
  l !! i = Some x -> l ≡ₚ x :: remove_index_fast i l.
Proof.
  intros Hi. unfold remove_index_fast.
  pose proof (lookup_lt_Some _ _ _ Hi) as Hlen.
  destruct (l !! (length l - 1)%nat) as [y|] eqn:Elast;
    [|apply lookup_ge_None in Elast; lia].
  assert (Hl : l = (take (length l - 1) l ++ [y])%list).
  { rewrite <- (take_drop (length l - 1) l) at 1. f_equal.
    rewrite (drop_S _ y) by exact Elast.
    replace (S (length l - 1)) with (length l) by lia. by rewrite drop_all. }
  destruct (Nat.eqb i (length l - 1)) eqn:Ei.
  - apply Nat.eqb_eq in Ei. subst i. assert (x = y) as -> by congruence.
    rewrite Hl at 1. symmetry. apply Permutation_cons_append.
  - apply Nat.eqb_neq in Ei.
    set (front := take (length l - 1) l) in *.
    assert (Hf : front !! i = Some x).
    { subst front. rewrite lookup_take_lt by lia. exact Hi. }
    rewrite Hl at 1. rewrite <- Permutation_cons_append.
    rewrite insert_take_drop by (by eapply lookup_lt_Some).
    rewrite <- (take_drop_middle front i x Hf) at 1.
    rewrite <- !Permutation_middle. apply perm_swap.
Qed.

Section Teardown.

Context `{Host}.

(** The removal of a waiting session from [servers_in_shutdown] frees its
    struct and keeps every other entry. *)
Lemma servers_in_shutdown_remove_others s p w :
  awaiting_stop s p w ->
  exists w', servers_in_shutdown_remove s w = Some (tt, w')
    /\ servers_in_shutdown w ≡ₚ s :: servers_in_shutdown w'
    /\ heap w' = delete s (heap w)
    /\ lsp_servers w' = lsp_servers w /\ trace w' = trace w.
Proof.
  intros ((srv & Hs & _) & Hin & _).
  destruct (index_of_elem s _ Hin) as [i Ei].
  unfold servers_in_shutdown_remove, mbind at 1, M_bind at 1, get_world.
  unfold g_ptr_array_remove_fast. rewrite Ei. cbn [fmap option_fmap option_map].
  unfold mbind, M_bind, modify_world, free_server, release.
  cbn [heap set_servers_in_shutdown]. rewrite Hs.
  eexists. split; [reflexivity|].
  cbn [servers_in_shutdown heap lsp_servers trace set_heap set_servers_in_shutdown].
  split; [|done]. apply remove_index_fast_Permutation. by apply index_of_lookup.
Qed.

(** X14: the end of one stop leaves the other stops alone.  Each of the
    callbacks that end the stop of a session (a failed shutdown request, a
    confirmed exit, a failed exit) frees the struct of that session and
    takes that one entry out of servers_in_shutdown: every other session
    that waits there still waits there, though not at the same index, every
    other struct is untouched, and the registry is as it was. *)
Theorem stop_callbacks_free_only_their_session s p w :
  awaiting_stop s p w ->
  (exists w', exec (shutdown_cb true s) w = Some w'
     /\ servers_in_shutdown w ≡ₚ s :: servers_in_shutdown w'
     /\ heap w' = delete s (heap w) /\ lsp_servers w' = lsp_servers w)
  /\ (exists w', exec (exit_cb false s) w = Some w'
       /\ servers_in_shutdown w ≡ₚ s :: servers_in_shutdown w'
       /\ heap w' = delete s (heap w) /\ lsp_servers w' = lsp_servers w)
  /\ (exists w', exec (exit_cb true s) w = Some w'
       /\ servers_in_shutdown w ≡ₚ s :: servers_in_shutdown w'
       /\ heap w' = delete s (heap w) /\ lsp_servers w' = lsp_servers w).
Proof.
  intros Hw. pose proof Hw as ((srv & Hs & Hp) & _).
  pose proof (force_terminate_spec s p w srv Hs Hp) as Eforce.
  destruct (servers_in_shutdown_remove_others s p w Hw) as (w3 & E3 & Hperm3 & Hh3 & Hl3 & _).
  destruct (servers_in_shutdown_remove_others s p _
              (awaiting_stop_trace s p w (trace w ++ [SendSigterm p; ForceExit p]) Hw))
    as (w4 & E4 & Hperm4 & Hh4 & Hl4 & _).
  split; [|split].
  - exists w4. split; [|done].
    apply exec_unit. unfold shutdown_cb. rewrite (bind_deref _ _ _ _ Hs).
    cbn [negb]. unfold mbind, M_bind. by rewrite Eforce.
  - exists w3. split; [|done].
    apply exec_unit. unfold exit_cb. by rewrite bind_mret.
  - exists w4. split; [|done].
    apply exec_unit. unfold exit_cb, mbind, M_bind. by rewrite Eforce.
Qed.

Lemma has_process_ext w w' a :
  heap w' !! a = heap w !! a -> has_process w' a = has_process w a.
Proof. unfold has_process. by intros ->. Qed.

(** The teardown of a registry, slot by slot. *)
Lemma stop_and_free_servers_spec servers w :
  NoDup servers -> (forall a, a ∈ servers -> is_Some (heap w !! a)) ->
  exists w', stop_and_free_servers servers w = Some (tt, w')
    /\ trace w' = (trace w ++ map (fun a => ClientCall a "shutdown")
                                  (running_sessions w servers))%list
    /\ servers_in_shutdown w' = (servers_in_shutdown w ++ running_sessions w servers)%list
    /\ (forall a, a ∈ servers ->
          heap w' !! a = if has_process w a
                         then set_startup_shutdown true <$> heap w !! a else None)
    /\ (forall a, a ∉ servers -> heap w' !! a = heap w !! a)
    /\ lsp_servers w' = lsp_servers w /\ next_addr w' = next_addr w
    /\ open_docs w' = open_docs w /\ doc_version_nums w' = doc_version_nums w.
Proof.
  revert w. induction servers as [|s rest IH]; intros w Hnd Hlive.
  - exists w. split; [reflexivity|]. cbn [running_sessions List.filter map].
    rewrite !app_nil_r. split; [done|]. split; [done|].
    split; [by intros a ?%elem_of_nil|]. by repeat split.
  - apply NoDup_cons in Hnd as [Hs_rest Hnd].
    destruct (Hlive s) as [srv Hs]; [by left|].
    cbn [stop_and_free_servers]. unfold stop_and_free_server at 1.
    unfold mbind at 1, M_bind at 1. rewrite (bind_deref _ _ _ _ Hs).
    assert (Hstep : forall w1,
              (forall a, a ≠ s -> heap w1 !! a = heap w !! a) ->
              exists w', stop_and_free_servers rest w1 = Some (tt, w')
                /\ trace w' = (trace w1 ++ map (fun a => ClientCall a "shutdown")
                                              (running_sessions w rest))%list
                /\ servers_in_shutdown w' =
                     (servers_in_shutdown w1 ++ running_sessions w rest)%list
                /\ (forall a, a ∈ rest ->
                      heap w' !! a = if has_process w a
                                     then set_startup_shutdown true <$> heap w !! a else None)
                /\ (forall a, a ∉ rest -> heap w' !! a = heap w1 !! a)
                /\ lsp_servers w' = lsp_servers w1 /\ next_addr w' = next_addr w1
                /\ open_docs w' = open_docs w1 /\ doc_version_nums w' = doc_version_nums w1).
    { intros w1 Hsame.
      assert (Hne : forall a, a ∈ rest -> a ≠ s) by (intros a Ha ->; done).
      destruct (IH w1 Hnd) as (w' & E & Ht & Hsis & Hin & Hout & Hrest).
      { intros a Ha. rewrite Hsame by (by apply Hne). apply Hlive. by right. }
      assert (Hrun : running_sessions w1 rest = running_sessions w rest).
      { unfold running_sessions. apply List.filter_ext_in. intros a Ha.
        apply has_process_ext, Hsame, Hne. by apply list_elem_of_In. }
      exists w'. rewrite Hrun in *. split; [exact E|]. split; [exact Ht|].
      split; [exact Hsis|]. split; [|split; [exact Hout | exact Hrest]].
      intros a Ha. rewrite (Hin a Ha).
      by rewrite (has_process_ext w w1 a (Hsame a (Hne a Ha))), (Hsame a (Hne a Ha)). }
    assert (Ehp : has_process w s = bool_decide (is_Some (srv_process srv)))
      by (unfold has_process; by rewrite Hs).
    destruct (srv_process srv) as [p|] eqn:Ep.
    + rewrite (stop_process_spec _ _ _ Hs).
      set (w1 := set_trace _ _).
      destruct (Hstep w1) as (w' & E & Ht & Hsis & Hin & Hout & Hl & Hn & Hod & Hdv).
      { intros a Ha. subst w1. cbn [heap set_trace set_servers_in_shutdown set_heap].
        by rewrite lookup_insert_ne. }
      exists w'. split; [exact E|].
      cbn [running_sessions List.filter]. rewrite Ehp, bool_decide_eq_true_2 by (by eexists).
      fold (running_sessions w rest).
      split; [rewrite Ht; subst w1; cbn [trace set_trace map]; by rewrite <- app_assoc|].
      split; [rewrite Hsis; subst w1;
              cbn [servers_in_shutdown set_trace set_servers_in_shutdown];
              by rewrite <- app_assoc|].
      split.
      { intros a [->|Ha]%elem_of_cons; [|by apply Hin].
        rewrite (Hout s Hs_rest). subst w1.
        cbn [heap set_trace set_servers_in_shutdown set_heap].
        rewrite lookup_insert_eq, Ehp, bool_decide_eq_true_2 by (by eexists).
        by rewrite Hs. }
      split.
      { intros a Ha. apply not_elem_of_cons in Ha as [Hne Ha]. rewrite (Hout a Ha).
        subst w1. cbn [heap set_trace set_servers_in_shutdown set_heap].
        by rewrite lookup_insert_ne. }
      by rewrite Hl, Hn, Hod, Hdv.
    + unfold free_server, release. rewrite Hs.
      set (w1 := set_heap _ w).
      destruct (Hstep w1) as (w' & E & Ht & Hsis & Hin & Hout & Hl & Hn & Hod & Hdv).
      { intros a Ha. subst w1. cbn [heap set_heap]. by rewrite lookup_delete_ne. }
      exists w'. split; [exact E|].
      cbn [running_sessions List.filter].
      rewrite Ehp, bool_decide_eq_false_2 by (by intros [? ?]).
      fold (running_sessions w rest).
      split; [exact Ht|]. split; [exact Hsis|].
      split.
      { intros a [->|Ha]%elem_of_cons; [|by apply Hin].
        rewrite (Hout s Hs_rest). subst w1. cbn [heap set_heap].
        rewrite lookup_delete_eq, Ehp. by rewrite bool_decide_eq_false_2 by (by intros [? ?]). }
      split.
      { intros a Ha. apply not_elem_of_cons in Ha as [Hne Ha]. rewrite (Hout a Ha).
        subst w1. cbn [heap set_heap]. by rewrite lookup_delete_ne. }
      by rewrite Hl, Hn, Hod, Hdv.
Qed.

(** X15: lsp_server_stop_all asks exactly the running servers to shut down.
    For a registry in which no session sits in two slots and every session
    exists, the teardown sends one shutdown request to every session that
    owns a process, in slot order, and queues those sessions, marked as in
    a handshake, in servers_in_shutdown; it frees every session without a
    process on the spot; it touches no other struct; and it leaves no
    registry, so that every later lookup returns no session and launches
    nothing. *)
Theorem stop_all_shuts_down_what_runs w servers :
  lsp_servers w = Some servers -> stoppable w ->
  exists w',
    exec lsp_server_stop_all w = Some w'
    /\ lsp_servers w' = None
    /\ trace w' = (trace w ++ map (fun a => ClientCall a "shutdown")
                                  (running_sessions w servers))%list
    /\ servers_in_shutdown w' = (servers_in_shutdown w ++ running_sessions w servers)%list
    /\ (forall a, a ∈ servers ->
          heap w' !! a = if has_process w a
                         then set_startup_shutdown true <$> heap w !! a else None)
    /\ (forall a, a ∉ servers -> heap w' !! a = heap w !! a)
    /\ (forall ft launch spawn,
          server_get_or_start_for_ft ft launch spawn w' = Some (None, w')).
Proof.
  intros Hl Hstop. unfold stoppable in Hstop. rewrite Hl in Hstop. destruct Hstop as [Hnd Hlive].
  destruct (stop_and_free_servers_spec servers w Hnd Hlive)
    as (w1 & E & Ht & Hsis & Hin & Hout & _).
  exists (set_lsp_servers None w1). split.
  { apply exec_unit. unfold lsp_server_stop_all, mbind at 1, M_bind at 1, get_world.
    rewrite Hl. unfold mbind, M_bind. by rewrite E. }
  do 5 (split; [done|]).
  intros ft launch spawn. unfold server_get_or_start_for_ft, mbind, M_bind, get_world.
  cbn [lsp_servers set_lsp_servers]. by destruct ft.
Qed.

Lemma new_servers_spec fts w :
  exists w', new_servers fts w = Some (seq (next_addr w) (length fts), w')
    /\ next_addr w' = (next_addr w + length fts)%nat
    /\ (forall i ft, fts !! i = Some ft ->
          heap w' !! (next_addr w + i)%nat = Some (lsp_server_new ft))
    /\ (forall a, (a < next_addr w)%nat -> heap w' !! a = heap w !! a)
    /\ trace w' = trace w /\ servers_in_shutdown w' = servers_in_shutdown w
    /\ open_docs w' = open_docs w /\ doc_version_nums w' = doc_version_nums w.
Proof.
  revert w. induction fts as [|ft rest IH]; intros w.
  - exists w. split; [reflexivity|]. split; [cbn [length]; lia|].
    split; [by intros i ft ?|]. by repeat split.
  - cbn [new_servers]. unfold mbind at 1, M_bind at 1, alloc.
    set (w1 := set_next_addr _ _).
    destruct (IH w1) as (w' & E & Hn & Hnew & Hold & Ht & Hsis & Hod & Hdv).
    exists w'. split.
    { unfold mbind, M_bind. rewrite E. reflexivity. }
    assert (Hn1 : next_addr w1 = S (next_addr w)) by reflexivity.
    rewrite Hn1 in *.
    split; [cbn [length]; lia|]. split.
    { intros [|i] ft' Hi.
      - cbn in Hi. simplify_eq. rewrite Nat.add_0_r, Hold by lia.
        subst w1. cbn [heap set_next_addr set_heap]. apply lookup_insert_eq.
      - replace (next_addr w + S i)%nat with (S (next_addr w) + i)%nat by lia.
        by apply Hnew. }
    split.
    { intros a Ha. rewrite Hold by lia. subst w1. cbn [heap set_next_addr set_heap].
      apply lookup_insert_ne. lia. }
    by rewrite Ht, Hsis, Hod, Hdv.
Qed.

Lemma count_shutdown_calls (l : list addr) :
  count_spawns (map (fun a => ClientCall a "shutdown") l) = 0%nat
  /\ count_dialogs (map (fun a => ClientCall a "shutdown") l) = 0%nat.
Proof. induction l as [|a l [IH1 IH2]]; split; try reflexivity; assumption. Qed.

(** X16: lsp_server_init_all builds a registry of fresh sessions.  Whatever
    registry there was is torn down as by lsp_server_stop_all; the new one
    has one new session per file type of the editor, slot by slot, each as
    lsp_server_new makes it from the configuration, all different and all
    existing; nothing is launched, no dialog is raised, and the tables of
    the sync engine are left as they were. *)
Theorem init_all_builds_a_fresh_registry w :
  stoppable w ->
  exists w' t,
    exec lsp_server_init_all w = Some w'
    /\ lsp_servers w' = Some (seq (next_addr w) filetypes_count)
    /\ (forall ft, (ft < filetypes_count)%nat ->
          heap w' !! (next_addr w + ft)%nat = Some (lsp_server_new ft))
    /\ registry_sound w' = true
    /\ trace w' = (trace w ++ t)%list /\ count_spawns t = 0%nat /\ count_dialogs t = 0%nat
    /\ open_docs w' = open_docs w /\ doc_version_nums w' = doc_version_nums w.
Proof.
  intros Hstop.
  assert (Hfirst : exists w1 t,
            (if bool_decide (is_Some (lsp_servers w)) then lsp_server_stop_all else mret tt) w
              = Some (tt, w1)
            /\ next_addr w1 = next_addr w
            /\ trace w1 = (trace w ++ t)%list /\ count_spawns t = 0%nat /\ count_dialogs t = 0%nat
            /\ open_docs w1 = open_docs w /\ doc_version_nums w1 = doc_version_nums w).
  { unfold stoppable in Hstop. destruct (lsp_servers w) as [servers|] eqn:Hl.
    - destruct Hstop as [Hnd Hlive].
      destruct (stop_and_free_servers_spec servers w Hnd Hlive)
        as (w1 & E & Ht & _ & _ & _ & _ & Hn & Hod & Hdv).
      exists (set_lsp_servers None w1), (map (fun a => ClientCall a "shutdown")
                                           (running_sessions w servers)).
      rewrite bool_decide_eq_true_2 by (by eexists). split.
      { unfold lsp_server_stop_all, mbind at 1, M_bind at 1, get_world.
        rewrite Hl. unfold mbind, M_bind. by rewrite E. }
      destruct (count_shutdown_calls (running_sessions w servers)) as [C1 C2].
      by repeat split.
    - exists w, []. rewrite bool_decide_eq_false_2 by (by intros [? ?]).
      rewrite app_nil_r. by repeat split. }
  destruct Hfirst as (w1 & t & E1 & Hn1 & Ht1 & Hc1 & Hd1 & Hod1 & Hdv1).
  destruct (new_servers_spec (seq 0 filetypes_count) w1)
    as (w2 & E2 & _ & Hnew & _ & Ht2 & _ & Hod2 & Hdv2).
  rewrite length_seq, Hn1 in *.
  exists (set_lsp_servers (Some (seq (next_addr w) filetypes_count)) w2), t.
  split.
  { apply exec_unit. unfold lsp_server_init_all, mbind at 1, M_bind at 1, get_world.
    unfold mbind at 1, M_bind at 1. rewrite E1.
    unfold mbind, M_bind. by rewrite E2. }
  assert (Hfresh : forall ft, (ft < filetypes_count)%nat ->
            heap w2 !! (next_addr w + ft)%nat = Some (lsp_server_new ft)).
  { intros ft Hft. apply Hnew. by rewrite lookup_seq_lt. }
  split; [reflexivity|]. split; [exact Hfresh|]. split.
  { unfold registry_sound. cbn [lsp_servers set_lsp_servers].
    apply forallb_forall. intros a Ha.
    apply list_elem_of_In, elem_of_seq in Ha.
    unfold session_sound. cbn [heap set_lsp_servers].
    replace a with (next_addr w + (a - next_addr w))%nat by lia.
    rewrite Hfresh by lia. reflexivity. }
  cbn [trace open_docs doc_version_nums set_lsp_servers].
  by rewrite Ht2, Ht1, Hod2, Hod1, Hdv2, Hdv1.
Qed.

End Teardown.

Lemma stop_callbacks_free_only_their_session_witness :
  exists w', exec (exit_cb true 0%nat) Scenario.c_stopping = Some w'
    /\ servers_in_shutdown Scenario.c_stopping ≡ₚ 0%nat :: servers_in_shutdown w'
    /\ heap w' = delete 0%nat (heap Scenario.c_stopping)
    /\ lsp_servers w' = lsp_servers Scenario.c_stopping.
Proof.
  assert (Hsis : servers_in_shutdown Scenario.c_stopping = [0%nat]) by (vm_compute; reflexivity).
  destruct (stop_callbacks_free_only_their_session 0%nat 100%nat Scenario.c_stopping)
    as (_ & _ & Hexit).
  - split; [|split].
    + exists (set_startup_shutdown true Scenario.clangd_session). split; vm_compute; reflexivity.
    + rewrite Hsis. apply list_elem_of_here.
    + rewrite Hsis. apply NoDup_singleton.
  - exact Hexit.
Defined.

Lemma stop_all_shuts_down_what_runs_witness :
  exists w',
    exec lsp_server_stop_all Scenario.c_ready = Some w'
    /\ lsp_servers w' = None
    /\ trace w' = (trace Scenario.c_ready ++ [ClientCall 0%nat "shutdown"])%list
    /\ servers_in_shutdown w' = [0%nat]
    /\ heap w' !! 0%nat = Some (set_startup_shutdown true Scenario.clangd_session)
    /\ heap w' !! 1%nat = None.
Proof.
  assert (Hl : lsp_servers Scenario.c_ready = Some [0; 1; 2; 3; 4]%nat)
    by (vm_compute; reflexivity).
  destruct (stop_all_shuts_down_what_runs (H := Scenario.host) Scenario.c_ready [0; 1; 2; 3; 4]%nat Hl)
    as (w' & E & Hnone & Ht & Hsis & Hin & _).
  - unfold stoppable. rewrite Hl. split.
    + apply (bool_decide_unpack _). vm_compute. reflexivity.
    + intros a Ha. apply (bool_decide_unpack _).
      repeat (apply elem_of_cons in Ha as [->|Ha]; [vm_compute; reflexivity|]).
      destruct (not_elem_of_nil _ Ha).
  - exists w'. split; [exact E|]. split; [exact Hnone|].
    assert (Hrun : running_sessions Scenario.c_ready [0; 1; 2; 3; 4]%nat = [0%nat])
      by (vm_compute; reflexivity).
    rewrite Hrun in Ht, Hsis. split; [exact Ht|]. split; [rewrite Hsis; vm_compute; reflexivity|].
    split.
    + etrans; [apply (Hin 0%nat), list_elem_of_here|]. vm_compute. reflexivity.
    + etrans; [apply (Hin 1%nat), list_elem_of_further, list_elem_of_here|].
      vm_compute. reflexivity.
Defined.

Lemma init_all_builds_a_fresh_registry_witness :
  exists w' t,
    exec (lsp_server_init_all (H := Scenario.host)) Scenario.c_ready = Some w'
    /\ lsp_servers w' = Some [5; 6; 7; 8; 9]%nat
    /\ heap w' !! 5%nat = Some (lsp_server_new (H := Scenario.host) Scenario.ft_C)
    /\ registry_sound w' = true
    /\ trace w' = (trace Scenario.c_ready ++ t)%list /\ count_spawns t = 0%nat
    /\ open_docs w' = Some {[1%nat]}.
Proof.
  assert (Hl : lsp_servers Scenario.c_ready = Some [0; 1; 2; 3; 4]%nat)
    by (vm_compute; reflexivity).
  destruct (init_all_builds_a_fresh_registry (H := Scenario.host) Scenario.c_ready)
    as (w' & t & E & Hreg & Hnew & Hsound & Ht & Hspawns & _ & Ho & _).
  - unfold stoppable. rewrite Hl. split.
    + apply (bool_decide_unpack _). vm_compute. reflexivity.
    + intros a Ha. apply (bool_decide_unpack _).
      repeat (apply elem_of_cons in Ha as [->|Ha]; [vm_compute; reflexivity|]).
      destruct (not_elem_of_nil _ Ha).
  - exists w', t. split; [exact E|]. split; [rewrite Hreg; vm_compute; reflexivity|].
    split; [apply (Hnew 0%nat); vm_compute; lia|]. split; [exact Hsound|].
    split; [exact Ht|]. split; [exact Hspawns|]. rewrite Ho. vm_compute. reflexivity.
Defined.

(** ** The replay of open documents *)

Section Replay.

Context `{Host}.

(** A didOpen for a document that is not open, whatever its version. *)
Lemma did_open_sends server doc w table :
  open_docs w = Some table -> doc_id doc ∉ table ->
  exists w' e, lsp_sync_text_document_did_open server doc w = Some (tt, w')
    /\ announces server doc e
    /\ trace w' = (trace w ++ [e])%list
    /\ open_docs w' = Some ({[doc_id doc]} ∪ table)
    /\ heap w' = heap w /\ lsp_servers w' = lsp_servers w.
Proof.
  intros Ho Hout.
  unfold lsp_sync_text_document_did_open, mbind at 1, M_bind at 1.
  rewrite (is_document_open_spec _ _ _ Ho), bool_decide_eq_false_2 by exact Hout.
  unfold open_docs_add, mbind at 1, M_bind at 1, modify_world.
  set (w1 := set_open_docs _ w).
  assert (Ho1 : open_docs w1 = Some ({[doc_id doc]} ∪ table))
    by (subst w1; cbn [open_docs set_open_docs]; by rewrite Ho).
  assert (Hnext : exists v w2, get_next_doc_version_num doc w1 = Some (v, w2)
            /\ trace w2 = trace w1 /\ open_docs w2 = open_docs w1
            /\ heap w2 = heap w1 /\ lsp_servers w2 = lsp_servers w1).
  { destruct (real_path doc) as [path|] eqn:Ep.
    - rewrite (get_next_doc_version_num_path _ _ _ Ep). eexists _, _. by repeat split.
    - rewrite (get_next_doc_version_num_unnamed _ _ Ep). eexists _, _. by repeat split. }
  destruct Hnext as (v & w2 & E2 & Ht2 & Ho2 & Hh2 & Hl2).
  unfold mbind, M_bind. rewrite E2. unfold lsp_rpc_notify, emit, modify_world.
  eexists _, (RpcNotify server "textDocument/didOpen"
                (did_open_params (lsp_utils_get_doc_uri doc) (lsp_utils_get_lsp_lang_name doc)
                   v (sci_contents doc))).
  split; [reflexivity|].
  split; [eexists; split; [reflexivity|]; split; reflexivity|].
  cbn [trace open_docs heap lsp_servers set_trace].
  rewrite Ht2, Ho2, Hh2, Hl2, Ho1. by repeat split.
Qed.

(** A lookup for the file type of a registered session that runs and is
    in no handshake returns that session. *)
Lemma lookup_running ft launch spawn w servers s srv :
  lsp_utils_is_lsp_disabled_for_project = false ->
  lsp_servers w = Some servers -> servers !! ft = Some s ->
  heap w !! s = Some srv -> referenced srv = None ->
  startup_shutdown srv = false -> is_Some (srv_process srv) ->
  server_get_or_start_for_ft (Some ft) launch spawn w = Some (Some s, w).
Proof.
  intros Hen Hl Ha Hs Href Hss Hp. unfold server_get_or_start_for_ft.
  unfold mbind at 1, M_bind at 1, get_world. rewrite Hl, Hen.
  unfold pdata. rewrite Ha, bind_mret, (bind_deref _ _ _ _ Hs), Href.
  cbn [default]. rewrite (bind_deref _ _ _ _ Hs), Hss.
  by rewrite bool_decide_eq_true_2 by exact Hp.
Qed.

Lemma get_if_running_registered doc w servers s srv :
  lsp_utils_is_lsp_disabled_for_project = false ->
  lsp_servers w = Some servers -> servers !! file_type doc = Some s ->
  heap w !! s = Some srv -> referenced srv = None ->
  startup_shutdown srv = false -> is_Some (srv_process srv) ->
  lsp_server_get_if_running (Some doc) w =
    Some (if is_lsp_valid_for_doc (config srv) (Some doc) then Some s else None, w).
Proof.
  intros Hen Hl Ha Hs Href Hss Hp.
  unfold lsp_server_get_if_running, server_get_for_doc, mbind at 1, M_bind at 1.
  rewrite (lookup_running _ _ _ _ _ _ _ Hen Hl Ha Hs Href Hss Hp).
  rewrite (bind_deref _ _ _ _ Hs).
  by destruct (is_lsp_valid_for_doc (config srv) (Some doc)).
Qed.

Lemma replay_spec s docs cur w servers srv table :
  lsp_utils_is_lsp_disabled_for_project = false ->
  lsp_servers w = Some servers -> servers !! filetype srv = Some s ->
  heap w !! s = Some srv -> referenced srv = None ->
  startup_shutdown srv = false -> is_Some (srv_process srv) ->
  open_docs w = Some table -> NoDup (doc_id <$> docs) ->
  exists w' t,
    replay_open_documents s docs cur w = Some (tt, w')
    /\ trace w' = (trace w ++ t)%list
    /\ Forall2 (announces s) (announced srv cur table docs) t
    /\ open_docs w' = Some (list_to_set (doc_id <$> announced srv cur table docs) ∪ table)
    /\ heap w' = heap w /\ lsp_servers w' = lsp_servers w.
Proof.
  intros Hen Hl Ha Hs Href Hss Hp. revert w table Hl Hs.
  induction docs as [|doc rest IH]; intros w table Hl Hs Ho Hnd.
  - exists w, []. split; [reflexivity|]. rewrite app_nil_r.
    cbn [announced List.filter fmap list_fmap list_to_set].
    split; [done|]. split; [constructor|]. split; [|done].
    rewrite Ho. f_equal. set_solver.
  - apply NoDup_cons in Hnd as [Hfresh Hnd]. cbn [fmap list_fmap] in Hfresh.
    cbn [replay_open_documents]. rewrite (bind_deref _ _ _ _ Hs).
    (* the rest of the list does not mention the document *)
    assert (Hrest : forall T, announced srv cur ({[doc_id doc]} ∪ T) rest = announced srv cur T rest).
    { intros T. unfold announced. apply List.filter_ext_in. intros d Hd. f_equal. f_equal.
      apply bool_decide_ext. split; [|set_solver].
      intros [Hin%elem_of_singleton|Hin]%elem_of_union; [|done].
      exfalso. apply Hfresh. rewrite <- Hin. apply list_elem_of_fmap.
      exists d. split; [done | by apply list_elem_of_In]. }
    unfold announced at 1 2. cbn [List.filter]. fold (announced srv cur table rest).
    unfold replayed at 1 2.
    destruct (Nat.eqb (file_type doc) (filetype srv)) eqn:Eft; cbn [andb];
      [|rewrite bind_mret; by apply IH].
    apply Nat.eqb_eq in Eft.
    destruct (changed doc || bool_decide (cur = Some (doc_id doc))); cbn [andb];
      [|rewrite bind_mret; by apply IH].
    unfold mbind at 1 2, M_bind at 1 2.
    rewrite (get_if_running_registered doc w servers s srv Hen Hl) by (by rewrite ?Eft).
    destruct (is_lsp_valid_for_doc (config srv) (Some doc)); cbn [andb]; [|by apply IH].
    destruct (decide (doc_id doc ∈ table)) as [Hin|Hout].
    + rewrite (did_open_when_open s doc w table Ho Hin).
      rewrite bool_decide_eq_true_2 by exact Hin. cbn [negb]. by apply IH.
    + destruct (did_open_sends s doc w table Ho Hout) as (w1 & e & E1 & He & Ht1 & Ho1 & Hh1 & Hl1).
      rewrite E1, bool_decide_eq_false_2 by exact Hout. cbn [negb].
      destruct (IH w1 ({[doc_id doc]} ∪ table)) as (w' & t & E & Ht & Hall & Ho' & Hh' & Hl');
        [by rewrite Hl1 | by rewrite Hh1 | exact Ho1 | exact Hnd |].
      rewrite Hrest in *.
      exists w', (e :: t). split; [exact E|].
      split; [by rewrite Ht, Ht1, <- app_assoc|]. split; [by constructor|].
      split; [|by rewrite Hh', Hl', Hh1, Hl1].
      rewrite Ho'. cbn [fmap list_fmap list_to_set]. f_equal. set_solver.
Qed.

(** X17: which documents a freshly initialized server is told about.  After
    a successful initialize of the session registered for a file type, the
    client sends the initialized notification, sets the semantic tokens of
    the file type up, and then sends one didOpen, to this session and in
    document order, for every document of that file type that is modified
    or current, that the project policy admits and that is not open yet;
    every such document is recorded as open.  Documents of the file type
    that are neither modified nor current are not announced. *)
Theorem initialize_announces_documents rv s docs cur spawn w servers srv table :
  lsp_utils_is_lsp_disabled_for_project = false ->
  lsp_servers w = Some servers -> servers !! filetype srv = Some s ->
  heap w !! s = Some srv -> referenced srv = None -> is_Some (srv_process srv) ->
  open_docs w = Some table -> NoDup (doc_id <$> docs) ->
  exists w' t,
    exec (initialize_cb (Reply rv) s docs cur spawn) w = Some w'
    /\ trace w' = (trace w ++ [ClientNotify s "initialized"; SemtokensInit (filetype srv)]
                           ++ t)%list
    /\ Forall2 (announces s) (announced srv cur table docs) t
    /\ open_docs w' = Some (list_to_set (doc_id <$> announced srv cur table docs) ∪ table).
Proof.
  intros Hen Hl Ha Hs Href Hp Ho Hnd.
  unfold initialize_cb. setoid_rewrite exec_unit.
  rewrite (world_at _ _ _ Hs).
  destruct (EMPTY (Some (get_autocomplete_trigger_chars rv))) eqn:Ea;
  destruct (EMPTY (Some (get_signature_trigger_chars rv))) eqn:Eg;
  destruct (supports_semantic_tokens rv) eqn:Et; cbn [negb];
  repeat first [ rewrite bind_mret | rewrite emit_at | rewrite modify_at | rewrite deref_at ];
  match goal with
  | |- exists w' t, replay_open_documents _ _ _ ?W = _ /\ _ =>
      match W with
      | context [<[s := ?srv1]> (heap w)] =>
          destruct (replay_spec s docs cur W servers srv1 table Hen Hl Ha
                      (lookup_insert_eq _ _ _) Href eq_refl Hp Ho Hnd)
            as (w' & t & E & Ht & Hall & Ho' & _);
          exists w', t; split; [exact E|];
          split; [rewrite Ht; cbn [trace]; rewrite <- !app_assoc; reflexivity|];
          split; [exact Hall | exact Ho']
      end
  end.
Qed.

End Replay.

Lemma initialize_announces_documents_witness :
  exists w' t,
    exec (initialize_cb (H := Scenario.host) (Reply Scenario.reply_incremental) 0%nat
            [Scenario.widget_vala; Scenario.main_c; Scenario.untitled] (Some 1%nat) None)
      Scenario.c_starting = Some w'
    /\ trace w' = (trace Scenario.c_starting
                     ++ [ClientNotify 0%nat "initialized"; SemtokensInit Scenario.ft_C]
                     ++ t)%list
    /\ Forall2 (announces (H := Scenario.host) 0%nat) [Scenario.main_c] t
    /\ open_docs w' = Some ({[1%nat]} ∪ ∅).
Proof.
  destruct (initialize_announces_documents (H := Scenario.host) Scenario.reply_incremental
              0%nat [Scenario.widget_vala; Scenario.main_c; Scenario.untitled] (Some 1%nat) None
              Scenario.c_starting [0; 1; 2; 3; 4]%nat Scenario.clangd_starting ∅)
    as (w' & t & E & Ht & Hann & Ho).
  - reflexivity.
  - vm_compute. reflexivity.
  - vm_compute. reflexivity.
  - vm_compute. reflexivity.
  - vm_compute. reflexivity.
  - exists 100%nat. vm_compute. reflexivity.
  - vm_compute. reflexivity.
  - apply (bool_decide_unpack _). vm_compute. reflexivity.
  - assert (Ha : announced (H := Scenario.host) Scenario.clangd_starting (Some 1%nat) ∅
                   [Scenario.widget_vala; Scenario.main_c; Scenario.untitled]
                 = [Scenario.main_c]) by (vm_compute; reflexivity).
    rewrite Ha in Hann, Ho.
    exists w', t. split; [exact E|]. split; [exact Ht|]. split; [exact Hann|].
    rewrite Ho. reflexivity.
Defined.

(** ** What a restart keeps *)

Section Restart.

Context `{Host}.

Lemma started_fresh spawn k ft :
  let srv' := started spawn (set_restarts k (lsp_server_new ft)) in
  config srv' = load_server_config ft /\ filetype srv' = ft /\ restarts srv' = k + 1
  /\ referenced srv' = None /\ not_used srv' = false
  /\ autocomplete_trigger_chars srv' = None /\ signature_trigger_chars srv' = None
  /\ initialize_response srv' = None
  /\ (srv_process srv' = None \/ srv_process srv' = spawn).
Proof.
  unfold started. cbn [restarts set_restarts lsp_server_new].
  destruct (k + 1 >? 5); [|destruct spawn]; repeat split; auto.
Qed.

(** X18: a restart keeps the restart counter and nothing else.  When the
    initialize of a session fails, the session is not started again: a new
    struct takes its slot in the registry.  The new session is built from
    the configuration alone: it has the feature switches of the
    configuration, no trigger characters, no initialize response, no
    cached link to another session and no not-used mark; only the counter
    is carried over, plus 1 for the start.  The old struct is not freed:
    it is sent the shutdown request, before anything is launched, and
    lives on, marked as in a handshake, in servers_in_shutdown. *)
Theorem restart_keeps_only_the_counter s docs cur spawn w srv servers :
  heap w !! s = Some srv -> lsp_servers w = Some servers ->
  (filetype srv < length servers)%nat -> (filetype srv < filetypes_count)%nat ->
  fits_gint (restarts srv + 1) -> s <> next_addr w ->
  exists w' srv' t,
    exec (initialize_cb Failure s docs cur spawn) w = Some w'
    /\ lsp_servers w' = Some (<[filetype srv := next_addr w]> servers)
    /\ heap w' !! next_addr w = Some srv'
    /\ config srv' = load_server_config (filetype srv)
    /\ restarts srv' = restarts srv + 1
    /\ referenced srv' = None /\ not_used srv' = false
    /\ autocomplete_trigger_chars srv' = None /\ signature_trigger_chars srv' = None
    /\ initialize_response srv' = None
    /\ heap w' !! s = Some (set_startup_shutdown true srv)
    /\ servers_in_shutdown w' = (servers_in_shutdown w ++ [s])%list
    /\ trace w' = (trace w ++ ClientCall s "shutdown" :: t)%list.
Proof.
  intros Hs Hl Hlen Hft Hfit Hne.
  destruct (started_fresh spawn (restarts srv) (filetype srv))
    as (Hc & _ & Hr & Href & Hnu & Ha & Hg & Hi & _).
  set (w1 := set_trace (trace w ++ [ClientCall s "shutdown"])
               (set_servers_in_shutdown (servers_in_shutdown w ++ [s])
                  (set_heap (<[s := set_startup_shutdown true srv]> (heap w)) w))).
  destruct (replace_and_start_spec (filetype srv) (restarts srv) spawn w1 servers
              Hl Hlen Hft Hfit) as (w' & E & Hh & Ht & Hls & Hsis).
  exists w'. eexists. eexists. split.
  { apply exec_unit. unfold initialize_cb. rewrite (bind_deref _ _ _ _ Hs).
    unfold mbind at 1, M_bind at 1. rewrite (stop_process_spec _ _ _ Hs). exact E. }
  split; [exact Hls|].
  split; [rewrite Hh; apply lookup_insert_eq|].
  do 7 (split; [eassumption|]).
  split.
  { rewrite Hh. change (next_addr w1) with (next_addr w).
    rewrite lookup_insert_ne by done. apply lookup_insert_eq. }
  split; [exact Hsis|].
  rewrite Ht. cbn [trace w1 set_trace]. rewrite <- app_assoc. reflexivity.
Qed.

End Restart.

Lemma restart_keeps_only_the_counter_witness :
  exists w' srv' t,
    exec (initialize_cb (H := Scenario.host) Failure 0%nat [Scenario.main_c] (Some 1%nat)
            (Some 101%nat)) Scenario.c_starting = Some w'
    /\ lsp_servers w' = Some [5; 1; 2; 3; 4]%nat
    /\ heap w' !! 5%nat = Some srv'
    /\ config srv' = Scenario.configs Scenario.ft_C
    /\ restarts srv' = 2
    /\ heap w' !! 0%nat = Some (set_startup_shutdown true Scenario.clangd_starting)
    /\ servers_in_shutdown w' = [0%nat]
    /\ trace w' = (trace Scenario.c_starting ++ ClientCall 0%nat "shutdown" :: t)%list.
Proof.
  destruct (restart_keeps_only_the_counter (H := Scenario.host) 0%nat [Scenario.main_c]
              (Some 1%nat) (Some 101%nat) Scenario.c_starting Scenario.clangd_starting
              [0; 1; 2; 3; 4]%nat)
    as (w' & srv' & t & E & Hl & Hs & Hc & Hr & _ & _ & _ & _ & _ & Hold & Hsis & Ht).
  - vm_compute. reflexivity.
  - vm_compute. reflexivity.
  - vm_compute. lia.
  - vm_compute. lia.
  - vm_compute. split; discriminate.
  - vm_compute. discriminate.
  - exists w', srv', t. split; [exact E|].
    split; [rewrite Hl; vm_compute; reflexivity|]. split; [exact Hs|].
    split; [exact Hc|]. split; [rewrite Hr; vm_compute; reflexivity|].
    split; [exact Hold|]. split; [rewrite Hsis; vm_compute; reflexivity | exact Ht].
Defined.

(** ** The layers of the configuration *)

Module KeyFileFacts.

Import KeyFile.

(** What one loader does to each family of members. *)
Lemma bools_get_bool dest kf section key c m :
  bools (get_bool dest kf section key c) m =
    default (bools c m)
      (if decide (m = dest) then g_key_file_get_boolean kf section key else None).
Proof.
  unfold get_bool. destruct (g_key_file_get_boolean kf section key); cbn [bools default];
    by destruct (decide (m = dest)).
Qed.

Lemma ints_get_int dest kf section key c m :
  ints (get_int dest kf section key c) m =
    default (ints c m)
      (if decide (m = dest) then g_key_file_get_integer kf section key else None).
Proof.
  unfold get_int. destruct (g_key_file_get_integer kf section key); cbn [ints default];
    by destruct (decide (m = dest)).
Qed.

Lemma strs_get_str dest kf section key c m :
  strs (get_str dest kf section key c) m =
    from_option Some (strs c m)
      (if decide (m = dest) then g_key_file_get_string kf section key else None).
Proof.
  unfold get_str. destruct (g_key_file_get_string kf section key); cbn [strs from_option];
    by destruct (decide (m = dest)).
Qed.

Lemma strvs_get_strv dest kf section key c m :
  strvs (get_strv dest kf section key c) m =
    from_option Some (strvs c m)
      (if decide (m = dest) then g_key_file_get_string_list kf section key else None).
Proof.
  unfold get_strv. destruct (g_key_file_get_string_list kf section key);
    cbn [strvs from_option]; by destruct (decide (m = dest)).
Qed.

Lemma bools_get_int dest kf section key c : bools (get_int dest kf section key c) = bools c.
Proof. unfold get_int. by destruct (g_key_file_get_integer kf section key). Qed.

Lemma bools_get_str dest kf section key c : bools (get_str dest kf section key c) = bools c.
Proof. unfold get_str. by destruct (g_key_file_get_string kf section key). Qed.

Lemma bools_get_strv dest kf section key c : bools (get_strv dest kf section key c) = bools c.
Proof. unfold get_strv. by destruct (g_key_file_get_string_list kf section key). Qed.

Lemma ints_get_bool dest kf section key c : ints (get_bool dest kf section key c) = ints c.
Proof. unfold get_bool. by destruct (g_key_file_get_boolean kf section key). Qed.

Lemma ints_get_str dest kf section key c : ints (get_str dest kf section key c) = ints c.
Proof. unfold get_str. by destruct (g_key_file_get_string kf section key). Qed.

Lemma ints_get_strv dest kf section key c : ints (get_strv dest kf section key c) = ints c.
Proof. unfold get_strv. by destruct (g_key_file_get_string_list kf section key). Qed.

Lemma strs_get_bool dest kf section key c : strs (get_bool dest kf section key c) = strs c.
Proof. unfold get_bool. by destruct (g_key_file_get_boolean kf section key). Qed.

Lemma strs_get_int dest kf section key c : strs (get_int dest kf section key c) = strs c.
Proof. unfold get_int. by destruct (g_key_file_get_integer kf section key). Qed.

Lemma strs_get_strv dest kf section key c : strs (get_strv dest kf section key c) = strs c.
Proof. unfold get_strv. by destruct (g_key_file_get_string_list kf section key). Qed.

Lemma strvs_get_bool dest kf section key c : strvs (get_bool dest kf section key c) = strvs c.
Proof. unfold get_bool. by destruct (g_key_file_get_boolean kf section key). Qed.

Lemma strvs_get_int dest kf section key c : strvs (get_int dest kf section key c) = strvs c.
Proof. unfold get_int. by destruct (g_key_file_get_integer kf section key). Qed.

Lemma strvs_get_str dest kf section key c : strvs (get_str dest kf section key c) = strvs c.
Proof. unfold get_str. by destruct (g_key_file_get_string kf section key). Qed.

Ltac loaders :=
  repeat first
    [ rewrite bools_get_int | rewrite bools_get_str | rewrite bools_get_strv
    | rewrite ints_get_bool | rewrite ints_get_str | rewrite ints_get_strv
    | rewrite strs_get_bool | rewrite strs_get_int | rewrite strs_get_strv
    | rewrite strvs_get_bool | rewrite strvs_get_int | rewrite strvs_get_str
    | rewrite bools_get_bool | rewrite ints_get_int | rewrite strs_get_str
    | rewrite strvs_get_strv ].

(** One pass of [load_config], member by member. *)
Lemma load_config_bools kf section c m :
  bools (load_config kf section c) m =
    default (bools c m) (g_key_file_get_boolean kf section (bool_key m)).
Proof. unfold load_config. loaders. destruct m; reflexivity. Qed.

Lemma load_config_ints kf section c m :
  ints (load_config kf section c) m =
    default (ints c m) (g_key_file_get_integer kf section (int_key m)).
Proof. unfold load_config. loaders. destruct m; reflexivity. Qed.

Lemma load_config_strs kf section c m :
  strs (load_config kf section c) m =
    from_option Some (strs c m)
      (if str_filetype_only m then None
       else g_key_file_get_string kf section (str_key m)).
Proof. unfold load_config. loaders. destruct m; reflexivity. Qed.

Lemma load_config_strvs kf section c m :
  strvs (load_config kf section c) m =
    from_option Some (strvs c m)
      (if strv_filetype_only m then None
       else g_key_file_get_string_list kf section (strv_key m)).
Proof. unfold load_config. loaders. destruct m; reflexivity. Qed.

Lemma load_filetype_only_config_bools kf section c :
  bools (load_filetype_only_config kf section c) = bools c.
Proof. unfold load_filetype_only_config. by loaders. Qed.

Lemma load_filetype_only_config_ints kf section c :
  ints (load_filetype_only_config kf section c) = ints c.
Proof. unfold load_filetype_only_config. by loaders. Qed.

Lemma load_filetype_only_config_strs kf section c m :
  strs (load_filetype_only_config kf section c) m =
    from_option Some (strs c m)
      (if str_filetype_only m then g_key_file_get_string kf section (str_key m)
       else None).
Proof. unfold load_filetype_only_config. loaders. destruct m; reflexivity. Qed.

Lemma load_filetype_only_config_strvs kf section c m :
  strvs (load_filetype_only_config kf section c) m =
    from_option Some (strvs c m)
      (if strv_filetype_only m then g_key_file_get_string_list kf section (strv_key m)
       else None).
Proof. unfold load_filetype_only_config. loaders. destruct m; reflexivity. Qed.

(** X19: where a configuration value comes from.  In the configuration
    lsp_server_new builds, every switch, number, style and list takes the
    first value found in: the section of the file type in the user file,
    the section [all] in the user file, the section of the file type in
    the global file, the section [all] in the global file; a switch or
    number whose key is missing or does not parse in all four is 0, a
    string or list is NULL.  The command, the environment, the reference
    language, the log file and the initialization options file are looked
    for in the two sections of the file type only: what [all] says about
    them is ignored. *)
Theorem configuration_is_layered kf_global kf ft_name :
  (forall m,
     bools (lsp_server_new kf_global kf ft_name) m =
       default false (first_of (layers g_key_file_get_boolean kf_global kf ft_name (bool_key m))))
  /\ (forall m,
        ints (lsp_server_new kf_global kf ft_name) m =
          default 0 (first_of (layers g_key_file_get_integer kf_global kf ft_name (int_key m))))
  /\ (forall m,
        strs (lsp_server_new kf_global kf ft_name) m =
          first_of ((if str_filetype_only m then filetype_layers else layers)
                      g_key_file_get_string kf_global kf ft_name (str_key m)))
  /\ (forall m,
        strvs (lsp_server_new kf_global kf ft_name) m =
          first_of ((if strv_filetype_only m then filetype_layers else layers)
                      g_key_file_get_string_list kf_global kf ft_name (strv_key m))).
Proof.
  unfold lsp_server_new, layers, filetype_layers.
  split; [|split; [|split]]; intros m.
  - rewrite !load_filetype_only_config_bools, !load_config_bools.
    cbn [first_of zeroed bools].
    destruct (g_key_file_get_boolean kf ft_name (bool_key m)); [reflexivity|].
    destruct (g_key_file_get_boolean kf "all" (bool_key m)); [reflexivity|].
    destruct (g_key_file_get_boolean kf_global ft_name (bool_key m)); [reflexivity|].
    by destruct (g_key_file_get_boolean kf_global "all" (bool_key m)).
  - rewrite !load_filetype_only_config_ints, !load_config_ints.
    cbn [first_of zeroed ints].
    destruct (g_key_file_get_integer kf ft_name (int_key m)); [reflexivity|].
    destruct (g_key_file_get_integer kf "all" (int_key m)); [reflexivity|].
    destruct (g_key_file_get_integer kf_global ft_name (int_key m)); [reflexivity|].
    by destruct (g_key_file_get_integer kf_global "all" (int_key m)).
  - rewrite !load_filetype_only_config_strs, !load_config_strs.
    destruct (str_filetype_only m); cbn [first_of zeroed strs from_option].
    + destruct (g_key_file_get_string kf ft_name (str_key m)); [reflexivity|].
      by destruct (g_key_file_get_string kf_global ft_name (str_key m)).
    + destruct (g_key_file_get_string kf ft_name (str_key m)); [reflexivity|].
      destruct (g_key_file_get_string kf "all" (str_key m)); [reflexivity|].
      destruct (g_key_file_get_string kf_global ft_name (str_key m)); [reflexivity|].
      by destruct (g_key_file_get_string kf_global "all" (str_key m)).
  - rewrite !load_filetype_only_config_strvs, !load_config_strvs.
    destruct (strv_filetype_only m); cbn [first_of zeroed strvs from_option].
    + destruct (g_key_file_get_string_list kf ft_name (strv_key m)); [reflexivity|].
      by destruct (g_key_file_get_string_list kf_global ft_name (strv_key m)).
    + destruct (g_key_file_get_string_list kf ft_name (strv_key m)); [reflexivity|].
      destruct (g_key_file_get_string_list kf "all" (strv_key m)); [reflexivity|].
      destruct (g_key_file_get_string_list kf_global ft_name (strv_key m)); [reflexivity|].
      by destruct (g_key_file_get_string_list kf_global "all" (strv_key m)).
Qed.

End KeyFileFacts.

(** ** Goto requests and their replies *)

Module GotoFacts.

Import Goto.

Section WithHosts.

Context `{Host} `{GotoHost}.

Lemma count_loads_app fname t1 t2 :
  count_loads fname (t1 ++ t2) = (count_loads fname t1 + count_loads fname t2)%nat.
Proof. unfold count_loads. by rewrite List.filter_app, length_app. Qed.

Lemma listed_lines_app t1 t2 : listed_lines (t1 ++ t2) = (listed_lines t1 ++ listed_lines t2)%list.
Proof. unfold listed_lines. apply omap_app. Qed.

Lemma grown_grown st t1 t2 : grown (grown st t1) t2 = grown st (t1 ++ t2).
Proof. unfold grown. cbn. by rewrite <- app_assoc. Qed.

Lemma bind_mret_G {A B} (x : A) (k : A -> G B) st : (mret x ≫= k) st = k x st.
Proof. reflexivity. Qed.

Lemma add_message_spec fname widget lineno st :
  exists t,
    add_message fname widget lineno st = (tt, grown st t)
    /\ Forall (fun e => navigates e = false) t
    /\ listed_lines t = [to_gint (lineno + 1)]
    /\ forall f, count_loads f t = 0%nat.
Proof.
  unfold add_message. destruct lsp_utils_get_project_base_path as [base|].
  - eexists [_; _]. split; [unfold mbind, G_bind, call, mret, G_ret, grown; cbn;
                             by rewrite <- app_assoc|].
    split; [by repeat constructor|]. by split.
  - eexists [_]. split; [reflexivity|]. split; [by repeat constructor|]. by split.
Qed.

(** The search for the widget reads the file only when no open document
    and no entry of the table has it. *)
Lemma find_widget_spec fname table st :
  let cached := bool_decide (is_Some (document_find_by_filename fname))
                || bool_decide (is_Some (table !! fname)) in
  exists widget table',
    find_widget fname (Some table) st
      = ((widget, Some table'), grown st (if cached then [] else [NewSciFromFile fname]))
    /\ (forall f, table' !! f =
          if negb cached && String.eqb fname f
          then lsp_utils_new_sci_from_file fname else table !! f).
Proof.
  intros cached. unfold find_widget.
  assert (Hsame : grown st [] = st) by (destruct st; unfold grown; cbn; by rewrite app_nil_r).
  destruct (document_find_by_filename fname) as [widget|] eqn:Edoc.
  - subst cached. rewrite bool_decide_eq_true_2 by (by eexists). cbn [orb negb andb].
    exists (Some widget), table. by rewrite Hsame.
  - cbn [mbind option_bind].
    destruct (table !! fname) as [widget|] eqn:Etab.
    + subst cached. rewrite (bool_decide_eq_true_2 (is_Some (Some widget))) by (by eexists).
      rewrite orb_true_r. cbn [negb andb].
      exists (Some widget), table. by rewrite Hsame.
    + subst cached. rewrite !bool_decide_eq_false_2 by (by intros [? ?]).
      cbn [orb negb andb].
      unfold mbind, G_bind, call.
      destruct (lsp_utils_new_sci_from_file fname) as [widget|] eqn:Enew;
        unfold mret, G_ret; cbn [fmap option_fmap option_map].
      * exists (Some widget), (<[fname := widget]> table). split; [reflexivity|].
        intros f. destruct (String.eqb fname f) eqn:Ef.
        -- apply String.eqb_eq in Ef as <-. apply lookup_insert_eq.
        -- apply String.eqb_neq in Ef. by apply lookup_insert_ne.
      * exists None, table. split; [reflexivity|].
        intros f. destruct (String.eqb fname f) eqn:Ef; [|reflexivity].
        apply String.eqb_eq in Ef as <-. exact Etab.
Qed.

(** One line of the listing: what it calls, and what it does to the table
    of widgets. *)
Lemma show_in_msgwin_spec loc table st :
  let fname := lsp_utils_get_real_path_from_uri_utf8 (uri loc) in
  let cached := bool_decide (is_Some (document_find_by_filename fname))
                || bool_decide (is_Some (table !! fname)) in
  exists table' t,
    show_in_msgwin loc (Some table) st = (Some table', grown st t)
    /\ Forall (fun e => navigates e = false) t
    /\ listed_lines t = [listed_line loc]
    /\ (forall f, count_loads f t =
          if negb cached && String.eqb fname f then 1%nat else 0%nat)
    /\ (forall f, table' !! f =
          if negb cached && String.eqb fname f
          then lsp_utils_new_sci_from_file fname else table !! f).
Proof.
  intros fname cached. unfold show_in_msgwin. fold fname.
  destruct (find_widget_spec fname table st) as (widget & table' & E1 & Htab).
  fold cached in E1, Htab.
  unfold mbind at 1, G_bind at 1. rewrite E1. cbn [fst snd].
  destruct (add_message_spec fname widget (to_gint (line (start (range loc))))
              (grown st (if cached then [] else [NewSciFromFile fname])))
    as (t2 & E2 & Hnav & Hlines & Hloads).
  unfold mbind, G_bind. rewrite E2, grown_grown. unfold mret, G_ret.
  exists table', ((if cached then [] else [NewSciFromFile fname]) ++ t2)%list.
  split; [reflexivity|].
  split; [apply Forall_app; split; [destruct cached; by repeat constructor | exact Hnav]|].
  split; [rewrite listed_lines_app, Hlines; by destruct cached|].
  split; [|exact Htab].
  intros f. rewrite count_loads_app, Hloads, Nat.add_0_r.
  destruct cached; cbn [negb andb]; [reflexivity|].
  unfold count_loads. cbn. by destruct (String.eqb fname f).
Qed.

Lemma show_all_in_msgwin_spec locations table st :
  exists t,
    show_all_in_msgwin locations table st = (tt, grown st t)
    /\ Forall (fun e => navigates e = false) t
    /\ listed_lines t = listed_line <$> locations
    /\ forall f,
         (is_Some (document_find_by_filename f) \/ is_Some (table !! f) ->
          count_loads f t = 0%nat)
         /\ (is_Some (lsp_utils_new_sci_from_file f) -> (count_loads f t <= 1)%nat).
Proof.
  revert table st. induction locations as [|loc rest IH]; intros table st.
  - exists []. split; [unfold grown; destruct st; cbn; by rewrite app_nil_r|].
    split; [constructor|]. split; [reflexivity|]. intros f. split; intros _; cbn; lia.
  - cbn [show_all_in_msgwin].
    destruct (show_in_msgwin_spec loc table st) as (table' & t1 & E1 & Hnav1 & Hl1 & Hc1 & Htab).
    set (fname := lsp_utils_get_real_path_from_uri_utf8 (uri loc)) in *.
    set (cached := bool_decide (is_Some (document_find_by_filename fname))
                   || bool_decide (is_Some (table !! fname))) in *.
    unfold mbind, G_bind. rewrite E1. cbn [default].
    destruct (IH table' (grown st t1)) as (t2 & E2 & Hnav2 & Hl2 & Hc2).
    unfold id. rewrite E2, grown_grown.
    exists (t1 ++ t2)%list. split; [reflexivity|].
    split; [by apply Forall_app|].
    split; [by rewrite listed_lines_app, Hl1, Hl2|].
    intros f. rewrite count_loads_app, Hc1. destruct (Hc2 f) as [Hzero Hone].
    rewrite (Htab f) in Hzero.
    destruct (negb cached && String.eqb fname f) eqn:Efresh.
    + apply andb_true_iff in Efresh as [Hnc Ef]. apply String.eqb_eq in Ef. subst f.
      apply negb_true_iff in Hnc. subst cached. apply orb_false_iff in Hnc as [Hdoc Htb].
      apply bool_decide_eq_false_1 in Hdoc. apply bool_decide_eq_false_1 in Htb.
      split; [intros [?|?]; done|].
      intros Hload. rewrite Hzero by (by right). lia.
    + split.
      * intros Hc. rewrite Hzero; [lia|]. destruct Hc as [Hd|Ht]; [by left | by right].
      * intros Hload. specialize (Hone Hload). lia.
Qed.

(** X20: a listing reads every file at most once.  When the reply to a
    request for implementations or references lists locations, a file that
    is open in the editor is never read from disk, and a file that is not
    open and can be read is read once, however many of the locations lie
    in it. *)
Theorem listing_reads_each_file_once items locations documents data st f :
  goto_show_in_msgwin data = true -> goto_doc data ∈ documents ->
  lsp_utils_parse_locations items = Some locations ->
  exists t,
    goto_cb (Reply (JArray items)) documents data st = (tt, grown st t)
    /\ (is_Some (document_find_by_filename f) -> count_loads f t = 0%nat)
    /\ (is_Some (lsp_utils_new_sci_from_file f) -> (count_loads f t <= 1)%nat).
Proof.
  intros Hshow Hdoc Hparse. unfold goto_cb.
  rewrite bool_decide_eq_true_2 by exact Hdoc. rewrite Hshow, Hparse.
  unfold mbind at 1, G_bind at 1, mbind at 1, G_bind at 1, call.
  cbn [last_result goto_trace].
  set (st1 := {| last_result := last_result st;
                 goto_trace := (goto_trace st ++ [MsgwinClearTab]) ++ [MsgwinSwitchTab] |}).
  assert (Est1 : st1 = grown st [MsgwinClearTab; MsgwinSwitchTab])
    by (unfold st1, grown; by rewrite <- app_assoc).
  destruct locations as [|first others].
  - exists [MsgwinClearTab; MsgwinSwitchTab]. split; [by rewrite <- Est1|].
    split; intros _; cbn; lia.
  - destruct (show_all_in_msgwin_spec (first :: others) ∅ st1) as (t & E & _ & _ & Hc).
    cbv beta iota. rewrite E, Est1, grown_grown.
    exists ([MsgwinClearTab; MsgwinSwitchTab] ++ t)%list. split; [reflexivity|].
    rewrite count_loads_app. destruct (Hc f) as [Hzero Hone].
    split; [intros Hd; rewrite Hzero by (by left); reflexivity|].
    intros Hload. specialize (Hone Hload). cbn. lia.
Qed.

(** X21: a listing never navigates.  The reply to a request for
    implementations or references, for a document that still exists,
    clears the message tab and switches to it, also when the reply names no
    location; it then adds one line per location, in the order of the
    reply and with the line numbers counted from 1; it opens no file, moves
    no cursor, does not raise the goto panel and leaves last_result as it
    is. *)
Theorem listing_never_navigates return_value documents data st :
  goto_show_in_msgwin data = true -> goto_doc data ∈ documents ->
  exists t,
    goto_cb (Reply return_value) documents data st
      = (tt, grown st ([MsgwinClearTab; MsgwinSwitchTab] ++ t))
    /\ Forall (fun e => navigates e = false) t
    /\ listed_lines t = listed_line <$> reply_locations return_value.
Proof.
  intros Hshow Hdoc. unfold goto_cb, reply_locations.
  rewrite bool_decide_eq_true_2 by exact Hdoc. rewrite Hshow.
  unfold mbind at 1, G_bind at 1, mbind at 1, G_bind at 1, call.
  cbn [last_result goto_trace].
  set (st1 := {| last_result := last_result st;
                 goto_trace := (goto_trace st ++ [MsgwinClearTab]) ++ [MsgwinSwitchTab] |}).
  assert (Est1 : st1 = grown st [MsgwinClearTab; MsgwinSwitchTab])
    by (unfold st1, grown; by rewrite <- app_assoc).
  assert (Hnothing : (mret tt : G unit) st1
                     = (tt, grown st ([MsgwinClearTab; MsgwinSwitchTab] ++ [])))
    by (by rewrite app_nil_r, <- Est1).
  destruct return_value as [|b|n|lexeme|str|items|members];
    try (exists []; split; [exact Hnothing|]; split; [constructor | reflexivity]).
  - destruct (lsp_utils_parse_locations items) as [[|first others]|];
      try (exists []; split; [exact Hnothing|]; split; [constructor | reflexivity]).
    destruct (show_all_in_msgwin_spec (first :: others) ∅ st1) as (t & E & Hnav & Hl & _).
    cbv beta iota. rewrite E, Est1, grown_grown. by exists t.
  - destruct (lsp_utils_parse_location (JObject members)) as [loc|];
      [|exists []; split; [exact Hnothing|]; split; [constructor | reflexivity]].
    unfold show_in_msgwin.
    assert (Hfind : exists found t1,
              find_widget (lsp_utils_get_real_path_from_uri_utf8 (uri loc)) None st1
                = (found, grown st1 t1)
              /\ Forall (fun e => navigates e = false) t1 /\ listed_lines t1 = []).
    { unfold find_widget. destruct (document_find_by_filename _).
      - eexists _, []. split; [unfold grown; destruct st1; cbn; by rewrite app_nil_r|].
        by split.
      - cbn [mbind option_bind]. unfold mbind, G_bind, call.
        destruct (lsp_utils_new_sci_from_file _);
          (eexists _, [_]; split; [reflexivity|]; split; [by repeat constructor | reflexivity]). }
    destruct Hfind as (found & t1 & E1 & Hnav1 & Hl1).
    destruct (add_message_spec (lsp_utils_get_real_path_from_uri_utf8 (uri loc)) (fst found)
                (to_gint (line (start (range loc)))) (grown st1 t1))
      as (t2 & E2 & Hnav2 & Hl2 & _).
    unfold mbind, G_bind. rewrite E1, E2. unfold mret, G_ret.
    rewrite Est1, !grown_grown.
    exists (t1 ++ t2)%list. split; [reflexivity|]. split; [by apply Forall_app|].
    rewrite listed_lines_app, Hl1, Hl2. reflexivity.
Qed.

Lemma goto_location_spec old_doc loc st :
  goto_location old_doc loc st =
    (tt, grown st (DocumentOpenFile (lsp_utils_get_real_path_from_uri_locale (uri loc))
                   :: match document_open_file
                              (lsp_utils_get_real_path_from_uri_locale (uri loc)) with
                      | Some doc => [NavqueueGotoLine old_doc doc (shown_line loc)]
                      | None => []
                      end)).
Proof.
  unfold goto_location, mbind, G_bind, call, grown.
  destruct (document_open_file _); cbn [mret G_ret last_result goto_trace]; [|reflexivity].
  by rewrite <- app_assoc.
Qed.

(** X22: what the reply to a goto request does.  A reply that is an error,
    or that arrives when the document the request was made for is gone,
    does nothing.  Otherwise the reply to a request for a definition, a
    declaration or a type definition that names one location opens its
    file and, if the file opens, moves there, to the line counted from 1;
    one that names several replaces last_result by one symbol per
    location, in the order of the reply, and raises the goto panel; one
    that names none does nothing. *)
Theorem goto_reply_dispatch return_value documents data st :
  goto_cb Failure documents data st = (tt, st)
  /\ (goto_doc data ∉ documents -> goto_cb (Reply return_value) documents data st = (tt, st))
  /\ (goto_show_in_msgwin data = false -> goto_doc data ∈ documents ->
      goto_cb (Reply return_value) documents data st =
        match reply_locations return_value with
        | [] => (tt, st)
        | [loc] =>
            (tt, grown st (DocumentOpenFile (lsp_utils_get_real_path_from_uri_locale (uri loc))
                           :: match document_open_file
                                      (lsp_utils_get_real_path_from_uri_locale (uri loc)) with
                              | Some doc => [NavqueueGotoLine (goto_doc data) doc (shown_line loc)]
                              | None => []
                              end))
        | locations =>
            (tt, {| last_result := Some (panel_symbol <$> locations);
                    goto_trace := (goto_trace st ++ [GotoPanelShow ""])%list |})
        end).
Proof.
  split; [reflexivity|]. split.
  - intros Hgone. unfold goto_cb. by rewrite bool_decide_eq_false_2.
  - intros Hshow Hdoc. unfold goto_cb, reply_locations.
    rewrite bool_decide_eq_true_2 by exact Hdoc. rewrite Hshow.
    rewrite bind_mret_G.
    destruct return_value as [|b|n|lexeme|str|items|members]; try reflexivity.
    + destruct (lsp_utils_parse_locations items) as [[|first [|second others]]|];
        cbn [default option_list length Nat.eqb]; try reflexivity.
      apply goto_location_spec.
    + destruct (lsp_utils_parse_location (JObject members)) as [loc|]; [|reflexivity].
      apply goto_location_spec.
Qed.

Lemma lsp_server_get_live doc spawn w a w' :
  lsp_server_get doc spawn w = Some (Some a, w') ->
  is_Some doc /\ is_Some (heap w' !! a).
Proof.
  unfold lsp_server_get, server_get_for_doc. destruct doc as [d|]; [|discriminate].
  intros E. apply bind_Some in E as (r & w1 & _ & E). destruct r as [a'|]; [|discriminate].
  apply bind_Some in E as (srv & w2 & [Hs ->]%deref_Some & E).
  destruct (negb _); unfold mret, M_ret in E; simplify_eq. split; by eexists.
Qed.

Lemma entry_point_spec doc pos spawn request show w g r w' :
  lsp_server_get doc spawn w = Some (r, w') ->
  (srv ← on_sessions (lsp_server_get doc spawn);
   match srv, doc with
   | Some srv, Some doc => perform_goto srv doc pos request show
   | Some _, None => fun _ => None
   | None, _ => mret tt
   end) (w, g) = Some (tt, (w', grown g (request_sent r doc pos request show))).
Proof.
  intros E. unfold mbind at 1, GM_bind at 1, on_sessions at 1. cbn [fst snd]. rewrite E.
  assert (Hsame : grown g [] = g) by (destruct g; unfold grown; cbn; by rewrite app_nil_r).
  destruct r as [a|]; [|unfold request_sent; by rewrite Hsame].
  destruct (lsp_server_get_live _ _ _ _ _ E) as [[d ->] [srv Hs]].
  unfold perform_goto, mbind, GM_bind, on_sessions, on_goto, deref. cbn [fst snd].
  rewrite Hs. reflexivity.
Qed.

(** X23: a goto request goes to the session of the current document, or
    nowhere.  Each of the five entry points looks the session of the
    current document up with lsp_server_get, which may launch the server,
    and leaves the sessions as that lookup leaves them.  If the lookup
    returns a session, one request is sent to it, with the URI of the
    document and the position as lsp_utils_scintilla_pos_to_lsp gives it:
    a definition, a declaration or a type definition to navigate to,
    implementations or references to list in the message window.  If the
    lookup returns none, or there is no current document, nothing is
    sent. *)
Theorem goto_request_goes_to_the_document_server doc pos spawn w g r w' :
  lsp_server_get doc spawn w = Some (r, w') ->
  lsp_goto_definition doc pos spawn (w, g)
    = Some (tt, (w', grown g (request_sent r doc pos "textDocument/definition" false)))
  /\ lsp_goto_declaration doc pos spawn (w, g)
     = Some (tt, (w', grown g (request_sent r doc pos "textDocument/declaration" false)))
  /\ lsp_goto_type_definition doc pos spawn (w, g)
     = Some (tt, (w', grown g (request_sent r doc pos "textDocument/typeDefinition" false)))
  /\ lsp_goto_implementations doc pos spawn (w, g)
     = Some (tt, (w', grown g (request_sent r doc pos "textDocument/implementation" true)))
  /\ lsp_goto_references doc pos spawn (w, g)
     = Some (tt, (w', grown g (request_sent r doc pos "textDocument/references" true))).
Proof.
  intros E. repeat split; by apply entry_point_spec.
Qed.

End WithHosts.

End GotoFacts.

Lemma listing_reads_each_file_once_witness :
  exists t,
    Goto.goto_cb (H := Scenario.host) (H0 := Editor2.goto_host)
      (Reply (JArray Editor2.references)) [1%nat]
      {| Goto.goto_doc := 1; Goto.goto_show_in_msgwin := true |} Editor2.goto_initial
      = (tt, grown Editor2.goto_initial t)
    /\ count_loads "/src/main.c" t = 0%nat
    /\ (count_loads "/src/util.c" t <= 1)%nat.
Proof.
  assert (Hp : Goto.lsp_utils_parse_locations (GotoHost := Editor2.goto_host)
                 Editor2.references
               = Some [Editor2.location_at "file:///src/util.c" 4;
                       Editor2.location_at "file:///src/main.c" 0;
                       Editor2.location_at "file:///src/util.c" 9;
                       Editor2.location_at "file:///src/gone.c" 2])
    by (vm_compute; reflexivity).
  destruct (GotoFacts.listing_reads_each_file_once (H := Scenario.host)
              (H0 := Editor2.goto_host) Editor2.references _ [1%nat]
              {| Goto.goto_doc := 1; Goto.goto_show_in_msgwin := true |}
              Editor2.goto_initial "/src/main.c" eq_refl (list_elem_of_here _ _) Hp)
    as (t & E & Hopen & _).
  destruct (GotoFacts.listing_reads_each_file_once (H := Scenario.host)
              (H0 := Editor2.goto_host) Editor2.references _ [1%nat]
              {| Goto.goto_doc := 1; Goto.goto_show_in_msgwin := true |}
              Editor2.goto_initial "/src/util.c" eq_refl (list_elem_of_here _ _) Hp)
    as (t' & E' & _ & Hread).
  assert (Et : t' = t).
  { rewrite E in E'. injection E' as E'. unfold grown in E'. cbn in E'. congruence. }
  subst t'. exists t. split; [exact E|]. split.
  - apply Hopen. exists 10%nat. reflexivity.
  - apply Hread. exists 20%nat. reflexivity.
Defined.

Lemma listing_never_navigates_witness :
  exists t,
    Goto.goto_cb (H := Scenario.host) (H0 := Editor2.goto_host)
      (Reply (JArray Editor2.references)) [1%nat]
      {| Goto.goto_doc := 1; Goto.goto_show_in_msgwin := true |} Editor2.goto_initial
      = (tt, grown Editor2.goto_initial
               ([Goto.MsgwinClearTab; Goto.MsgwinSwitchTab] ++ t)%list)
    /\ Forall (fun e => navigates e = false) t
    /\ listed_lines t = [5; 1; 10; 3].
Proof.
  destruct (GotoFacts.listing_never_navigates (H := Scenario.host) (H0 := Editor2.goto_host)
              (JArray Editor2.references) [1%nat]
              {| Goto.goto_doc := 1; Goto.goto_show_in_msgwin := true |}
              Editor2.goto_initial eq_refl (list_elem_of_here _ _)) as (t & E & Hnav & Hlines).
  exists t. split; [exact E|]. split; [exact Hnav|]. rewrite Hlines. vm_compute. reflexivity.
Defined.

Lemma goto_reply_dispatch_witness :
  Goto.goto_cb (H := Scenario.host) (H0 := Editor2.goto_host)
    (Reply (Editor2.json_location "file:///src/util.c" 4)) [1%nat]
    {| Goto.goto_doc := 1; Goto.goto_show_in_msgwin := false |} Editor2.goto_initial
  = (tt, grown Editor2.goto_initial
           [Goto.DocumentOpenFile "/src/util.c"; Goto.NavqueueGotoLine 1 2 5])
  /\ Goto.goto_cb (H := Scenario.host) (H0 := Editor2.goto_host)
       (Reply (Editor2.json_location "file:///src/util.c" 4)) [2%nat]
       {| Goto.goto_doc := 1; Goto.goto_show_in_msgwin := false |} Editor2.goto_initial
     = (tt, Editor2.goto_initial).
Proof.
  destruct (GotoFacts.goto_reply_dispatch (H := Scenario.host) (H0 := Editor2.goto_host)
              (Editor2.json_location "file:///src/util.c" 4) [1%nat]
              {| Goto.goto_doc := 1; Goto.goto_show_in_msgwin := false |}
              Editor2.goto_initial) as (_ & _ & Hgoto).
  destruct (GotoFacts.goto_reply_dispatch (H := Scenario.host) (H0 := Editor2.goto_host)
              (Editor2.json_location "file:///src/util.c" 4) [2%nat]
              {| Goto.goto_doc := 1; Goto.goto_show_in_msgwin := false |}
              Editor2.goto_initial) as (_ & Hgone & _).
  split.
  - rewrite (Hgoto eq_refl (list_elem_of_here _ _)). vm_compute. reflexivity.
  - apply Hgone. cbn. apply not_elem_of_cons. split; [discriminate | apply not_elem_of_nil].
Defined.

Lemma goto_request_goes_to_the_document_server_witness :
  Goto.lsp_goto_definition (H := Scenario.host) (H0 := Editor2.goto_host)
    (Some Scenario.main_c) 7 None (Scenario.c_ready, Editor2.goto_initial)
  = Some (tt, (Scenario.c_ready,
               grown Editor2.goto_initial
                 [Goto.CallAsync 0%nat "textDocument/definition"
                    (JObject [
                       ("textDocument", JObject [("uri", JString "file:///src/main.c")]);
                       ("position", JObject [("line", JInt 0); ("character", JInt 7)])])
                    {| Goto.goto_doc := 1; Goto.goto_show_in_msgwin := false |}]))
  /\ Goto.lsp_goto_references (H := Scenario.host) (H0 := Editor2.goto_host)
       (Some Scenario.untitled) 7 None (Scenario.c_ready, Editor2.goto_initial)
     = Some (tt, (Scenario.c_ready, grown Editor2.goto_initial [])).
Proof.
  assert (E1 : lsp_server_get (H := Scenario.host) (Some Scenario.main_c) None Scenario.c_ready
               = Some (Some 0%nat, Scenario.c_ready)) by (vm_compute; reflexivity).
  assert (E2 : lsp_server_get (H := Scenario.host) (Some Scenario.untitled) None
                 Scenario.c_ready = Some (None, Scenario.c_ready)) by (vm_compute; reflexivity).
  destruct (GotoFacts.goto_request_goes_to_the_document_server (H := Scenario.host)
              (H0 := Editor2.goto_host) (Some Scenario.main_c) 7 None Scenario.c_ready
              Editor2.goto_initial _ _ E1) as (Hdef & _).
  destruct (GotoFacts.goto_request_goes_to_the_document_server (H := Scenario.host)
              (H0 := Editor2.goto_host) (Some Scenario.untitled) 7 None Scenario.c_ready
              Editor2.goto_initial _ _ E2) as (_ & _ & _ & _ & Href).
  split; [exact Hdef | exact Href].
Defined.

(** ** The collected initialize responses *)

Lemma string_app_assoc (a b c : string) : (a +:+ b) +:+ c = a +:+ (b +:+ c).
Proof.
  induction a as [|x a IH]; [reflexivity|].
  change (String x a +:+ b) with (String x (a +:+ b)).
  change (String x (a +:+ b) +:+ c) with (String x ((a +:+ b) +:+ c)).
  change (String x a +:+ (b +:+ c)) with (String x (a +:+ (b +:+ c))).
  by rewrite IH.
Qed.

Lemma string_length_app (a b : string) :
  String.length (a +:+ b) = (String.length a + String.length b)%nat.
Proof.
  induction a as [|x a IH]; [reflexivity|].
  change (String x a +:+ b) with (String x (a +:+ b)). cbn [String.length]. by rewrite IH.
Qed.

Lemma substring_app_l (a b : string) : substring 0 (String.length a) (a +:+ b) = a.
Proof.
  induction a as [|x a IH]; [by destruct b|].
  change (String x a +:+ b) with (String x (a +:+ b)). cbn [String.length substring].
  by rewrite IH.
Qed.

Lemma substring_nothing n (s : string) : substring n 0 s = "".
Proof. revert n. induction s as [|x s IH]; intros [|n]; cbn [substring]; auto. Qed.

(** A buffer that ends with a comma loses it. *)
Lemma erase_trailing_comma (s : string) :
  g_str_has_suffix (s +:+ ",") "," = true
  /\ g_string_erase (s +:+ ",") (String.length (s +:+ ",") - 1) 1 = s.
Proof.
  split.
  - unfold g_str_has_suffix. rewrite rev_app_distr.
    change (String.rev "," +:+ String.rev s) with (String "," (String.rev s)).
    change (String.rev ",") with ",". cbn. by destruct (String.rev s).
  - unfold g_string_erase. rewrite string_length_app. cbn [String.length].
    replace (String.length s + 1 - 1)%nat with (String.length s) by lia.
    rewrite substring_app_l.
    replace (String.length s + 1 - (String.length s + 1))%nat with 0%nat by lia.
    by rewrite substring_nothing, string_app_nil_r.
Qed.

Section ResponsesFacts.

Context `{Host}.

(** The loop adds the blocks of the rest of the registry to the buffer. *)
Lemma responses_loop_spec servers w str first :
  (forall a, a ∈ servers -> is_Some (heap w !! a)) ->
  exists str',
    responses_loop servers str first w = Some (str', w)
    /\ match omap (response_entry w) servers with
       | [] => str' = str
       | entries => str' = str +:+ (if first then "" else NEXT_SERVER)
                            +:+ response_blocks entries +:+ ","
       end.
Proof.
  revert str first. induction servers as [|a rest IH]; intros str first Hlive.
  - exists str. by split.
  - destruct (Hlive a) as [srv Hs]; [by left|].
    assert (Hrest : forall b, b ∈ rest -> is_Some (heap w !! b))
      by (intros b Hb; apply Hlive; by right).
    cbn [responses_loop]. rewrite (bind_deref _ _ _ _ Hs).
    cbn [omap list_omap]. unfold response_entry at 1. rewrite Hs.
    cbn [mbind option_bind].
    destruct (cmd (config srv)) as [command|] eqn:Ec; cbn [mbind option_bind];
      [destruct (initialize_response srv) as [response|] eqn:Er; cbn [mbind option_bind]|].
    + match goal with
      | |- context [responses_loop rest ?S false w] =>
          destruct (IH S false Hrest) as (str' & E & Hform)
      end.
      exists str'. split; [exact E|].
      destruct (omap (response_entry w) rest) as [|e es] eqn:Eo.
      * rewrite Hform. cbn [response_blocks]. unfold response_block.
        destruct first; cbn [negb]; rewrite ?string_app_assoc; reflexivity.
      * rewrite Hform. cbn [response_blocks]. unfold response_block.
        destruct e as [c2 r2].
        destruct first; cbn [negb]; rewrite ?string_app_assoc; reflexivity.
    + destruct (IH str first Hrest) as (str' & E & Hform).
      exists str'. by split.
    + destruct (IH str first Hrest) as (str' & E & Hform).
      exists str'. by split.
Qed.

(** X24: the collected initialize responses are one well-formed object.
    Without a registry lsp_server_get_initialize_responses returns NULL.
    With one it returns an opening brace, one block per session that has a
    command and an initialize response, in slot order, each the quoted
    command, a colon and the response, with a comma and the next-server
    line between two blocks, and a closing brace on a line of its own: the
    comma the loop leaves after the last block is erased, and when no
    session has a response the result is the pair of braces.  The state is
    left as it is. *)
Theorem initialize_responses_are_one_object w :
  (lsp_servers w = None -> lsp_server_get_initialize_responses w = Some (None, w))
  /\ (forall servers,
        lsp_servers w = Some servers -> (forall a, a ∈ servers -> is_Some (heap w !! a)) ->
        lsp_server_get_initialize_responses w =
          Some (Some ("{" +:+ response_blocks (omap (response_entry w) servers)
                          +:+ LF +:+ "}"), w)).
Proof.
  split.
  - intros Hl. unfold lsp_server_get_initialize_responses, mbind, M_bind, get_world.
    by rewrite Hl.
  - intros servers Hl Hlive.
    unfold lsp_server_get_initialize_responses, mbind at 1, M_bind at 1, get_world.
    rewrite Hl.
    destruct (responses_loop_spec servers w "{" true Hlive) as (str & E & Hform).
    unfold mbind, M_bind. rewrite E. unfold mret, M_ret. do 3 f_equal.
    destruct (omap (response_entry w) servers) as [|e es].
    + subst str. reflexivity.
    + assert (Estr : str = ("{" +:+ response_blocks (e :: es)) +:+ ",")
        by (rewrite Hform, string_app_assoc; reflexivity).
      rewrite Estr.
      destruct (erase_trailing_comma ("{" +:+ response_blocks (e :: es))) as [-> ->].
      by rewrite string_app_assoc.
Qed.

End ResponsesFacts.

Lemma initialize_responses_are_one_object_witness :
  lsp_server_get_initialize_responses initial_world = Some (None, initial_world)
  /\ lsp_server_get_initialize_responses Scenario.c_ready
     = Some (Some ("{" +:+ response_block "clangd" "{}" +:+ LF +:+ "}"), Scenario.c_ready)
  /\ lsp_server_get_initialize_responses Scenario.loaded
     = Some (Some ("{" +:+ LF +:+ "}"), Scenario.loaded).
Proof.
  split; [apply initialize_responses_are_one_object; reflexivity|].
  assert (Hall : forall w, heap w !! 0%nat <> None -> heap w !! 1%nat <> None ->
                   heap w !! 2%nat <> None -> heap w !! 3%nat <> None ->
                   heap w !! 4%nat <> None ->
                   forall a, a ∈ [0; 1; 2; 3; 4]%nat -> is_Some (heap w !! a)).
  { intros w H0 H1 H2 H3 H4 a Ha. apply not_eq_None_Some.
    repeat (apply elem_of_cons in Ha as [->|Ha]; [assumption|]). by apply elem_of_nil in Ha. }
  split.
  - destruct (initialize_responses_are_one_object Scenario.c_ready) as [_ Hsome].
    rewrite (Hsome [0; 1; 2; 3; 4]%nat).
    + vm_compute. reflexivity.
    + vm_compute. reflexivity.
    + apply Hall; vm_compute; discriminate.
  - destruct (initialize_responses_are_one_object Scenario.loaded) as [_ Hsome].
    rewrite (Hsome [0; 1; 2; 3; 4]%nat).
    + vm_compute. reflexivity.
    + vm_compute. reflexivity.
    + apply Hall; vm_compute; discriminate.
Defined.
